(** * The fake engine of phy-api-go: operations on the in-memory server records

    A shallow embedding of package [fake] (the engine operations of
    [ListServers] .. [startServerPowerControl]) and of the parts of package
    [openapi] those operations touch.

    Conventions of the embedding
    - a Go pointer to a record that lives in a slice of the engine is the
      index of the record in that slice ([*Server] is an index into
      [engine.Servers]);
    - a Go pointer to a separately allocated object that is handed out to
      callers ([*openapi.ServerPowerStatus]) is an address in an explicit heap,
      so that aliasing between the store and its callers is visible;
    - [nil] is [None]; a [nil] slice is the empty list;
    - every operation is a function from the machine state to an outcome and a
      new machine state; [return nil, err] is [Failure], a run-time panic is
      [Panicked];
    - [go f()] appends the closure, defunctionalised as a [Task], to the list
      of goroutines of the machine; a goroutine runs when the scheduler picks
      it ([schedule]), never inside the operation that spawned it. *)

From stdpp Require Import base option list list_misc strings numbers.

Open Scope Z_scope.
Open Scope string_scope.

(** ** Package openapi: the types and constants the engine uses *)

Module openapi.

(** Modelled from the spec: the values of the string enumerations are
    declared in the generated code of package openapi; they are spelled as
    the specification spells them. Only their being distinct matters
    below. *)
Definition BondingTypeLacp : string := "lacp".
Definition BondingTypeStatic : string := "static".
Definition BondingTypeSingle : string := "single".
Definition AssignNetworkParameterInternetTypeCommonSubnet : string := "common-subnet".
Definition AssignNetworkParameterInternetTypeDedicatedSubnet : string := "dedicated-subnet".
Definition InternetSubnetTypeCommonSubnet : string := "common-subnet".
Definition InternetSubnetTypeDedicatedSubnet : string := "dedicated-subnet".
Definition AssignNetworkParameterModeAccess : string := "access".
Definition AssignNetworkParameterModeTrunk : string := "trunk".
Definition InterfacePortModeAccess : string := "access".
Definition InterfacePortModeTrunk : string := "trunk".
Definition ServerLockStatusOsInstall : string := "installing".
Definition ServerPowerStatusStatusOn : string := "on".
Definition ServerPowerStatusStatusOff : string := "off".
Definition CachedPowerStatusStatusOn : string := "on".
Definition CachedPowerStatusStatusOff : string := "off".

Module AttachedDedicatedSubnet.
Record t := mk { DedicatedSubnetId : string; Nickname : string }.
End AttachedDedicatedSubnet.

Module Internet.
Record t := mk {
  DedicatedSubnet : option AttachedDedicatedSubnet.t;
  NetworkAddress : string;
  PrefixLength : Z;
  SubnetType : string }.
End Internet.

Module AttachedPrivateNetwork.
Record t := mk { Nickname : string; PrivateNetworkId : string }.
End AttachedPrivateNetwork.

Module InterfacePort.
Record t := mk {
  Enabled : bool;
  Nickname : string;
  PortChannelId : Z;
  PortId : Z;
  Internet : option Internet.t;
  Mode : option string;
  PrivateNetworks : list AttachedPrivateNetwork.t;
  GlobalBandwidthMbps : option Z;
  LocalBandwidthMbps : option Z }.

(** [openapi.InterfacePort{Enabled: .., Nickname: .., PortChannelId: ..,
    PortId: ..}]: the fields left out of the literal are zero. *)
Definition literal (enabled : bool) (nickname : string) (channel id : Z) : t :=
  mk enabled nickname channel id None None [] None None.

Definition set_Enabled (v : bool) (p : t) : t :=
  mk v (Nickname p) (PortChannelId p) (PortId p) (Internet p) (Mode p)
     (PrivateNetworks p) (GlobalBandwidthMbps p) (LocalBandwidthMbps p).
Definition set_Nickname (v : string) (p : t) : t :=
  mk (Enabled p) v (PortChannelId p) (PortId p) (Internet p) (Mode p)
     (PrivateNetworks p) (GlobalBandwidthMbps p) (LocalBandwidthMbps p).
Definition set_Internet (v : option Internet.t) (p : t) : t :=
  mk (Enabled p) (Nickname p) (PortChannelId p) (PortId p) v (Mode p)
     (PrivateNetworks p) (GlobalBandwidthMbps p) (LocalBandwidthMbps p).
Definition set_Mode (v : option string) (p : t) : t :=
  mk (Enabled p) (Nickname p) (PortChannelId p) (PortId p) (Internet p) v
     (PrivateNetworks p) (GlobalBandwidthMbps p) (LocalBandwidthMbps p).
Definition set_PrivateNetworks (v : list AttachedPrivateNetwork.t) (p : t) : t :=
  mk (Enabled p) (Nickname p) (PortChannelId p) (PortId p) (Internet p) (Mode p)
     v (GlobalBandwidthMbps p) (LocalBandwidthMbps p).
Definition set_GlobalBandwidthMbps (v : option Z) (p : t) : t :=
  mk (Enabled p) (Nickname p) (PortChannelId p) (PortId p) (Internet p) (Mode p)
     (PrivateNetworks p) v (LocalBandwidthMbps p).
Definition set_LocalBandwidthMbps (v : option Z) (p : t) : t :=
  mk (Enabled p) (Nickname p) (PortChannelId p) (PortId p) (Internet p) (Mode p)
     (PrivateNetworks p) (GlobalBandwidthMbps p) v.
End InterfacePort.

Module PortChannel.
Record t := mk {
  PortChannelId : Z;
  LinkSpeedType : string;
  Ports : list Z }.
Definition set_Ports (v : list Z) (c : t) : t :=
  mk (PortChannelId c) (LinkSpeedType c) v.
End PortChannel.

Module CachedPowerStatus.
Record t := mk { Status : string; Stored : Z }.
End CachedPowerStatus.

Module ServerPowerStatus.
Record t := mk { Status : string }.
End ServerPowerStatus.

Module OsImage.
Record t := mk { OsImageId : string }.
End OsImage.

Module Server.
Record t := mk {
  ServerId : string;
  Ports : list InterfacePort.t;
  PortChannels : list PortChannel.t;
  LockStatus : option string;
  CachedPowerStatus : option CachedPowerStatus.t }.
Definition set_Ports (v : list InterfacePort.t) (s : t) : t :=
  mk (ServerId s) v (PortChannels s) (LockStatus s) (CachedPowerStatus s).
Definition set_PortChannels (v : list PortChannel.t) (s : t) : t :=
  mk (ServerId s) (Ports s) v (LockStatus s) (CachedPowerStatus s).
Definition set_LockStatus (v : option string) (s : t) : t :=
  mk (ServerId s) (Ports s) (PortChannels s) v (CachedPowerStatus s).
Definition set_CachedPowerStatus (v : option CachedPowerStatus.t) (s : t) : t :=
  mk (ServerId s) (Ports s) (PortChannels s) (LockStatus s) v.
End Server.

Module Service.
Record t := mk { Nickname : string }.
End Service.

Module Ipv4.
Record t := mk { NetworkAddress : string; PrefixLength : Z }.
End Ipv4.

Module DedicatedSubnet.
Record t := mk {
  DedicatedSubnetId : string;
  Service : Service.t;
  Ipv4 : Ipv4.t }.
End DedicatedSubnet.

Module PrivateNetwork.
Record t := mk { PrivateNetworkId : string; Service : Service.t }.
End PrivateNetwork.

(** Request parameters. A field of pointer type is an [option]. *)
Module OsInstallParameter.
Record t := mk { OsImageId : string }.
End OsInstallParameter.

Module ConfigureBondingParameter.
Record t := mk { BondingType : string; PortNicknames : option (list string) }.
End ConfigureBondingParameter.

Module AssignNetworkParameter.
Record t := mk {
  InternetType : option string;
  DedicatedSubnetId : option string;
  Mode : string;
  PrivateNetworkIds : option (list string) }.
End AssignNetworkParameter.

Module PowerControlParameter.
Record t := mk { Operation : string }.
End PowerControlParameter.

Module UpdateServerPortParameter.
Record t := mk { Nickname : string }.
End UpdateServerPortParameter.

Module EnableServerPortParameter.
Record t := mk { Enable : bool }.
End EnableServerPortParameter.

(** The parameters of [ListServers], [ReadServerTrafficByPort] and
    [ReadRAIDStatus]: the engine reads none of their fields. *)
Module ListServersParams.
Inductive t := mk.
End ListServersParams.

Module ReadRAIDStatusParams.
Inductive t := mk.
End ReadRAIDStatusParams.

Module ReadServerTrafficByPortParams.
Inductive t := mk.
End ReadServerTrafficByPortParams.

Module PaginateMeta.
Record t := mk { Count : Z }.
End PaginateMeta.

Module Servers.
Record t := mk { Meta : PaginateMeta.t; Servers : list Server.t }.
End Servers.

(** A point of a traffic graph; [Timestamp] is a [time.Time], in nanoseconds. *)
Module TrafficGraphData.
Record t := mk { Timestamp : Z; Value : Z }.
End TrafficGraphData.

Module TrafficGraph.
Record t := mk {
  Receive : list TrafficGraphData.t;
  Transmit : list TrafficGraphData.t }.
End TrafficGraph.

End openapi.

Import openapi.

(** ** Package fake: errors *)

Inductive ErrorType := ErrorTypeNotFound | ErrorTypeConflict | ErrorTypeInvalidRequest.

(** An argument of interface type as [NewError] receives it: a string, an
    integer, or a pointer to a string. *)
Inductive Arg :=
| ArgString (s : string)
| ArgInt (n : Z)
| ArgStringPtr (p : option string).

Module Error.
Record t := mk {
  Type_ : ErrorType;
  Resource : string;
  Id : Arg;
  MsgAndArgs : list Arg }.
End Error.

(** Modelled from the spec: [NewError] is declared in another file of the
    package. Each error carries its kind, the resource kind and the identifiers
    involved; the model keeps the arguments of the call as they are given and
    renders no message text. *)
Definition NewError (t : ErrorType) (resource : string) (id : Arg) (msgAndArgs : list Arg) : Error.t :=
  Error.mk t resource id msgAndArgs.

(** ** Package fake: the records of the engine and the machine around it *)

(** An address in the heap of power-status objects. *)
Definition addr := nat.

(** The identity of a RAID-status object. No function of the engine reads or
    writes such an object, so the machine keeps none of them. *)
Definition raid := nat.

(** The record of a server. [PowerStatus] and [RaidStatus] are pointers;
    [RaidStatus] is only read, by [ReadRAIDStatus]. *)
Module Server.
Record t := mk {
  Server : openapi.Server.t;
  OSImages : list OsImage.t;
  PowerStatus : option addr;
  RaidStatus : option raid }.
Definition set_Server (v : openapi.Server.t) (s : t) : t :=
  mk v (OSImages s) (PowerStatus s) (RaidStatus s).
Definition set_PowerStatus (v : option addr) (s : t) : t :=
  mk (Server s) (OSImages s) v (RaidStatus s).
(** Modelled from the spec: [Id] is declared in another file of the
    package; a server record is identified by its unique identifier string. *)
Definition Id (s : t) : string := openapi.Server.ServerId (Server s).
End Server.

(** Modelled from the spec: the fields of [Engine] other than [Servers] are
    declared in another file of the package: the read-only catalogs of dedicated
    subnets and private networks, and the counter of the identifier
    allocator. *)
Module Engine.
Record t := mk {
  Servers : list Server.t;
  DedicatedSubnets : list DedicatedSubnet.t;
  PrivateNetworks : list PrivateNetwork.t;
  GeneratedID : Z }.
Definition set_Servers (v : list Server.t) (e : t) : t :=
  mk v (DedicatedSubnets e) (PrivateNetworks e) (GeneratedID e).
Definition set_GeneratedID (v : Z) (e : t) : t :=
  mk (Servers e) (DedicatedSubnets e) (PrivateNetworks e) v.
End Engine.

(** The closures this package hands to [go engine.startUpdateAction(..)],
    each with the variables it captures. [server] is the captured [*Server]. *)
Inductive Task :=
| OSInstallStart (server : nat)
| OSInstallFinish (server : nat)
| PowerControlUpdate (server : nat) (powerStates cachedPowerStatus : string).

Module Machine.
Record t := mk {
  engine : Engine.t;
  heap : list ServerPowerStatus.t;
  goroutines : list Task }.
Definition set_engine (v : Engine.t) (m : t) : t := mk v (heap m) (goroutines m).
Definition set_heap (v : list ServerPowerStatus.t) (m : t) : t := mk (engine m) v (goroutines m).
Definition set_goroutines (v : list Task) (m : t) : t := mk (engine m) (heap m) v.
End Machine.

(** ** Outcomes and the monad of engine operations *)

Inductive Outcome (A : Type) :=
| Return (a : A)
| Failure (e : Error.t)
| Panicked (reason : string).
Arguments Return {A} a.
Arguments Failure {A} e.
Arguments Panicked {A} reason.

Definition Go (A : Type) : Type := Machine.t → Outcome A * Machine.t.

Definition ret {A} (a : A) : Go A := λ m, (Return a, m).
Definition fail {A} (e : Error.t) : Go A := λ m, (Failure e, m).
Definition panic {A} (reason : string) : Go A := λ m, (Panicked reason, m).
Definition bind {A B} (c : Go A) (k : A → Go B) : Go B :=
  λ m, match c m with
       | (Return a, m') => k a m'
       | (Failure e, m') => (Failure e, m')
       | (Panicked r, m') => (Panicked r, m')
       end.
Definition get : Go Machine.t := λ m, (Return m, m).
Definition modify (f : Machine.t → Machine.t) : Go unit := λ m, (Return tt, f m).

Declare Scope go_scope.
Delimit Scope go_scope with go.
Notation "'let*' x := c 'in' k" := (bind c (λ x, k))
  (at level 10, x name, c at level 100, k at level 200) : go_scope.
Notation "c >> k" := (bind c (λ _, k))
  (at level 100, k at level 200, right associativity) : go_scope.
Open Scope go_scope.

Definition nil_dereference : string := "invalid memory address or nil pointer dereference".
Definition index_out_of_range : string := "index out of range".

(** ** Memory: pointers into the store and into the heap *)

Section Memory.
Import Machine Engine.

Definition servers (m : Machine.t) : list Server.t := Servers (engine m).

Definition set_servers (v : list Server.t) (m : Machine.t) : Machine.t :=
  set_engine (set_Servers v (engine m)) m.

(** [*s] for [s : *Server]. *)
Definition load (s : nat) : Go Server.t :=
  λ m, match servers m !! s with
       | Some sv => (Return sv, m)
       | None => (Panicked nil_dereference, m)
       end.

(** An assignment through [s : *Server]. *)
Definition store (s : nat) (f : Server.t → Server.t) : Go unit :=
  let* sv := load s in
  modify (λ m, set_servers (<[s := f sv]> (servers m)) m).

(** An assignment to a field of [*s.Server]. *)
Definition storeServer (s : nat) (f : openapi.Server.t → openapi.Server.t) : Go unit :=
  store s (λ sv, Server.set_Server (f (Server.Server sv)) sv).

(** [*port] for a pointer to the [port]-th element of [s.Server.Ports]. *)
Definition loadPort (s port : nat) : Go InterfacePort.t :=
  let* sv := load s in
  match openapi.Server.Ports (Server.Server sv) !! port with
  | Some p => ret p
  | None => panic nil_dereference
  end.

(** An assignment to a field of [*port]. *)
Definition storePort (s port : nat) (f : InterfacePort.t → InterfacePort.t) : Go unit :=
  let* p := loadPort s port in
  storeServer s (λ sv, openapi.Server.set_Ports (<[port := f p]> (openapi.Server.Ports sv)) sv).

(** [*portChannel] for a pointer to an element of [s.Server.PortChannels]. *)
Definition loadPortChannel (s portChannel : nat) : Go PortChannel.t :=
  let* sv := load s in
  match openapi.Server.PortChannels (Server.Server sv) !! portChannel with
  | Some c => ret c
  | None => panic nil_dereference
  end.

(** An assignment to a field of [*portChannel]. *)
Definition storePortChannel (s portChannel : nat) (f : PortChannel.t → PortChannel.t) : Go unit :=
  let* c := loadPortChannel s portChannel in
  storeServer s (λ sv, openapi.Server.set_PortChannels (<[portChannel := f c]> (openapi.Server.PortChannels sv)) sv).

(** [&openapi.ServerPowerStatus{..}]: a fresh object at a fresh address. *)
Definition new (v : ServerPowerStatus.t) : Go addr :=
  λ m, (Return (length (heap m)), set_heap (heap m ++ [v]) m).

(** [*p] for [p : *openapi.ServerPowerStatus]. *)
Definition deref (p : option addr) : Go ServerPowerStatus.t :=
  λ m, match p ≫= (λ a, heap m !! a) with
       | Some v => (Return v, m)
       | None => (Panicked nil_dereference, m)
       end.

(** [*p = v] for [p : *openapi.ServerPowerStatus], by whoever holds [p]. *)
Definition assign (p : option addr) (v : ServerPowerStatus.t) : Go unit :=
  let* _ := deref p in
  modify (λ m, set_heap (<[default 0%nat p := v]> (heap m)) m).

(** [go engine.startUpdateAction(f)], with [f] one of the closures of
    [Task]: the goroutine is created and the caller goes on. *)
Definition go (f : Task) : Go unit :=
  modify (λ m, set_goroutines (goroutines m ++ [f]) m).

End Memory.

(** ** Lookups *)

Section Lookups.
Import Machine Engine.

(** [engine.getServerById]: the first record of [engine.Servers] with the
    identifier, as a pointer, or [nil]. *)
Definition findServer (serverId : string) (l : list Server.t) : option (nat * Server.t) :=
  list_find (λ s, Server.Id s = serverId) l.

Definition getServerById (serverId : string) : Go (option nat) :=
  let* m := get in
  ret (fst <$> findServer serverId (servers m)).

(** Modelled from the spec: [getPortById] is declared in another file of
    the package. Lookup by identifier scans the collection and returns the internal
    record, for further mutation by the operation that holds the lock, or
    not-found for the resource kind and identifier. *)
Definition findPort (portId : Z) (l : list InterfacePort.t) : option (nat * InterfacePort.t) :=
  list_find (λ p, InterfacePort.PortId p = portId) l.

Definition getPortById (s : nat) (portId : Z) : Go nat :=
  let* sv := load s in
  match findPort portId (openapi.Server.Ports (Server.Server sv)) with
  | Some (port, _) => ret port
  | None => fail (NewError ErrorTypeNotFound "port" (ArgInt portId) [])
  end.

(** Modelled from the spec: [getPortChannelById] is declared in another
    file of the package; it is the lookup by identifier among the port channels
    of the server, as [getPortById] is among its ports. *)
Definition findPortChannel (portChannelId : Z) (l : list PortChannel.t) : option (nat * PortChannel.t) :=
  list_find (λ c, PortChannel.PortChannelId c = portChannelId) l.

Definition getPortChannelById (s : nat) (portChannelId : Z) : Go nat :=
  let* sv := load s in
  match findPortChannel portChannelId (openapi.Server.PortChannels (Server.Server sv)) with
  | Some (portChannel, _) => ret portChannel
  | None => fail (NewError ErrorTypeNotFound "port-channel" (ArgInt portChannelId) [])
  end.

(** Modelled from the spec: [updatePort] is declared in another file of the
    package. After a mutation the change is propagated back through the stored
    collection of the owning server: every stored port with the identifier
    of [*port] becomes [*port]. *)
Definition updatePort (s port : nat) : Go unit :=
  let* p := loadPort s port in
  storeServer s (λ sv,
    openapi.Server.set_Ports
      ((λ q, if decide (InterfacePort.PortId q = InterfacePort.PortId p) then p else q)
         <$> openapi.Server.Ports sv) sv).

(** Modelled from the spec: [updatePortChannel] is declared in another file
    of the package; it propagates [*portChannel] back through the stored
    port channels of the server, as [updatePort] does for a port. *)
Definition updatePortChannel (s portChannel : nat) : Go unit :=
  let* c := loadPortChannel s portChannel in
  storeServer s (λ sv,
    openapi.Server.set_PortChannels
      ((λ d, if decide (PortChannel.PortChannelId d = PortChannel.PortChannelId c) then c else d)
         <$> openapi.Server.PortChannels sv) sv).

(** Modelled from the spec: [getDedicatedSubnetById] and
    [getPrivateNetworkById] are declared in another file of the package; the
    catalogs are read-only and looked up by identifier. *)
Definition getDedicatedSubnetById (id : string) : Go (option DedicatedSubnet.t) :=
  let* m := get in
  ret (snd <$> list_find (λ d, DedicatedSubnet.DedicatedSubnetId d = id)
                 (DedicatedSubnets (engine m))).

Definition getPrivateNetworkById (id : string) : Go (option PrivateNetwork.t) :=
  let* m := get in
  ret (snd <$> list_find (λ n, PrivateNetwork.PrivateNetworkId n = id)
                 (PrivateNetworks (engine m))).

(** Modelled from the spec: [nextId] is declared in another file of the
    package; the allocator issues monotonically increasing integers. *)
Definition nextId : Go Z :=
  let* m := get in
  let id := GeneratedID (engine m) + 1 in
  modify (λ m, set_engine (set_GeneratedID id (engine m)) m) >>
  ret id.

End Lookups.

(** ** Background actions *)

Section Actions.
Import Machine Engine.

(** [engine.startOSInstall]. *)
Definition startOSInstall (server : nat) : Go unit :=
  go (OSInstallStart server).

(** [engine.startServerPowerControl]: the two status values are chosen by
    the caller's goroutine, the records are replaced by the closure. A
    [switch] without [default] leaves the zero value, the empty string. *)
Definition startServerPowerControl (server : nat) (params : PowerControlParameter.t) : Go unit :=
  let op := PowerControlParameter.Operation params in
  let '(powerStates, cachedPowerStatus) :=
    if decide (op = "on" ∨ op = "reset") then
      (ServerPowerStatusStatusOn, CachedPowerStatusStatusOn)
    else if decide (op = "soft" ∨ op = "off") then
      (ServerPowerStatusStatusOff, CachedPowerStatusStatusOff)
    else ("", "") in
  go (PowerControlUpdate server powerStates cachedPowerStatus).

(** The bodies of the closures; [now] is what [time.Now()] returns when the
    closure runs. *)
Definition closure (now : Z) (f : Task) : Go unit :=
  match f with
  | OSInstallStart server =>
      let status := ServerLockStatusOsInstall in
      storeServer server (openapi.Server.set_LockStatus (Some status)) >>
      go (OSInstallFinish server)
  | OSInstallFinish server =>
      storeServer server (openapi.Server.set_LockStatus None)
  | PowerControlUpdate server powerStates cachedPowerStatus =>
      let* p := new (ServerPowerStatus.mk powerStates) in
      store server (Server.set_PowerStatus (Some p)) >>
      storeServer server
        (openapi.Server.set_CachedPowerStatus (Some (CachedPowerStatus.mk cachedPowerStatus now)))
  end.

(** Modelled from the spec: [startUpdateAction] is declared in another file
    of the package. It performs the action it is given, in the goroutine
    that [go] created for it; whether it waits or takes the lock of the
    engine before is not part of the model, where operations and goroutines
    run one at a time. *)
Definition startUpdateAction (f : Go unit) : Go unit := f.

(** The scheduler runs the [i]-th waiting goroutine to completion. *)
Definition schedule (now : Z) (i : nat) : Go unit :=
  let* m := get in
  match goroutines m !! i with
  | Some f =>
      modify (set_goroutines (delete i (goroutines m))) >>
      startUpdateAction (closure now f)
  | None => ret tt
  end.

End Actions.

(** ** The operations of the engine *)

Section Operations.
Import Machine Engine.

(** [ReadServer]; [deepcopy.Copy] yields a record of its own. *)
Definition ReadServer (serverId : string) : Go openapi.Server.t :=
  let* s := getServerById serverId in
  match s with
  | Some s =>
      let* sv := load s in
      ret (Server.Server sv)
  | None => fail (NewError ErrorTypeNotFound "server" (ArgString serverId) [])
  end.

(** [ListOSImages]. *)
Definition ListOSImages (serverId : string) : Go (list OsImage.t) :=
  let* s := getServerById serverId in
  match s with
  | Some s =>
      let* sv := load s in
      ret (Server.OSImages sv)
  | None => fail (NewError ErrorTypeNotFound "server" (ArgString serverId) [])
  end.

(** The loop of [OSInstall] over [s.OSImages]. *)
Fixpoint rangeOSImages (serverId : string) (s : nat) (params : OsInstallParameter.t)
    (images : list OsImage.t) : Go unit :=
  match images with
  | image :: images =>
      if decide (OsImage.OsImageId image = OsInstallParameter.OsImageId params) then
        startOSInstall s >> ret tt
      else rangeOSImages serverId s params images
  | [] =>
      fail (NewError ErrorTypeNotFound "os-image"
              (ArgString (OsInstallParameter.OsImageId params))
              [ArgString "server[%s]"; ArgString serverId])
  end.

(** [OSInstall]. *)
Definition OSInstall (serverId : string) (params : OsInstallParameter.t) : Go unit :=
  let* s := getServerById serverId in
  match s with
  | Some s =>
      let* sv := load s in
      if openapi.Server.LockStatus (Server.Server sv) is Some _ then
        fail (NewError ErrorTypeConflict "server" (ArgString serverId) [])
      else rangeOSImages serverId s params (Server.OSImages sv)
  | None => fail (NewError ErrorTypeNotFound "server" (ArgString serverId) [])
  end.

(** [ReadServerPortChannel] and [ReadServerPort] hand out what the lookup
    returns. *)
Definition ReadServerPortChannel (serverId : string) (portChannelId : Z) : Go nat :=
  let* s := getServerById serverId in
  match s with
  | Some s => getPortChannelById s portChannelId
  | None => fail (NewError ErrorTypeNotFound "server" (ArgString serverId) [])
  end.

Definition ReadServerPort (serverId : string) (portId : Z) : Go nat :=
  let* s := getServerById serverId in
  match s with
  | Some s => getPortById s portId
  | None => fail (NewError ErrorTypeNotFound "server" (ArgString serverId) [])
  end.

(** The loop of the [single] case of [ServerConfigureBonding]: one port per
    name, each with an identifier of its own. *)
Fixpoint rangeNames (channel : Z) (names : list string) : Go (list InterfacePort.t) :=
  match names with
  | name :: names =>
      let* id := nextId in
      let port := InterfacePort.literal true name channel id in
      let* ports := rangeNames channel names in
      ret (port :: ports)
  | [] => ret []
  end.

(** The [switch] of [ServerConfigureBonding] over [params.BondingType]:
    the ports to create for the port channel [c]. *)
Definition switchBondingType (c : PortChannel.t) (portChannelId : Z)
    (params : ConfigureBondingParameter.t) : Go (list InterfacePort.t) :=
  let bondingType := ConfigureBondingParameter.BondingType params in
  let nicknames := ConfigureBondingParameter.PortNicknames params in
  if decide (bondingType = BondingTypeLacp ∨ bondingType = BondingTypeStatic) then
    if decide (is_Some nicknames ∧ length (default [] nicknames) ≠ 1%nat) then
      fail (NewError ErrorTypeInvalidRequest "port-channel" (ArgInt portChannelId)
              [ArgString "invalid PortNicknames"])
    else
      let* name :=
        match nicknames with
        | Some names =>
            match names with
            | name0 :: _ =>
                if decide (name0 ≠ "") then ret name0
                else ret (PortChannel.LinkSpeedType c)
            | [] => panic index_out_of_range
            end
        | None => ret (PortChannel.LinkSpeedType c)
        end in
      let* id := nextId in
      ret [InterfacePort.literal true name (PortChannel.PortChannelId c) id]
  else if decide (bondingType = BondingTypeSingle) then
    if decide (is_Some nicknames ∧ length (default [] nicknames) ≠ 2%nat) then
      fail (NewError ErrorTypeInvalidRequest "port-channel" (ArgInt portChannelId)
              [ArgString "invalid PortNicknames"])
    else
      let prefix := PortChannel.LinkSpeedType c in
      let names := default [prefix ++ " 1"; prefix ++ " 2"] nicknames in
      rangeNames (PortChannel.PortChannelId c) names
  else ret [].

(** [ServerConfigureBonding]. The operation returns [portChannel]; the
    model returns the record behind the pointer at that moment. *)
Definition ServerConfigureBonding (serverId : string) (portChannelId : Z)
    (params : ConfigureBondingParameter.t) : Go PortChannel.t :=
  let* s := getServerById serverId in
  match s with
  | Some s =>
      let* portChannel := getPortChannelById s portChannelId in
      let* c := loadPortChannel s portChannel in
      let* ports := switchBondingType c portChannelId params in
      let portIds := InterfacePort.PortId <$> ports in
      storeServer s (openapi.Server.set_Ports ports) >>
      storePortChannel s portChannel (PortChannel.set_Ports portIds) >>
      updatePortChannel s portChannel >>
      loadPortChannel s portChannel
  | None => fail (NewError ErrorTypeNotFound "server" (ArgString serverId) [])
  end.

(** The loop of [ServerAssignNetwork] over [*params.PrivateNetworkIds]. *)
Fixpoint rangePrivateNetworkIds (s port : nat) (portId : Z) (ids : list string) : Go unit :=
  match ids with
  | id :: ids =>
      let* pn := getPrivateNetworkById id in
      match pn with
      | None =>
          fail (NewError ErrorTypeInvalidRequest "port" (ArgInt portId)
                  [ArgString "invalid private network id: %s"; ArgString id])
      | Some pn =>
          storePort s port (λ p,
            InterfacePort.set_PrivateNetworks
              (InterfacePort.PrivateNetworks p ++
                 [AttachedPrivateNetwork.mk
                    (Service.Nickname (PrivateNetwork.Service pn))
                    (PrivateNetwork.PrivateNetworkId pn)]) p) >>
          rangePrivateNetworkIds s port portId ids
      end
  | [] => ret tt
  end.

(** The [if] and [switch] of [ServerAssignNetwork] over
    [params.InternetType]: the value of the local [internet]. *)
Definition switchInternetType (s port : nat) (portId : Z)
    (params : AssignNetworkParameter.t) : Go (option Internet.t) :=
  match AssignNetworkParameter.InternetType params with
  | Some internetType =>
      if decide (internetType = AssignNetworkParameterInternetTypeCommonSubnet) then
        let internet := Internet.mk None "203.0.113.0" 24 InternetSubnetTypeCommonSubnet in
        let mbps := 100 in
        storePort s port (InterfacePort.set_GlobalBandwidthMbps (Some mbps)) >>
        ret (Some internet)
      else if decide (internetType = AssignNetworkParameterInternetTypeDedicatedSubnet) then
        match AssignNetworkParameter.DedicatedSubnetId params with
        | None => panic nil_dereference
        | Some id =>
            let* subnet := getDedicatedSubnetById id in
            match subnet with
            | None =>
                fail (NewError ErrorTypeInvalidRequest "port" (ArgInt portId)
                        [ArgString "invalid dedicated subnet id: %s";
                         ArgStringPtr (AssignNetworkParameter.DedicatedSubnetId params)])
            | Some subnet =>
                let internet :=
                  Internet.mk
                    (Some (AttachedDedicatedSubnet.mk
                             (DedicatedSubnet.DedicatedSubnetId subnet)
                             (Service.Nickname (DedicatedSubnet.Service subnet))))
                    (Ipv4.NetworkAddress (DedicatedSubnet.Ipv4 subnet))
                    (Ipv4.PrefixLength (DedicatedSubnet.Ipv4 subnet))
                    InternetSubnetTypeDedicatedSubnet in
                let mbps := 500 in
                storePort s port (InterfacePort.set_GlobalBandwidthMbps (Some mbps)) >>
                ret (Some internet)
            end
        end
      else panic "invalid InternetType"
  | None => ret None
  end.

(** The [switch] of [ServerAssignNetwork] over [params.Mode]. *)
Definition switchMode (s port : nat) (params : AssignNetworkParameter.t) : Go unit :=
  if decide (AssignNetworkParameter.Mode params = AssignNetworkParameterModeAccess) then
    storePort s port (InterfacePort.set_Mode (Some InterfacePortModeAccess))
  else if decide (AssignNetworkParameter.Mode params = AssignNetworkParameterModeTrunk) then
    storePort s port (InterfacePort.set_Mode (Some InterfacePortModeTrunk))
  else ret tt.

(** The [if] of [ServerAssignNetwork] over [params.PrivateNetworkIds]. *)
Definition ifPrivateNetworkIds (s port : nat) (portId : Z)
    (params : AssignNetworkParameter.t) : Go unit :=
  match AssignNetworkParameter.PrivateNetworkIds params with
  | Some ids =>
      rangePrivateNetworkIds s port portId ids >>
      let mbps := 1000 in
      storePort s port (InterfacePort.set_LocalBandwidthMbps (Some mbps))
  | None => ret tt
  end.

(** [ServerAssignNetwork]. The operation returns [port]; the model returns
    the record behind the pointer at that moment. *)
Definition ServerAssignNetwork (serverId : string) (portId : Z)
    (params : AssignNetworkParameter.t) : Go InterfacePort.t :=
  let* s := getServerById serverId in
  match s with
  | Some s =>
      let* port := getPortById s portId in
      storePort s port (InterfacePort.set_Internet None) >>
      storePort s port (InterfacePort.set_Mode None) >>
      storePort s port (InterfacePort.set_PrivateNetworks []) >>
      storePort s port (InterfacePort.set_GlobalBandwidthMbps None) >>
      storePort s port (InterfacePort.set_LocalBandwidthMbps None) >>
      let* internet := switchInternetType s port portId params in
      storePort s port (InterfacePort.set_Internet internet) >>
      switchMode s port params >>
      ifPrivateNetworkIds s port portId params >>
      updatePort s port >>
      loadPort s port
  | None => fail (NewError ErrorTypeNotFound "server" (ArgString serverId) [])
  end.

(** [ServerPowerControl]. *)
Definition ServerPowerControl (serverId : string) (params : PowerControlParameter.t) : Go unit :=
  let* s := getServerById serverId in
  match s with
  | Some s =>
      let* sv := load s in
      if openapi.Server.LockStatus (Server.Server sv) is Some _ then
        fail (NewError ErrorTypeConflict "server" (ArgString serverId) [])
      else
        startServerPowerControl s params >>
        ret tt
  | None => fail (NewError ErrorTypeNotFound "server" (ArgString serverId) [])
  end.

(** [ReadServerPowerStatus] returns [s.PowerStatus], the pointer the record
    holds. *)
Definition ReadServerPowerStatus (serverId : string) : Go (option addr) :=
  let* s := getServerById serverId in
  match s with
  | Some s =>
      let* sv := load s in
      ret (Server.PowerStatus sv)
  | None => fail (NewError ErrorTypeNotFound "server" (ArgString serverId) [])
  end.

End Operations.

(** ** The other operations of the engine *)

Section OtherOperations.
Import Machine Engine.

(** [time.Minute], a [time.Duration]: nanoseconds. *)
Definition Minute : Z := 60000000000.

(** [engine.servers]: the loop appends [*s.Server] for each record of
    [engine.Servers], in order. *)
Definition engine_servers : Go (list openapi.Server.t) :=
  let* m := get in
  ret (Server.Server <$> servers m).

(** [ListServers]; the search parameters are not used. *)
Definition ListServers (params : ListServersParams.t) : Go Servers.t :=
  let* m := get in
  let count := Z.of_nat (length (servers m)) in
  let* results := engine_servers in
  ret (Servers.mk (PaginateMeta.mk count) results).

(** [UpdateServerPort]. The operation returns [port]; the model returns the
    record behind the pointer at that moment. *)
Definition UpdateServerPort (serverId : string) (portId : Z)
    (params : UpdateServerPortParameter.t) : Go InterfacePort.t :=
  let* s := getServerById serverId in
  match s with
  | Some s =>
      let* port := getPortById s portId in
      storePort s port (InterfacePort.set_Nickname (UpdateServerPortParameter.Nickname params)) >>
      updatePort s port >>
      loadPort s port
  | None => fail (NewError ErrorTypeNotFound "server" (ArgString serverId) [])
  end.

(** [EnableServerPort]. The operation returns [port]; the model returns the
    record behind the pointer at that moment. *)
Definition EnableServerPort (serverId : string) (portId : Z)
    (params : EnableServerPortParameter.t) : Go InterfacePort.t :=
  let* s := getServerById serverId in
  match s with
  | Some s =>
      let* port := getPortById s portId in
      storePort s port (InterfacePort.set_Enabled (EnableServerPortParameter.Enable params)) >>
      updatePort s port >>
      loadPort s port
  | None => fail (NewError ErrorTypeNotFound "server" (ArgString serverId) [])
  end.

(** [ReadServerTrafficByPort]. [now k] is what the [k]-th call of
    [time.Now()] of the operation returns; the values 1 and 2 of the points
    are written as integers. Neither [portId] nor [params] is used. *)
Definition ReadServerTrafficByPort (serverId : string) (portId : Z)
    (params : ReadServerTrafficByPortParams.t) (now : nat → Z) : Go TrafficGraph.t :=
  let* s := getServerById serverId in
  match s with
  | Some s =>
      ret (TrafficGraph.mk
             [TrafficGraphData.mk (now 0%nat) 1;
              TrafficGraphData.mk (now 1%nat + (-1) * Minute) 2]
             [TrafficGraphData.mk (now 2%nat) 1;
              TrafficGraphData.mk (now 3%nat + (-1) * Minute) 2])
  | None => fail (NewError ErrorTypeNotFound "server" (ArgString serverId) [])
  end.

(** [ReadRAIDStatus] returns [s.RaidStatus], the pointer the record holds;
    the parameters are not used. *)
Definition ReadRAIDStatus (serverId : string) (params : ReadRAIDStatusParams.t) :
    Go (option raid) :=
  let* s := getServerById serverId in
  match s with
  | Some s =>
      let* sv := load s in
      ret (Server.RaidStatus sv)
  | None => fail (NewError ErrorTypeNotFound "server" (ArgString serverId) [])
  end.

End OtherOperations.

(** ** Observations of the machine *)

Definition putServer (s : nat) (sv : Server.t) (m : Machine.t) : Machine.t :=
  set_servers (<[s := sv]> (servers m)) m.

(** What a read of the store finds: the ports of the server behind [s], and
    the port channel behind [portChannel]. *)
Definition serverPorts (m : Machine.t) (s : nat) : list InterfacePort.t :=
  default [] (openapi.Server.Ports ∘ Server.Server <$> servers m !! s).

Definition portChannelAt (m : Machine.t) (s portChannel : nat) : option PortChannel.t :=
  servers m !! s ≫= λ sv, openapi.Server.PortChannels (Server.Server sv) !! portChannel.

(** The identifiers the allocator issues for [n] requests in a row. *)
Definition issued (m : Machine.t) (n : nat) : list Z :=
  (λ k : nat, Engine.GeneratedID (Machine.engine m) + Z.of_nat k) <$> seq 1 n.

(** [ServerConfigureBonding] succeeds on [m] and creates exactly one port per
    name of [names], in their order: the port carries that name as its
    nickname, is enabled, is tagged with the port channel, has an identifier
    of its own and no network settings; these are all the ports of the
    server, and their identifiers are the port list of the returned and of
    the stored port channel. *)
Definition creates (serverId : string) (portChannelId : Z)
    (params : ConfigureBondingParameter.t) (m : Machine.t) (s portChannel : nat)
    (names : list string) : Prop :=
  ∃ c' m',
    ServerConfigureBonding serverId portChannelId params m = (Return c', m') ∧
    serverPorts m' s
      = zip_with
          (λ name id, InterfacePort.mk true name portChannelId id None None [] None None)
          names (issued m (length names)) ∧
    length (serverPorts m' s) = length names ∧
    InterfacePort.Nickname <$> serverPorts m' s = names ∧
    InterfacePort.PortId <$> serverPorts m' s = issued m (length names) ∧
    Forall (λ p, InterfacePort.Enabled p = true ∧
                 InterfacePort.PortChannelId p = portChannelId) (serverPorts m' s) ∧
    PortChannel.Ports c' = issued m (length names) ∧
    portChannelAt m' s portChannel = Some c'.

(** The port behind a pointer, and the machine after a write through it. *)
Definition portAt (m : Machine.t) (s port : nat) : option InterfacePort.t :=
  servers m !! s ≫= λ sv, openapi.Server.Ports (Server.Server sv) !! port.

Definition putPort (s port : nat) (p : InterfacePort.t) (m : Machine.t) : Machine.t :=
  match servers m !! s with
  | Some sv =>
      putServer s
        (Server.set_Server
           (openapi.Server.set_Ports (<[port := p]> (openapi.Server.Ports (Server.Server sv)))
              (Server.Server sv)) sv) m
  | None => m
  end.

Definition findDedicatedSubnet (id : string) (m : Machine.t) : option DedicatedSubnet.t :=
  snd <$> list_find (λ d, DedicatedSubnet.DedicatedSubnetId d = id)
            (Engine.DedicatedSubnets (Machine.engine m)).

Definition findPrivateNetwork (id : string) (m : Machine.t) : option PrivateNetwork.t :=
  snd <$> list_find (λ n, PrivateNetwork.PrivateNetworkId n = id)
            (Engine.PrivateNetworks (Machine.engine m)).

(** The port after the five assignments that open [ServerAssignNetwork]. *)
Definition cleared (p : InterfacePort.t) : InterfacePort.t :=
  InterfacePort.mk (InterfacePort.Enabled p) (InterfacePort.Nickname p)
    (InterfacePort.PortChannelId p) (InterfacePort.PortId p) None None [] None None.

(** A computation keeps an observation of the machine when the machine it
    leaves, whatever the outcome, shows what the machine it started on
    showed. *)
Definition keeps {A B} (observe : Machine.t → B) (c : Go A) : Prop :=
  ∀ m, observe (c m).2 = observe m.

(** The identifiers of the servers, in the order of [engine.Servers], and the
    two catalogs. *)
Definition shape (m : Machine.t) : list string * list DedicatedSubnet.t * list PrivateNetwork.t :=
  (Server.Id <$> servers m,
   Engine.DedicatedSubnets (Machine.engine m),
   Engine.PrivateNetworks (Machine.engine m)).

(** All of the machine but the server behind [s] and the counter of the
    identifier allocator: the other servers, the catalogs, the heap and the
    goroutines. *)
Definition around (s : nat) (m : Machine.t) :
    list Server.t * list Server.t * list DedicatedSubnet.t * list PrivateNetwork.t *
    list ServerPowerStatus.t * list Task :=
  (take s (servers m), drop (S s) (servers m),
   Engine.DedicatedSubnets (Machine.engine m),
   Engine.PrivateNetworks (Machine.engine m),
   Machine.heap m, Machine.goroutines m).

(** The RAID-status pointer of each server, by server identifier, in the
    order of [engine.Servers]. *)
Definition raids (m : Machine.t) : list (string * option raid) :=
  (λ sv, (Server.Id sv, Server.RaidStatus sv)) <$> servers m.

(** The counter of the identifier allocator, which all servers share. *)
Definition counter (m : Machine.t) : Z := Engine.GeneratedID (Machine.engine m).

(** All of the machine but the server behind [s]. *)
Definition outside (s : nat) (m : Machine.t) := (around s m, counter m).

(** The attachment [ServerAssignNetwork] makes for a private-network
    identifier of the catalog. *)
Definition attachment (m : Machine.t) (id : string) : option AttachedPrivateNetwork.t :=
  (λ pn, AttachedPrivateNetwork.mk (Service.Nickname (PrivateNetwork.Service pn))
           (PrivateNetwork.PrivateNetworkId pn)) <$> findPrivateNetwork id m.

(** The request asks for no internet attachment, for the shared subnet, or
    for a dedicated subnet of the catalog. *)
Definition internetResolves (params : AssignNetworkParameter.t) (m : Machine.t) : Prop :=
  match AssignNetworkParameter.InternetType params with
  | None => True
  | Some internetType =>
      internetType = AssignNetworkParameterInternetTypeCommonSubnet ∨
      (internetType = AssignNetworkParameterInternetTypeDedicatedSubnet ∧
       ∃ id, AssignNetworkParameter.DedicatedSubnetId params = Some id ∧
             is_Some (findDedicatedSubnet id m))
  end.

(** What [updatePort] leaves in the port list of a server for the port [p]. *)
Definition propagated (p : InterfacePort.t) (ports : list InterfacePort.t) : list InterfacePort.t :=
  (λ q, if decide (InterfacePort.PortId q = InterfacePort.PortId p) then p else q) <$> ports.

(** A caller keeps the value of a successful operation. *)
Definition value {A} (o : Outcome A) : option A :=
  match o with Return a => Some a | _ => None end.

(** ** A seeded engine

    Two servers: [srv-1] is idle, powered on, with one port on one port
    channel; [srv-2] is in the middle of an OS installation. *)

Definition seedPort : InterfacePort.t :=
  InterfacePort.mk true "uplink" 7 41
    (Some (Internet.mk None "198.51.100.0" 24 InternetSubnetTypeCommonSubnet))
    (Some InterfacePortModeTrunk)
    [AttachedPrivateNetwork.mk "backup" "pn-1"]
    (Some 100) (Some 1000).

Definition seedPortChannel : PortChannel.t := PortChannel.mk 7 "10gbe" [41].

Definition seedServer1 : Server.t :=
  Server.mk (openapi.Server.mk "srv-1" [seedPort] [seedPortChannel] None None)
    [OsImage.mk "ubuntu"] (Some 0%nat) (Some 0%nat).

Definition seedServer2 : Server.t :=
  Server.mk (openapi.Server.mk "srv-2" [] [] (Some ServerLockStatusOsInstall) None)
    [OsImage.mk "ubuntu"] (Some 1%nat) None.

Definition seed : Machine.t :=
  Machine.mk
    (Engine.mk [seedServer1; seedServer2]
       [DedicatedSubnet.mk "ds-1" (Service.mk "front") (Ipv4.mk "192.0.2.0" 28)]
       [PrivateNetwork.mk "pn-1" (Service.mk "backup");
        PrivateNetwork.mk "pn-2" (Service.mk "storage")]
       100)
    [ServerPowerStatus.mk ServerPowerStatusStatusOn;
     ServerPowerStatus.mk ServerPowerStatusStatusOff]
    [].

(** * Properties *)

(** ** Running the monad *)

Lemma bind_Return {A B} (c : Go A) (k : A → Go B) m a m' :
  c m = (Return a, m') → bind c k m = k a m'.
Proof. unfold bind. by intros ->. Qed.

Lemma bind_Failure {A B} (c : Go A) (k : A → Go B) m e m' :
  c m = (Failure e, m') → bind c k m = (Failure e, m').
Proof. unfold bind. by intros ->. Qed.

Lemma bind_Panicked {A B} (c : Go A) (k : A → Go B) m r m' :
  c m = (Panicked r, m') → bind c k m = (Panicked r, m').
Proof. unfold bind. by intros ->. Qed.

Lemma bind_inv_Return {A B} (c : Go A) (k : A → Go B) m b m' :
  bind c k m = (Return b, m') →
  ∃ a m1, c m = (Return a, m1) ∧ k a m1 = (Return b, m').
Proof.
  unfold bind. destruct (c m) as [[a|e|r] m1]; intros H; try discriminate.
  by exists a, m1.
Qed.

(** ** The store *)

Lemma servers_putServer s sv m : servers (putServer s sv m) = <[s := sv]> (servers m).
Proof. by destruct m as [[]]. Qed.

Lemma lookup_putServer s sv sv0 m :
  servers m !! s = Some sv0 → servers (putServer s sv m) !! s = Some sv.
Proof.
  intros H. rewrite servers_putServer.
  apply list_lookup_insert_eq. by eapply lookup_lt_Some.
Qed.

Lemma putServer_putServer s sv sv' m :
  putServer s sv (putServer s sv' m) = putServer s sv m.
Proof.
  destruct m as [[svs ds pn g] h gs]. unfold putServer, set_servers, servers; cbn.
  by rewrite list_insert_insert_eq.
Qed.

Lemma putServer_id s sv m : servers m !! s = Some sv → putServer s sv m = m.
Proof.
  destruct m as [[svs ds pn g] h gs]. unfold putServer, set_servers, servers; cbn.
  intros H. by rewrite list_insert_id.
Qed.

Lemma load_run s sv m : servers m !! s = Some sv → load s m = (Return sv, m).
Proof. unfold load. by intros ->. Qed.

Lemma store_run s sv f m :
  servers m !! s = Some sv → store s f m = (Return tt, putServer s (f sv) m).
Proof. intros H. unfold store. by rewrite (bind_Return _ _ _ _ _ (load_run _ _ _ H)). Qed.

Lemma storeServer_run s sv f m :
  servers m !! s = Some sv →
  storeServer s f m = (Return tt, putServer s (Server.set_Server (f (Server.Server sv)) sv) m).
Proof. intros H. unfold storeServer. by rewrite (store_run _ _ _ _ H). Qed.

Lemma findServer_Some serverId l s sv :
  findServer serverId l = Some (s, sv) → l !! s = Some sv ∧ Server.Id sv = serverId.
Proof. unfold findServer. intros H. apply list_find_Some in H. by destruct H as (? & ? & _). Qed.

Lemma getServerById_run serverId m :
  getServerById serverId m = (Return (fst <$> findServer serverId (servers m)), m).
Proof. reflexivity. Qed.

(** The first step of every operation: [s := engine.getServerById(serverId)]
    with a server found, as [Hfind] says. *)
Ltac enter_server Hfind :=
  rewrite (bind_Return _ _ _ _ _ (getServerById_run _ _)), Hfind;
  cbn [fmap option_fmap option_map fst].

Lemma findServer_insert serverId l s sv sv' :
  findServer serverId l = Some (s, sv) →
  Server.Id sv' = serverId →
  findServer serverId (<[s := sv']> l) = Some (s, sv').
Proof.
  unfold findServer. intros H Hid.
  apply list_find_Some in H as (Hs & _ & Hbefore).
  apply list_find_Some. split_and!; [|done|].
  - apply list_lookup_insert_eq. by eapply lookup_lt_Some.
  - intros j y Hj Hlt. rewrite list_lookup_insert_ne in Hj by lia. eauto.
Qed.

Lemma findServer_putServer serverId m s sv sv' :
  findServer serverId (servers m) = Some (s, sv) →
  Server.Id sv' = serverId →
  findServer serverId (servers (putServer s sv' m)) = Some (s, sv').
Proof. intros. rewrite servers_putServer. by eapply findServer_insert. Qed.

Lemma ReadServer_run serverId m s sv :
  findServer serverId (servers m) = Some (s, sv) →
  ReadServer serverId m = (Return (Server.Server sv), m).
Proof.
  intros H. unfold ReadServer.
  rewrite (bind_Return _ _ _ _ _ (getServerById_run _ _)), H. cbn.
  apply findServer_Some in H as [H _].
  by rewrite (bind_Return _ _ _ _ _ (load_run _ _ _ H)).
Qed.

Lemma ReadServerPowerStatus_run serverId m s sv :
  findServer serverId (servers m) = Some (s, sv) →
  ReadServerPowerStatus serverId m = (Return (Server.PowerStatus sv), m).
Proof.
  intros H. unfold ReadServerPowerStatus.
  rewrite (bind_Return _ _ _ _ _ (getServerById_run _ _)), H. cbn.
  apply findServer_Some in H as [H _].
  by rewrite (bind_Return _ _ _ _ _ (load_run _ _ _ H)).
Qed.

(** A goroutine appended to the waiting ones is the one the scheduler finds
    at the position of their number. *)
Lemma delete_last {A} (l : list A) (x : A) : delete (length l) (l ++ [x])%list = l.
Proof. induction l as [|y l IH]; cbn; [done|]. f_equal. exact IH. Qed.

Lemma schedule_last now f m :
  schedule now (length (Machine.goroutines m))
    (Machine.set_goroutines (Machine.goroutines m ++ [f]) m)
  = closure now f m.
Proof.
  destruct m as [e h gs]. unfold schedule, startUpdateAction.
  unfold bind at 1. unfold get. cbn [Machine.goroutines Machine.set_goroutines].
  rewrite lookup_app_r, Nat.sub_diag by lia. cbn [lookup list_lookup].
  unfold bind at 1. unfold modify.
  cbn [Machine.goroutines Machine.set_goroutines Machine.engine Machine.heap].
  by rewrite delete_last.
Qed.

Lemma rangeOSImages_found serverId s params images m :
  (∃ image, image ∈ images ∧ OsImage.OsImageId image = OsInstallParameter.OsImageId params) →
  rangeOSImages serverId s params images m
  = (Return tt, Machine.set_goroutines (Machine.goroutines m ++ [OSInstallStart s]) m).
Proof.
  intros (image & Hin & Hid).
  induction images as [|i images IH]; [by apply elem_of_nil in Hin|].
  cbn. case_decide as Hi; [done|].
  apply IH. apply elem_of_cons in Hin as [->|]; [done|done].
Qed.

(** ** Actions on a locked server *)

(** C3. On a server whose lock-status is present, [OSInstall] and
    [ServerPowerControl] both return the Conflict error for that server and
    leave the whole machine as it was: no record has changed and no goroutine
    has been created. *)
Theorem locked_server_conflict m serverId s sv status :
  findServer serverId (servers m) = Some (s, sv) →
  openapi.Server.LockStatus (Server.Server sv) = Some status →
  (∀ params, OSInstall serverId params m
             = (Failure (NewError ErrorTypeConflict "server" (ArgString serverId) []), m)) ∧
  (∀ params, ServerPowerControl serverId params m
             = (Failure (NewError ErrorTypeConflict "server" (ArgString serverId) []), m)).
Proof.
  intros Hfind Hlock.
  pose proof (findServer_Some _ _ _ _ Hfind) as [Hs _].
  split; intros params.
  - unfold OSInstall.
    enter_server Hfind.
    rewrite (bind_Return _ _ _ _ _ (load_run _ _ _ Hs)), Hlock. done.
  - unfold ServerPowerControl.
    enter_server Hfind.
    rewrite (bind_Return _ _ _ _ _ (load_run _ _ _ Hs)), Hlock. done.
Qed.

(** ** OS installation *)

(** C1, as the code has it. On a server without lock-status and with the
    requested image, [OSInstall] returns success and assigns no record: it
    only creates one goroutine, and the lock-status is assigned by that
    goroutine alone. As long as the goroutine has not run, a read returns a
    record without lock-status; once it has run, a read returns the record
    whose lock-status is the OS-install value, with every other field as
    before, and a second goroutine has been created; when that one has run,
    the lock-status is absent again and the machine is back in its first
    state. *)
Theorem OSInstall_locks_in_background m serverId params s sv now now' :
  findServer serverId (servers m) = Some (s, sv) →
  openapi.Server.LockStatus (Server.Server sv) = None →
  (∃ image, image ∈ Server.OSImages sv ∧
            OsImage.OsImageId image = OsInstallParameter.OsImageId params) →
  let waiting := Machine.goroutines m in
  let m1 := Machine.mk (Machine.engine m) (Machine.heap m) (waiting ++ [OSInstallStart s]) in
  let installing :=
    Server.mk
      (openapi.Server.mk serverId
         (openapi.Server.Ports (Server.Server sv))
         (openapi.Server.PortChannels (Server.Server sv))
         (Some "installing")
         (openapi.Server.CachedPowerStatus (Server.Server sv)))
      (Server.OSImages sv) (Server.PowerStatus sv) (Server.RaidStatus sv) in
  let m2 :=
    Machine.mk
      (Engine.mk (<[s := installing]> (servers m))
         (Engine.DedicatedSubnets (Machine.engine m))
         (Engine.PrivateNetworks (Machine.engine m))
         (Engine.GeneratedID (Machine.engine m)))
      (Machine.heap m) (waiting ++ [OSInstallFinish s]) in
  OSInstall serverId params m = (Return tt, m1) ∧
  (∃ before,
     ReadServer serverId m1 = (Return before, m1) ∧
     openapi.Server.LockStatus before = None) ∧
  schedule now (length waiting) m1 = (Return tt, m2) ∧
  (∃ after,
     ReadServer serverId m2 = (Return after, m2) ∧
     openapi.Server.LockStatus after = Some "installing" ∧
     openapi.Server.ServerId after = serverId ∧
     openapi.Server.Ports after = openapi.Server.Ports (Server.Server sv) ∧
     openapi.Server.PortChannels after = openapi.Server.PortChannels (Server.Server sv) ∧
     openapi.Server.CachedPowerStatus after
       = openapi.Server.CachedPowerStatus (Server.Server sv)) ∧
  schedule now' (length waiting) m2 = (Return tt, m) ∧
  (∃ finally,
     ReadServer serverId m = (Return finally, m) ∧
     openapi.Server.LockStatus finally = None).
Proof.
  intros Hfind Hlock Himage waiting m1 installing m2.
  pose proof (findServer_Some _ _ _ _ Hfind) as [Hs Hid].
  assert (Hm1 : m1 = Machine.set_goroutines (waiting ++ [OSInstallStart s]) m)
    by by destruct m.
  assert (Hinstalling :
    installing
    = Server.set_Server
        (openapi.Server.set_LockStatus (Some ServerLockStatusOsInstall) (Server.Server sv)) sv).
  { subst installing. destruct sv as [[] ? ?]; cbn in *. by subst. }
  assert (Hm2 : m2 = Machine.set_goroutines (waiting ++ [OSInstallFinish s])
                       (putServer s installing m))
    by by destruct m as [[] ? ?].
  assert (Hfind2 : findServer serverId (servers (putServer s installing m)) = Some (s, installing)).
  { by apply (findServer_putServer _ _ _ sv). }
  split_and!.
  - rewrite Hm1. unfold OSInstall.
    enter_server Hfind.
    rewrite (bind_Return _ _ _ _ _ (load_run _ _ _ Hs)), Hlock.
    by apply rangeOSImages_found.
  - exists (Server.Server sv). split; [|done].
    rewrite Hm1. by apply (ReadServer_run _ _ s).
  - rewrite Hm1, Hm2, Hinstalling. subst waiting. rewrite schedule_last. cbn [closure].
    rewrite (bind_Return _ _ _ _ _ (storeServer_run _ _ _ _ Hs)). done.
  - exists (Server.Server installing). split; [|done].
    rewrite Hm2. by apply (ReadServer_run _ _ s).
  - rewrite Hm2. subst waiting.
    change (Machine.goroutines m) with (Machine.goroutines (putServer s installing m)).
    rewrite schedule_last. cbn [closure].
    rewrite (storeServer_run _ installing) by by eapply lookup_putServer.
    rewrite putServer_putServer. f_equal.
    apply putServer_id. rewrite Hs. f_equal.
    rewrite Hinstalling. destruct sv as [[] ? ?]; cbn in *. by subst.
  - exists (Server.Server sv). split; [|done].
    by apply (ReadServer_run _ _ s).
Qed.

(** ** Power control *)

Lemma deref_new_heap (a : addr) v m :
  a = length (Machine.heap m) →
  ∀ m', Machine.heap m' = (Machine.heap m ++ [v])%list →
  deref (Some a) m' = (Return v, m').
Proof.
  intros -> m' Hheap. unfold deref. cbn [mbind option_bind].
  rewrite Hheap, lookup_app_r, Nat.sub_diag by lia. done.
Qed.

(** C8, as the code has it. On an existing server without lock-status
    [ServerPowerControl] returns success and creates one goroutine. When the
    goroutine runs, the server gets a new power-status record and a new cached
    power-status record (stamped with the time of the run): both say on for
    the operations on and reset, both say off for soft and off, and for every
    other operation both carry the empty status, whatever the records said
    before. *)
Theorem ServerPowerControl_settles m serverId params s sv now :
  findServer serverId (servers m) = Some (s, sv) →
  openapi.Server.LockStatus (Server.Server sv) = None →
  let op := PowerControlParameter.Operation params in
  ∃ powerStates cachedPowerStatus,
    (op = "on" ∨ op = "reset" →
       powerStates = ServerPowerStatusStatusOn ∧ cachedPowerStatus = CachedPowerStatusStatusOn) ∧
    (op = "soft" ∨ op = "off" →
       powerStates = ServerPowerStatusStatusOff ∧ cachedPowerStatus = CachedPowerStatusStatusOff) ∧
    (op ∉ ["on"; "reset"; "soft"; "off"] → powerStates = "" ∧ cachedPowerStatus = "") ∧
    let waiting := Machine.goroutines m in
    let m1 :=
      Machine.set_goroutines (waiting ++ [PowerControlUpdate s powerStates cachedPowerStatus]) m in
    let settled :=
      Server.mk
        (openapi.Server.mk
           (openapi.Server.ServerId (Server.Server sv))
           (openapi.Server.Ports (Server.Server sv))
           (openapi.Server.PortChannels (Server.Server sv))
           (openapi.Server.LockStatus (Server.Server sv))
           (Some (CachedPowerStatus.mk cachedPowerStatus now)))
        (Server.OSImages sv)
        (Some (length (Machine.heap m)))
        (Server.RaidStatus sv) in
    let m2 :=
      putServer s settled
        (Machine.set_heap (Machine.heap m ++ [ServerPowerStatus.mk powerStates]) m) in
    ServerPowerControl serverId params m = (Return tt, m1) ∧
    schedule now (length waiting) m1 = (Return tt, m2) ∧
    (∃ status,
       (let* p := ReadServerPowerStatus serverId in deref p) m2 = (Return status, m2) ∧
       ServerPowerStatus.Status status = powerStates) ∧
    (∃ server cached,
       ReadServer serverId m2 = (Return server, m2) ∧
       server = Server.Server settled ∧
       openapi.Server.CachedPowerStatus server = Some cached ∧
       CachedPowerStatus.Status cached = cachedPowerStatus ∧
       CachedPowerStatus.Stored cached = now).
Proof.
  intros Hfind Hlock op.
  pose proof (findServer_Some _ _ _ _ Hfind) as [Hs Hid].
  remember (if decide (op = "on" ∨ op = "reset") then
              (ServerPowerStatusStatusOn, CachedPowerStatusStatusOn)
            else if decide (op = "soft" ∨ op = "off") then
              (ServerPowerStatusStatusOff, CachedPowerStatusStatusOff)
            else ("", "")) as choice eqn:Hchoice.
  destruct choice as [powerStates cachedPowerStatus].
  exists powerStates, cachedPowerStatus. split_and!.
  - intros H. rewrite decide_True in Hchoice by done. by inversion Hchoice.
  - intros H. rewrite decide_False, decide_True in Hchoice; [by inversion Hchoice|done|].
    intros [?|?]; destruct H as [H|H]; rewrite H in *; discriminate.
  - intros H. rewrite !decide_False in Hchoice; [by inversion Hchoice|..];
      intros [E|E]; apply H; rewrite E, !elem_of_cons; tauto.
  - intros waiting m1 settled m2. split_and!.
    + unfold ServerPowerControl.
      enter_server Hfind.
      rewrite (bind_Return _ _ _ _ _ (load_run _ _ _ Hs)), Hlock.
      unfold startServerPowerControl. fold op. by rewrite <- Hchoice.
    + subst m1 waiting. rewrite schedule_last. cbn [closure].
      unfold new. unfold bind at 1.
      set (mh := Machine.set_heap _ m).
      assert (Hs' : servers mh !! s = Some sv) by done.
      rewrite (bind_Return _ _ _ _ _ (store_run _ _ _ _ Hs')).
      rewrite (storeServer_run _ (Server.set_PowerStatus (Some (length (Machine.heap m))) sv))
        by by eapply lookup_putServer.
      by rewrite putServer_putServer.
    + exists (ServerPowerStatus.mk powerStates). split; [|done].
      subst m2. set (mh := Machine.set_heap _ m).
      assert (Hs' : findServer serverId (servers mh) = Some (s, sv)) by done.
      erewrite bind_Return; last first.
      { eapply (ReadServerPowerStatus_run _ _ s). eapply findServer_putServer; [done|].
        by destruct sv as [[]]. }
      cbn [Server.PowerStatus settled]. by eapply deref_new_heap.
    + exists (Server.Server settled), (CachedPowerStatus.mk cachedPowerStatus now).
      split_and!; [|done..].
      eapply (ReadServer_run _ _ s).
      eapply (findServer_putServer _ (Machine.set_heap _ m)); [done|]. by destruct sv as [[]].
Qed.

(** ** Bonding configuration *)

Lemma findPortChannel_Some portChannelId l j c :
  findPortChannel portChannelId l = Some (j, c) →
  l !! j = Some c ∧ PortChannel.PortChannelId c = portChannelId.
Proof. unfold findPortChannel. intros H. apply list_find_Some in H. by destruct H as (? & ? & _). Qed.

Lemma getPortChannelById_run m s sv portChannelId j c :
  servers m !! s = Some sv →
  findPortChannel portChannelId (openapi.Server.PortChannels (Server.Server sv)) = Some (j, c) →
  getPortChannelById s portChannelId m = (Return j, m).
Proof.
  intros Hs Hchan. unfold getPortChannelById.
  by rewrite (bind_Return _ _ _ _ _ (load_run _ _ _ Hs)), Hchan.
Qed.

Lemma loadPortChannel_run m s sv j c :
  servers m !! s = Some sv →
  openapi.Server.PortChannels (Server.Server sv) !! j = Some c →
  loadPortChannel s j m = (Return c, m).
Proof.
  intros Hs Hj. unfold loadPortChannel.
  by rewrite (bind_Return _ _ _ _ _ (load_run _ _ _ Hs)), Hj.
Qed.

Lemma storePortChannel_run m s sv j c f :
  servers m !! s = Some sv →
  openapi.Server.PortChannels (Server.Server sv) !! j = Some c →
  storePortChannel s j f m
  = (Return tt,
     putServer s
       (Server.set_Server
          (openapi.Server.set_PortChannels
             (<[j := f c]> (openapi.Server.PortChannels (Server.Server sv)))
             (Server.Server sv)) sv) m).
Proof.
  intros Hs Hj. unfold storePortChannel.
  rewrite (bind_Return _ _ _ _ _ (loadPortChannel_run _ _ _ _ _ Hs Hj)).
  by rewrite (storeServer_run _ _ _ _ Hs).
Qed.

Lemma updatePortChannel_run m s sv j c :
  servers m !! s = Some sv →
  openapi.Server.PortChannels (Server.Server sv) !! j = Some c →
  updatePortChannel s j m
  = (Return tt,
     putServer s
       (Server.set_Server
          (openapi.Server.set_PortChannels
             ((λ d, if decide (PortChannel.PortChannelId d = PortChannel.PortChannelId c)
                    then c else d) <$> openapi.Server.PortChannels (Server.Server sv))
             (Server.Server sv)) sv) m).
Proof.
  intros Hs Hj. unfold updatePortChannel.
  rewrite (bind_Return _ _ _ _ _ (loadPortChannel_run _ _ _ _ _ Hs Hj)).
  by rewrite (storeServer_run _ _ _ _ Hs).
Qed.

Lemma ServerConfigureBonding_fails m serverId portChannelId params s sv j c e m1 :
  findServer serverId (servers m) = Some (s, sv) →
  findPortChannel portChannelId (openapi.Server.PortChannels (Server.Server sv)) = Some (j, c) →
  switchBondingType c portChannelId params m = (Failure e, m1) →
  ServerConfigureBonding serverId portChannelId params m = (Failure e, m1).
Proof.
  intros Hfind Hchan Hswitch.
  pose proof (findServer_Some _ _ _ _ Hfind) as [Hs _].
  pose proof (findPortChannel_Some _ _ _ _ Hchan) as [Hj _].
  unfold ServerConfigureBonding.
  enter_server Hfind.
  rewrite (bind_Return _ _ _ _ _ (getPortChannelById_run _ _ _ _ _ _ Hs Hchan)).
  rewrite (bind_Return _ _ _ _ _ (loadPortChannel_run _ _ _ _ _ Hs Hj)).
  by rewrite (bind_Failure _ _ _ _ _ Hswitch).
Qed.

Lemma ServerConfigureBonding_commits m serverId portChannelId params s sv j c ports m1 :
  findServer serverId (servers m) = Some (s, sv) →
  findPortChannel portChannelId (openapi.Server.PortChannels (Server.Server sv)) = Some (j, c) →
  switchBondingType c portChannelId params m = (Return ports, m1) →
  servers m1 = servers m →
  ∃ m',
    ServerConfigureBonding serverId portChannelId params m
      = (Return (PortChannel.set_Ports (InterfacePort.PortId <$> ports) c), m') ∧
    serverPorts m' s = ports ∧
    portChannelAt m' s j = Some (PortChannel.set_Ports (InterfacePort.PortId <$> ports) c).
Proof.
  intros Hfind Hchan Hswitch Hframe.
  pose proof (findServer_Some _ _ _ _ Hfind) as [Hs _].
  pose proof (findPortChannel_Some _ _ _ _ Hchan) as [Hj _].
  assert (Hs1 : servers m1 !! s = Some sv) by by rewrite Hframe.
  set (c' := PortChannel.set_Ports (InterfacePort.PortId <$> ports) c).
  unfold ServerConfigureBonding.
  enter_server Hfind.
  rewrite (bind_Return _ _ _ _ _ (getPortChannelById_run _ _ _ _ _ _ Hs Hchan)).
  rewrite (bind_Return _ _ _ _ _ (loadPortChannel_run _ _ _ _ _ Hs Hj)).
  rewrite (bind_Return _ _ _ _ _ Hswitch).
  (* s.Server.Ports = ports *)
  rewrite (bind_Return _ _ _ _ _ (storeServer_run _ _ _ _ Hs1)).
  set (sv1 := Server.set_Server _ sv).
  assert (H1 : servers (putServer s sv1 m1) !! s = Some sv1) by by eapply lookup_putServer.
  assert (Hj1 : openapi.Server.PortChannels (Server.Server sv1) !! j = Some c)
    by by destruct sv as [[]].
  (* portChannel.Ports = portIds *)
  rewrite (bind_Return _ _ _ _ _ (storePortChannel_run _ _ _ _ _ _ H1 Hj1)), putServer_putServer.
  set (sv2 := Server.set_Server _ sv1).
  assert (H2 : servers (putServer s sv2 m1) !! s = Some sv2) by by eapply lookup_putServer.
  assert (Hj2 : openapi.Server.PortChannels (Server.Server sv2) !! j = Some c').
  { destruct sv as [[]]. cbn in *. apply list_lookup_insert_eq. by eapply lookup_lt_Some. }
  (* s.updatePortChannel(portChannel) *)
  rewrite (bind_Return _ _ _ _ _ (updatePortChannel_run _ _ _ _ _ H2 Hj2)), putServer_putServer.
  set (sv3 := Server.set_Server _ sv2).
  assert (H3 : servers (putServer s sv3 m1) !! s = Some sv3) by by eapply lookup_putServer.
  assert (Hj3 : openapi.Server.PortChannels (Server.Server sv3) !! j = Some c').
  { subst sv3.
    cbn [Server.Server Server.set_Server openapi.Server.PortChannels
           openapi.Server.set_PortChannels].
    rewrite list_lookup_fmap, Hj2. cbn [fmap option_fmap option_map]. by rewrite decide_True. }
  exists (putServer s sv3 m1). split_and!.
  - by rewrite (loadPortChannel_run _ _ _ _ _ H3 Hj3).
  - unfold serverPorts. rewrite H3. by destruct sv as [[]].
  - unfold portChannelAt. rewrite H3. done.
Qed.

Lemma PortId_zip_literal (channel : Z) (names : list string) (ids : list Z) :
  length ids = length names →
  InterfacePort.PortId
    <$> zip_with (λ name id, InterfacePort.mk true name channel id None None [] None None)
          names ids = ids.
Proof.
  revert ids. induction names as [|name names IH]; intros [|id ids] Hlen;
    cbn in *; try done.
  f_equal. apply IH. lia.
Qed.

Lemma Nickname_zip_literal (channel : Z) (names : list string) (ids : list Z) :
  length ids = length names →
  InterfacePort.Nickname
    <$> zip_with (λ name id, InterfacePort.mk true name channel id None None [] None None)
          names ids = names.
Proof.
  revert ids. induction names as [|name names IH]; intros [|id ids] Hlen;
    cbn in *; try done.
  f_equal. apply IH. lia.
Qed.

Lemma Forall_zip_literal (channel : Z) (names : list string) (ids : list Z) :
  Forall (λ p, InterfacePort.Enabled p = true ∧ InterfacePort.PortChannelId p = channel)
    (zip_with (λ name id, InterfacePort.mk true name channel id None None [] None None)
       names ids).
Proof.
  revert ids. induction names as [|name names IH]; intros [|id ids]; cbn; constructor;
    [done|apply IH].
Qed.

Lemma length_issued m n : length (issued m n) = n.
Proof. unfold issued. by rewrite length_fmap, length_seq. Qed.

Lemma creates_intro m serverId portChannelId params s sv j c names m1 :
  findServer serverId (servers m) = Some (s, sv) →
  findPortChannel portChannelId (openapi.Server.PortChannels (Server.Server sv)) = Some (j, c) →
  switchBondingType c portChannelId params m
  = (Return (zip_with
               (λ name id, InterfacePort.mk true name portChannelId id None None [] None None)
               names (issued m (length names))), m1) →
  servers m1 = servers m →
  creates serverId portChannelId params m s j names.
Proof.
  intros Hfind Hchan Hswitch Hframe.
  destruct (ServerConfigureBonding_commits _ _ _ _ _ _ _ _ _ _ Hfind Hchan Hswitch Hframe)
    as (m' & Hrun & Hports & Hstored).
  rewrite PortId_zip_literal in Hrun, Hstored by apply length_issued.
  eexists _, m'.
  split_and!; [exact Hrun|exact Hports| | | | |done|exact Hstored]; rewrite Hports.
  - rewrite length_zip_with, length_issued. lia.
  - apply Nickname_zip_literal, length_issued.
  - apply PortId_zip_literal, length_issued.
  - apply Forall_zip_literal.
Qed.

(** C5. On an existing server and port channel: with bonding type lacp or
    static, a nickname list of a length other than one is refused as an
    invalid request, and otherwise exactly one port is created, named by the
    link-speed type of the channel when no nicknames are given or the given
    nickname is empty, and by the given nickname otherwise; with bonding type
    single, a nickname list of a length other than two is refused as an
    invalid request, and otherwise exactly two ports are created, named
    [<link-speed-type> 1] and [<link-speed-type> 2] when no nicknames are
    given, and by the two given nicknames otherwise. *)
Theorem ServerConfigureBonding_ports m serverId portChannelId params s sv j c :
  findServer serverId (servers m) = Some (s, sv) →
  findPortChannel portChannelId (openapi.Server.PortChannels (Server.Server sv)) = Some (j, c) →
  let bondingType := ConfigureBondingParameter.BondingType params in
  let nicknames := ConfigureBondingParameter.PortNicknames params in
  let label := PortChannel.LinkSpeedType c in
  let invalid :=
    NewError ErrorTypeInvalidRequest "port-channel" (ArgInt portChannelId)
      [ArgString "invalid PortNicknames"] in
  let run := ServerConfigureBonding serverId portChannelId params m in
  let created := creates serverId portChannelId params m s j in
  (bondingType = BondingTypeLacp ∨ bondingType = BondingTypeStatic →
     (∀ names, nicknames = Some names → length names ≠ 1%nat → run = (Failure invalid, m)) ∧
     (nicknames = None → created [label]) ∧
     (nicknames = Some [""] → created [label]) ∧
     (∀ name, name ≠ "" → nicknames = Some [name] → created [name])) ∧
  (bondingType = BondingTypeSingle →
     (∀ names, nicknames = Some names → length names ≠ 2%nat → run = (Failure invalid, m)) ∧
     (nicknames = None → created [label ++ " 1"; label ++ " 2"]) ∧
     (∀ name1 name2, nicknames = Some [name1; name2] → created [name1; name2])).
Proof.
  intros Hfind Hchan bondingType nicknames label invalid run created.
  pose proof (findPortChannel_Some _ _ _ _ Hchan) as [_ Hcid].
  split.
  - intros Hbt. split_and!.
    + intros names Hn Hlen. eapply ServerConfigureBonding_fails; [done..|].
      unfold switchBondingType. fold bondingType nicknames.
      rewrite decide_True by done. rewrite decide_True; [done|]. rewrite Hn. by split.
    + intros Hn. eapply creates_intro; [done|done|..].
      { unfold switchBondingType. fold bondingType nicknames.
      rewrite decide_True by done. rewrite decide_False by (rewrite Hn; by intros [[] _]).
      rewrite Hn. cbn. by rewrite Hcid. }
      reflexivity.
    + intros Hn. eapply creates_intro; [done|done|..].
      { unfold switchBondingType. fold bondingType nicknames.
      rewrite decide_True by done. rewrite decide_False by (rewrite Hn; by intros [_ []]).
      rewrite Hn. cbn. by rewrite Hcid. }
      reflexivity.
    + intros name Hname Hn. eapply creates_intro; [done|done|..].
      { unfold switchBondingType. fold bondingType nicknames.
      rewrite decide_True by done. rewrite decide_False by (rewrite Hn; by intros [_ []]).
      rewrite Hn. rewrite decide_True by done. cbn. by rewrite Hcid. }
      reflexivity.
  - intros Hbt.
    assert (Hnot : ¬ (bondingType = BondingTypeLacp ∨ bondingType = BondingTypeStatic)).
    { rewrite Hbt. by intros [|]. }
    split_and!.
    + intros names Hn Hlen. eapply ServerConfigureBonding_fails; [done..|].
      unfold switchBondingType. fold bondingType nicknames.
      rewrite decide_False, decide_True by done. rewrite decide_True; [done|].
      rewrite Hn. by split.
    + intros Hn. eapply creates_intro; [done|done|..].
      { unfold switchBondingType. fold bondingType nicknames.
      rewrite decide_False, decide_True by done.
      rewrite decide_False by (rewrite Hn; by intros [[] _]).
      rewrite Hn. cbn. rewrite Hcid. unfold bind, nextId, bind, get, modify, ret. cbn.
      apply (f_equal2 pair); [|reflexivity]. unfold InterfacePort.literal, label.
      do 4 f_equal. lia. }
      reflexivity.
    + intros name1 name2 Hn. eapply creates_intro; [done|done|..].
      { unfold switchBondingType. fold bondingType nicknames.
      rewrite decide_False, decide_True by done.
      rewrite decide_False by (rewrite Hn; by intros [_ []]).
      rewrite Hn. cbn. rewrite Hcid. unfold bind, nextId, bind, get, modify, ret. cbn.
      apply (f_equal2 pair); [|reflexivity]. unfold InterfacePort.literal, label.
      do 4 f_equal. lia. }
      reflexivity.
Qed.

(** C9. On an existing server and port channel, a bonding type other than
    lacp, static and single is accepted: the operation returns the port
    channel without error, the server is left without ports, and the port
    list of the returned and of the stored port channel is empty. *)
Theorem ServerConfigureBonding_other_type m serverId portChannelId params s sv j c :
  findServer serverId (servers m) = Some (s, sv) →
  findPortChannel portChannelId (openapi.Server.PortChannels (Server.Server sv)) = Some (j, c) →
  ConfigureBondingParameter.BondingType params
    ∉ [BondingTypeLacp; BondingTypeStatic; BondingTypeSingle] →
  ∃ c' m',
    ServerConfigureBonding serverId portChannelId params m = (Return c', m') ∧
    serverPorts m' s = [] ∧
    PortChannel.Ports c' = [] ∧
    portChannelAt m' s j = Some c'.
Proof.
  intros Hfind Hchan Hother.
  assert (Hswitch : switchBondingType c portChannelId params m = (Return [], m)).
  { unfold switchBondingType. rewrite !decide_False; [done|..].
    - intros E. apply Hother. rewrite E, !elem_of_cons. tauto.
    - intros [E|E]; apply Hother; rewrite E, !elem_of_cons; tauto. }
  destruct (ServerConfigureBonding_commits _ _ _ _ _ _ _ _ _ _ Hfind Hchan Hswitch eq_refl)
    as (m' & Hrun & Hports & Hstored).
  by eexists _, m'.
Qed.

(** ** Network assignment *)

Lemma portAt_Some m s j p :
  portAt m s j = Some p →
  ∃ sv, servers m !! s = Some sv ∧ openapi.Server.Ports (Server.Server sv) !! j = Some p.
Proof.
  unfold portAt. destruct (servers m !! s) as [sv|]; cbn; [|done]. intros H. by exists sv.
Qed.

Lemma loadPort_run m s j p : portAt m s j = Some p → loadPort s j m = (Return p, m).
Proof.
  intros (sv & Hs & Hj)%portAt_Some. unfold loadPort.
  by rewrite (bind_Return _ _ _ _ _ (load_run _ _ _ Hs)), Hj.
Qed.

Lemma storePort_run m s j p f :
  portAt m s j = Some p → storePort s j f m = (Return tt, putPort s j (f p) m).
Proof.
  intros H. pose proof H as (sv & Hs & Hj)%portAt_Some. unfold storePort.
  rewrite (bind_Return _ _ _ _ _ (loadPort_run _ _ _ _ H)).
  rewrite (storeServer_run _ _ _ _ Hs). unfold putPort. by rewrite Hs.
Qed.

Lemma portAt_putPort m s j p q : portAt m s j = Some p → portAt (putPort s j q m) s j = Some q.
Proof.
  intros (sv & Hs & Hj)%portAt_Some. unfold putPort, portAt. rewrite Hs.
  erewrite lookup_putServer by done. cbn.
  apply list_lookup_insert_eq. by eapply lookup_lt_Some.
Qed.

Lemma putPort_putPort m s j q q' : putPort s j q (putPort s j q' m) = putPort s j q m.
Proof.
  unfold putPort at 2 3. destruct (servers m !! s) as [sv|] eqn:Hs.
  - unfold putPort. erewrite lookup_putServer by done.
    rewrite putServer_putServer. cbn. by rewrite list_insert_insert_eq.
  - unfold putPort. by rewrite Hs.
Qed.

Lemma storePort_putPort m s j p q f :
  portAt m s j = Some p →
  storePort s j f (putPort s j q m) = (Return tt, putPort s j (f q) m).
Proof.
  intros H. erewrite storePort_run by by eapply portAt_putPort.
  by rewrite putPort_putPort.
Qed.

Lemma engine_putPort_catalogs m s j q :
  Engine.DedicatedSubnets (Machine.engine (putPort s j q m))
    = Engine.DedicatedSubnets (Machine.engine m) ∧
  Engine.PrivateNetworks (Machine.engine (putPort s j q m))
    = Engine.PrivateNetworks (Machine.engine m).
Proof. unfold putPort. by destruct (servers m !! s), m as [[]]. Qed.

Lemma getDedicatedSubnetById_putPort id m s j q :
  getDedicatedSubnetById id (putPort s j q m)
  = (Return (findDedicatedSubnet id m), putPort s j q m).
Proof.
  unfold getDedicatedSubnetById, findDedicatedSubnet, bind, get, ret.
  by rewrite (proj1 (engine_putPort_catalogs _ _ _ _)).
Qed.

Lemma getPrivateNetworkById_putPort id m s j q :
  getPrivateNetworkById id (putPort s j q m)
  = (Return (findPrivateNetwork id m), putPort s j q m).
Proof.
  unfold getPrivateNetworkById, findPrivateNetwork, bind, get, ret.
  by rewrite (proj2 (engine_putPort_catalogs _ _ _ _)).
Qed.

Lemma findPort_Some portId l j p :
  findPort portId l = Some (j, p) → l !! j = Some p ∧ InterfacePort.PortId p = portId.
Proof. unfold findPort. intros H. apply list_find_Some in H. by destruct H as (? & ? & _). Qed.

Lemma getPortById_run m s sv portId j p :
  servers m !! s = Some sv →
  findPort portId (openapi.Server.Ports (Server.Server sv)) = Some (j, p) →
  getPortById s portId m = (Return j, m).
Proof.
  intros Hs Hport. unfold getPortById.
  by rewrite (bind_Return _ _ _ _ _ (load_run _ _ _ Hs)), Hport.
Qed.

Lemma getPortById_missing m s sv portId :
  servers m !! s = Some sv →
  findPort portId (openapi.Server.Ports (Server.Server sv)) = None →
  getPortById s portId m = (Failure (NewError ErrorTypeNotFound "port" (ArgInt portId) []), m).
Proof.
  intros Hs Hport. unfold getPortById.
  by rewrite (bind_Return _ _ _ _ _ (load_run _ _ _ Hs)), Hport.
Qed.

Lemma updatePort_putPort m s j p q :
  portAt m s j = Some p →
  ∃ m', updatePort s j (putPort s j q m) = (Return tt, m') ∧ portAt m' s j = Some q.
Proof.
  intros H. pose proof (portAt_putPort _ _ _ _ q H) as Hq.
  pose proof Hq as (sv & Hs & Hj)%portAt_Some.
  eexists. split.
  - unfold updatePort. rewrite (bind_Return _ _ _ _ _ (loadPort_run _ _ _ _ Hq)).
    by rewrite (storeServer_run _ _ _ _ Hs).
  - unfold portAt. erewrite lookup_putServer by done. cbn.
    rewrite list_lookup_fmap, Hj. cbn. by rewrite decide_True.
Qed.

Lemma ServerAssignNetwork_resets m serverId portId params s sv j p :
  findServer serverId (servers m) = Some (s, sv) →
  findPort portId (openapi.Server.Ports (Server.Server sv)) = Some (j, p) →
  ServerAssignNetwork serverId portId params m
  = (let* internet := switchInternetType s j portId params in
     storePort s j (InterfacePort.set_Internet internet) >>
     switchMode s j params >>
     ifPrivateNetworkIds s j portId params >>
     updatePort s j >>
     loadPort s j) (putPort s j (cleared p) m).
Proof.
  intros Hfind Hport.
  pose proof (findServer_Some _ _ _ _ Hfind) as [Hs _].
  pose proof (findPort_Some _ _ _ _ Hport) as [Hj _].
  assert (Hat : portAt m s j = Some p) by (unfold portAt; by rewrite Hs).
  unfold ServerAssignNetwork.
  enter_server Hfind.
  rewrite (bind_Return _ _ _ _ _ (getPortById_run _ _ _ _ _ _ Hs Hport)).
  rewrite (bind_Return _ _ _ _ _ (storePort_run _ _ _ _ _ Hat)).
  do 4 rewrite (bind_Return _ _ _ _ _ (storePort_putPort _ _ _ _ _ _ Hat)).
  by destruct p.
Qed.

Lemma switchInternetType_inv m s j p q portId params internet m1 :
  portAt m s j = Some p →
  switchInternetType s j portId params (putPort s j q m) = (Return internet, m1) →
  ∃ q', m1 = putPort s j q' m ∧
    ((AssignNetworkParameter.InternetType params = None ∧ internet = None ∧ q' = q) ∨
     (AssignNetworkParameter.InternetType params
        = Some AssignNetworkParameterInternetTypeCommonSubnet ∧
      internet = Some (Internet.mk None "203.0.113.0" 24 InternetSubnetTypeCommonSubnet) ∧
      q' = InterfacePort.set_GlobalBandwidthMbps (Some 100) q) ∨
     (AssignNetworkParameter.InternetType params
        = Some AssignNetworkParameterInternetTypeDedicatedSubnet ∧
      (∃ id subnet,
         AssignNetworkParameter.DedicatedSubnetId params = Some id ∧
         findDedicatedSubnet id m = Some subnet ∧
         internet = Some (Internet.mk
                            (Some (AttachedDedicatedSubnet.mk
                                     (DedicatedSubnet.DedicatedSubnetId subnet)
                                     (Service.Nickname (DedicatedSubnet.Service subnet))))
                            (Ipv4.NetworkAddress (DedicatedSubnet.Ipv4 subnet))
                            (Ipv4.PrefixLength (DedicatedSubnet.Ipv4 subnet))
                            InternetSubnetTypeDedicatedSubnet)) ∧
      q' = InterfacePort.set_GlobalBandwidthMbps (Some 500) q)).
Proof.
  intros Hat. unfold switchInternetType.
  destruct (AssignNetworkParameter.InternetType params) as [internetType|].
  - case_decide as Hcommon; [|case_decide as Hdedicated].
    + rewrite (bind_Return _ _ _ _ _ (storePort_putPort _ _ _ _ _ _ Hat)).
      intros [= <- <-]. subst. eexists. split; [done|]. right; left. done.
    + destruct (AssignNetworkParameter.DedicatedSubnetId params) as [id|]; [|done].
      rewrite (bind_Return _ _ _ _ _ (getDedicatedSubnetById_putPort _ _ _ _ _)).
      destruct (findDedicatedSubnet id m) as [subnet|] eqn:Hsubnet; [|done].
      rewrite (bind_Return _ _ _ _ _ (storePort_putPort _ _ _ _ _ _ Hat)).
      intros [= <- <-]. subst. eexists. split; [done|]. right; right.
      split_and!; [done| |done]. by exists id, subnet.
    + done.
  - intros [= <- <-]. eexists. split; [done|]. by left.
Qed.

Lemma switchMode_run m s j p q params :
  portAt m s j = Some p →
  switchMode s j params (putPort s j q m)
  = (Return tt,
     putPort s j
       (if decide (AssignNetworkParameter.Mode params = AssignNetworkParameterModeAccess)
        then InterfacePort.set_Mode (Some InterfacePortModeAccess) q
        else if decide (AssignNetworkParameter.Mode params = AssignNetworkParameterModeTrunk)
        then InterfacePort.set_Mode (Some InterfacePortModeTrunk) q
        else q) m).
Proof.
  intros Hat. unfold switchMode.
  repeat case_decide; try by rewrite (storePort_putPort _ _ _ _ _ _ Hat). done.
Qed.

Lemma set_PrivateNetworks_app q atts0 atts :
  let q1 := InterfacePort.set_PrivateNetworks (InterfacePort.PrivateNetworks q ++ atts0) q in
  InterfacePort.set_PrivateNetworks (InterfacePort.PrivateNetworks q1 ++ atts) q1
  = InterfacePort.set_PrivateNetworks (InterfacePort.PrivateNetworks q ++ atts0 ++ atts) q.
Proof. destruct q. cbn. by rewrite <- app_assoc. Qed.

Lemma set_PrivateNetworks_nil q :
  InterfacePort.set_PrivateNetworks (InterfacePort.PrivateNetworks q ++ []) q = q.
Proof. destruct q. cbn. by rewrite app_nil_r. Qed.

Lemma rangePrivateNetworkIds_inv m s j p portId ids : ∀ q m1,
  portAt m s j = Some p →
  rangePrivateNetworkIds s j portId ids (putPort s j q m) = (Return tt, m1) →
  ∃ atts,
    m1 = putPort s j
           (InterfacePort.set_PrivateNetworks (InterfacePort.PrivateNetworks q ++ atts) q) m ∧
    AttachedPrivateNetwork.PrivateNetworkId <$> atts = ids.
Proof.
  induction ids as [|id ids IH]; intros q m1 Hat; cbn [rangePrivateNetworkIds].
  - intros [= <-]. exists []. by rewrite set_PrivateNetworks_nil.
  - rewrite (bind_Return _ _ _ _ _ (getPrivateNetworkById_putPort _ _ _ _ _)).
    destruct (findPrivateNetwork id m) as [pn|] eqn:Hpn; [|done].
    rewrite (bind_Return _ _ _ _ _ (storePort_putPort _ _ _ _ _ _ Hat)).
    intros Hrest. eapply IH in Hrest as (atts & -> & Hids); [|done].
    eexists (_ :: atts). rewrite set_PrivateNetworks_app. split; [done|].
    cbn. f_equal; [|done].
    unfold findPrivateNetwork in Hpn.
    destruct (list_find _ _) as [[k pn']|] eqn:Hk; [|done].
    apply list_find_Some in Hk as (_ & Hk & _). cbn in Hpn. by simplify_eq.
Qed.

Lemma ifPrivateNetworkIds_inv m s j p q portId params m1 :
  portAt m s j = Some p →
  ifPrivateNetworkIds s j portId params (putPort s j q m) = (Return tt, m1) →
  ∃ q', m1 = putPort s j q' m ∧
    match AssignNetworkParameter.PrivateNetworkIds params with
    | None => q' = q
    | Some ids =>
        ∃ atts,
          q' = InterfacePort.set_LocalBandwidthMbps (Some 1000)
                 (InterfacePort.set_PrivateNetworks
                    (InterfacePort.PrivateNetworks q ++ atts) q) ∧
          AttachedPrivateNetwork.PrivateNetworkId <$> atts = ids
    end.
Proof.
  intros Hat. unfold ifPrivateNetworkIds.
  destruct (AssignNetworkParameter.PrivateNetworkIds params) as [ids|].
  - intros ([] & m2 & Hrange & Hstore)%bind_inv_Return.
    eapply rangePrivateNetworkIds_inv in Hrange as (atts & -> & Hids); [|done].
    rewrite (storePort_putPort _ _ _ _ _ _ Hat) in Hstore. injection Hstore as <-.
    eexists. split; [done|]. by exists atts.
  - intros [= <-]. by eexists.
Qed.

(** C6. Whenever [ServerAssignNetwork] succeeds, the internet attachment, the
    mode, the private-network attachments and the two bandwidth fields of the
    port are what the request alone says, whatever they were before: without
    internet type no internet attachment and no global bandwidth; with
    common-subnet the shared subnet and global bandwidth 100; with
    dedicated-subnet the attachment of the subnet found in the catalog and
    global bandwidth 500; the requested mode or none; without private-network
    list no attachment and no local bandwidth; with a list one attachment per
    identifier and local bandwidth 1000, whatever the length of the list. The
    returned port is the one the store holds. *)
Theorem ServerAssignNetwork_bandwidth m serverId portId params port' m' :
  ServerAssignNetwork serverId portId params m = (Return port', m') →
  ∃ s sv j p,
    findServer serverId (servers m) = Some (s, sv) ∧
    findPort portId (openapi.Server.Ports (Server.Server sv)) = Some (j, p) ∧
    portAt m' s j = Some port' ∧
    InterfacePort.Enabled port' = InterfacePort.Enabled p ∧
    InterfacePort.Nickname port' = InterfacePort.Nickname p ∧
    InterfacePort.PortChannelId port' = InterfacePort.PortChannelId p ∧
    InterfacePort.PortId port' = InterfacePort.PortId p ∧
    match AssignNetworkParameter.InternetType params with
    | None =>
        InterfacePort.Internet port' = None ∧
        InterfacePort.GlobalBandwidthMbps port' = None
    | Some internetType =>
        (internetType = AssignNetworkParameterInternetTypeCommonSubnet ∧
         InterfacePort.Internet port'
           = Some (Internet.mk None "203.0.113.0" 24 InternetSubnetTypeCommonSubnet) ∧
         InterfacePort.GlobalBandwidthMbps port' = Some 100) ∨
        (internetType = AssignNetworkParameterInternetTypeDedicatedSubnet ∧
         (∃ id subnet,
            AssignNetworkParameter.DedicatedSubnetId params = Some id ∧
            findDedicatedSubnet id m = Some subnet ∧
            InterfacePort.Internet port'
              = Some (Internet.mk
                        (Some (AttachedDedicatedSubnet.mk
                                 (DedicatedSubnet.DedicatedSubnetId subnet)
                                 (Service.Nickname (DedicatedSubnet.Service subnet))))
                        (Ipv4.NetworkAddress (DedicatedSubnet.Ipv4 subnet))
                        (Ipv4.PrefixLength (DedicatedSubnet.Ipv4 subnet))
                        InternetSubnetTypeDedicatedSubnet)) ∧
         InterfacePort.GlobalBandwidthMbps port' = Some 500)
    end ∧
    InterfacePort.Mode port'
      = (if decide (AssignNetworkParameter.Mode params = AssignNetworkParameterModeAccess)
         then Some InterfacePortModeAccess
         else if decide (AssignNetworkParameter.Mode params = AssignNetworkParameterModeTrunk)
         then Some InterfacePortModeTrunk
         else None) ∧
    match AssignNetworkParameter.PrivateNetworkIds params with
    | None =>
        InterfacePort.PrivateNetworks port' = [] ∧
        InterfacePort.LocalBandwidthMbps port' = None
    | Some ids =>
        AttachedPrivateNetwork.PrivateNetworkId <$> InterfacePort.PrivateNetworks port' = ids ∧
        InterfacePort.LocalBandwidthMbps port' = Some 1000
    end.
Proof.
  intros Hrun.
  destruct (findServer serverId (servers m)) as [[s sv]|] eqn:Hfind; last first.
  { unfold ServerAssignNetwork in Hrun.
    by rewrite (bind_Return _ _ _ _ _ (getServerById_run _ _)), Hfind in Hrun. }
  pose proof (findServer_Some _ _ _ _ Hfind) as [Hs _].
  destruct (findPort portId (openapi.Server.Ports (Server.Server sv))) as [[j p]|] eqn:Hport;
    last first.
  { unfold ServerAssignNetwork in Hrun.
    rewrite (bind_Return _ _ _ _ _ (getServerById_run _ _)), Hfind in Hrun.
    cbn [fmap option_fmap option_map fst] in Hrun.
    by rewrite (bind_Failure _ _ _ _ _ (getPortById_missing _ _ _ _ Hs Hport)) in Hrun. }
  pose proof (findPort_Some _ _ _ _ Hport) as [Hj _].
  assert (Hat : portAt m s j = Some p) by (unfold portAt; by rewrite Hs).
  rewrite (ServerAssignNetwork_resets _ _ _ _ _ _ _ _ Hfind Hport) in Hrun.
  apply bind_inv_Return in Hrun as (internet & m1 & Hinternet & Hrun).
  eapply switchInternetType_inv in Hinternet as (q1 & -> & Hinternet); [|done].
  rewrite (bind_Return _ _ _ _ _ (storePort_putPort _ _ _ _ _ _ Hat)) in Hrun.
  rewrite (bind_Return _ _ _ _ _ (switchMode_run _ _ _ _ _ _ Hat)) in Hrun.
  apply bind_inv_Return in Hrun as ([] & m2 & Hprivate & Hrun).
  eapply ifPrivateNetworkIds_inv in Hprivate as (q2 & -> & Hprivate); [|done].
  destruct (updatePort_putPort _ _ _ _ q2 Hat) as (m3 & Hupdate & Hstored).
  rewrite (bind_Return _ _ _ _ _ Hupdate), (loadPort_run _ _ _ _ Hstored) in Hrun.
  injection Hrun as <- <-.
  exists s, sv, j, p.
  assert (Hq2 : ∃ atts,
    q2 = (if AssignNetworkParameter.PrivateNetworkIds params is Some _
          then InterfacePort.set_LocalBandwidthMbps (Some 1000) else id)
           (InterfacePort.set_PrivateNetworks atts
              (InterfacePort.set_Mode
                 (if decide (AssignNetworkParameter.Mode params = AssignNetworkParameterModeAccess)
                  then Some InterfacePortModeAccess
                  else if decide (AssignNetworkParameter.Mode params
                                  = AssignNetworkParameterModeTrunk)
                  then Some InterfacePortModeTrunk
                  else None)
                 (InterfacePort.set_Internet internet
                    (InterfacePort.set_GlobalBandwidthMbps
                       (InterfacePort.GlobalBandwidthMbps q1) (cleared p))))) ∧
    if AssignNetworkParameter.PrivateNetworkIds params is Some ids
    then AttachedPrivateNetwork.PrivateNetworkId <$> atts = ids else atts = []).
  { destruct (AssignNetworkParameter.PrivateNetworkIds params) as [ids|].
    - destruct Hprivate as (atts & -> & Hids). exists atts. split; [|done].
      destruct Hinternet as [(_ & _ & ->)|[(_ & _ & ->)|(_ & _ & ->)]];
        by repeat case_decide.
    - subst q2. exists []. split; [|done].
      destruct Hinternet as [(_ & _ & ->)|[(_ & _ & ->)|(_ & _ & ->)]];
        by repeat case_decide. }
  destruct Hq2 as (atts & -> & Hatts).
  split_and!; [done|done|done|..].
  1-4: by destruct (AssignNetworkParameter.PrivateNetworkIds params).
  - destruct Hinternet as [(-> & -> & ->)|[(-> & -> & ->)|(-> & (id & subnet & ? & ? & ->) & ->)]].
    + by destruct (AssignNetworkParameter.PrivateNetworkIds params).
    + left. by destruct (AssignNetworkParameter.PrivateNetworkIds params).
    + right. split_and!; [done| |by destruct (AssignNetworkParameter.PrivateNetworkIds params)].
      exists id, subnet. by destruct (AssignNetworkParameter.PrivateNetworkIds params).
  - by destruct (AssignNetworkParameter.PrivateNetworkIds params).
  - destruct (AssignNetworkParameter.PrivateNetworkIds params); by subst.
Qed.

(** C7, as the code has it. When the request asks for a dedicated subnet
    whose identifier is not in the catalog, [ServerAssignNetwork] on an
    existing server and port returns the invalid-request error for the port,
    and what the error receives for the [%s] of its message is the pointer
    [params.DedicatedSubnetId] of the request, not the identifier behind it:
    the arguments of the error are not the message followed by the
    identifier. *)
Theorem ServerAssignNetwork_unknown_subnet m serverId portId params s sv j p id :
  findServer serverId (servers m) = Some (s, sv) →
  findPort portId (openapi.Server.Ports (Server.Server sv)) = Some (j, p) →
  AssignNetworkParameter.InternetType params
    = Some AssignNetworkParameterInternetTypeDedicatedSubnet →
  AssignNetworkParameter.DedicatedSubnetId params = Some id →
  findDedicatedSubnet id m = None →
  ∃ e,
    (ServerAssignNetwork serverId portId params m).1 = Failure e ∧
    Error.Type_ e = ErrorTypeInvalidRequest ∧
    Error.Resource e = "port" ∧
    Error.Id e = ArgInt portId ∧
    Error.MsgAndArgs e
      = [ArgString "invalid dedicated subnet id: %s";
         ArgStringPtr (AssignNetworkParameter.DedicatedSubnetId params)] ∧
    Error.MsgAndArgs e ≠ [ArgString "invalid dedicated subnet id: %s"; ArgString id].
Proof.
  intros Hfind Hport Htype Hid Hsubnet.
  pose proof (findServer_Some _ _ _ _ Hfind) as [Hs _].
  pose proof (findPort_Some _ _ _ _ Hport) as [Hj _].
  assert (Hat : portAt m s j = Some p) by (unfold portAt; by rewrite Hs).
  exists (NewError ErrorTypeInvalidRequest "port" (ArgInt portId)
            [ArgString "invalid dedicated subnet id: %s";
             ArgStringPtr (AssignNetworkParameter.DedicatedSubnetId params)]).
  split_and!; [|done..|].
  - rewrite (ServerAssignNetwork_resets _ _ _ _ _ _ _ _ Hfind Hport).
    erewrite bind_Failure; [done|].
    unfold switchInternetType. rewrite Htype, Hid.
    rewrite decide_False by done. rewrite decide_True by done.
    by rewrite (bind_Return _ _ _ _ _ (getDedicatedSubnetById_putPort _ _ _ _ _)), Hsubnet.
  - done.
Qed.

(** C10. When the request asks for a dedicated subnet and carries no
    dedicated-subnet identifier, [ServerAssignNetwork] on an existing server
    and port panics on the dereference of the absent identifier; it returns
    no error. *)
Theorem ServerAssignNetwork_absent_subnet_id m serverId portId params s sv j p :
  findServer serverId (servers m) = Some (s, sv) →
  findPort portId (openapi.Server.Ports (Server.Server sv)) = Some (j, p) →
  AssignNetworkParameter.InternetType params
    = Some AssignNetworkParameterInternetTypeDedicatedSubnet →
  AssignNetworkParameter.DedicatedSubnetId params = None →
  (ServerAssignNetwork serverId portId params m).1 = Panicked nil_dereference ∧
  ∀ e, (ServerAssignNetwork serverId portId params m).1 ≠ Failure e.
Proof.
  intros Hfind Hport Htype Hid.
  assert (Hrun : ServerAssignNetwork serverId portId params m
                 = (Panicked nil_dereference, putPort s j (cleared p) m)).
  { rewrite (ServerAssignNetwork_resets _ _ _ _ _ _ _ _ Hfind Hport).
    apply bind_Panicked. unfold switchInternetType. rewrite Htype, Hid.
    rewrite decide_False by done. by rewrite decide_True by done. }
  rewrite Hrun. by split.
Qed.

(** ** Reads of the power status *)

(** C4, for [ReadServerPowerStatus]. The operation hands out the pointer the
    server record holds, not a copy of the record behind it: when the caller
    assigns through the pointer it was given, the next read of the same
    server returns what the caller wrote. *)
Theorem ReadServerPowerStatus_aliases_store m serverId s sv a v v' :
  findServer serverId (servers m) = Some (s, sv) →
  Server.PowerStatus sv = Some a →
  Machine.heap m !! a = Some v →
  ∃ m',
    (let* p := ReadServerPowerStatus serverId in assign p v') m = (Return tt, m') ∧
    (let* p := ReadServerPowerStatus serverId in deref p) m' = (Return v', m').
Proof.
  intros Hfind Ha Hv.
  exists (Machine.set_heap (<[a := v']> (Machine.heap m)) m). split.
  - rewrite (bind_Return _ _ _ _ _ (ReadServerPowerStatus_run _ _ _ _ Hfind)), Ha.
    unfold assign, deref, bind. cbn. by rewrite Hv.
  - assert (Hfind' : findServer serverId
                       (servers (Machine.set_heap (<[a := v']> (Machine.heap m)) m))
                     = Some (s, sv)) by done.
    rewrite (bind_Return _ _ _ _ _ (ReadServerPowerStatus_run _ _ _ _ Hfind')), Ha.
    unfold deref. cbn.
    rewrite list_lookup_insert_eq; [done|]. by eapply lookup_lt_Some.
Qed.

(** ** The operations on the seeded engine *)

Lemma locked_server_conflict_witness :
  findServer "srv-2" (servers seed) = Some (1%nat, seedServer2) ∧
  openapi.Server.LockStatus (Server.Server seedServer2) = Some ServerLockStatusOsInstall ∧
  OSInstall "srv-2" (OsInstallParameter.mk "ubuntu") seed
    = (Failure (NewError ErrorTypeConflict "server" (ArgString "srv-2") []), seed) ∧
  ServerPowerControl "srv-2" (PowerControlParameter.mk "off") seed
    = (Failure (NewError ErrorTypeConflict "server" (ArgString "srv-2") []), seed).
Proof.
  assert (H1 : findServer "srv-2" (servers seed) = Some (1%nat, seedServer2))
    by (vm_compute; reflexivity).
  assert (H2 : openapi.Server.LockStatus (Server.Server seedServer2)
               = Some ServerLockStatusOsInstall) by reflexivity.
  split_and!; [exact H1|exact H2|..].
  - apply (proj1 (locked_server_conflict seed "srv-2" 1 seedServer2 _ H1 H2)).
  - apply (proj2 (locked_server_conflict seed "srv-2" 1 seedServer2 _ H1 H2)).
Defined.

(** C1, as stated, fails on the idle server of the seeded engine:
    [OSInstall] returns success with the records of the engine as they
    were and the goroutine it created still waiting, and a read made then
    finds no lock-status where the claim expects the OS-install value. *)
Lemma OSInstall_lock_absent_at_return :
  findServer "srv-1" (servers seed) = Some (0%nat, seedServer1) ∧
  openapi.Server.LockStatus (Server.Server seedServer1) = None ∧
  OsImage.mk "ubuntu" ∈ Server.OSImages seedServer1 ∧
  ∃ m1 server,
    OSInstall "srv-1" (OsInstallParameter.mk "ubuntu") seed = (Return tt, m1) ∧
    Machine.engine m1 = Machine.engine seed ∧
    Machine.goroutines m1 = [OSInstallStart 0] ∧
    ReadServer "srv-1" m1 = (Return server, m1) ∧
    openapi.Server.LockStatus server = None ∧
    openapi.Server.LockStatus server ≠ Some ServerLockStatusOsInstall.
Proof.
  split_and!; [by vm_compute|done|apply list_elem_of_here|].
  eexists _, _. split_and!; [by vm_compute|done|done|by vm_compute|done|done].
Qed.

Lemma OSInstall_locks_in_background_witness :
  findServer "srv-1" (servers seed) = Some (0%nat, seedServer1) ∧
  openapi.Server.LockStatus (Server.Server seedServer1) = None ∧
  (∃ image, image ∈ Server.OSImages seedServer1 ∧
            OsImage.OsImageId image = "ubuntu") ∧
  ∃ m1 m2,
    OSInstall "srv-1" (OsInstallParameter.mk "ubuntu") seed = (Return tt, m1) ∧
    Machine.goroutines m1 = [OSInstallStart 0] ∧
    (∃ before, ReadServer "srv-1" m1 = (Return before, m1) ∧
               openapi.Server.LockStatus before = None) ∧
    schedule 4 0 m1 = (Return tt, m2) ∧
    Machine.goroutines m2 = [OSInstallFinish 0] ∧
    (∃ after, ReadServer "srv-1" m2 = (Return after, m2) ∧
              openapi.Server.LockStatus after = Some "installing") ∧
    schedule 5 0 m2 = (Return tt, seed).
Proof.
  assert (H1 : findServer "srv-1" (servers seed) = Some (0%nat, seedServer1))
    by (vm_compute; reflexivity).
  assert (H2 : openapi.Server.LockStatus (Server.Server seedServer1) = None) by reflexivity.
  assert (H3 : ∃ image, image ∈ Server.OSImages seedServer1 ∧
                        OsImage.OsImageId image = "ubuntu").
  { exists (OsImage.mk "ubuntu"). split; [apply list_elem_of_here|reflexivity]. }
  split_and!; [exact H1|exact H2|exact H3|].
  destruct (OSInstall_locks_in_background seed "srv-1" (OsInstallParameter.mk "ubuntu")
              0 seedServer1 4 5 H1 H2 H3)
    as (Hcall & Hbefore & Hstart & (after & Hread & Hlock & _) & Hfinish & _).
  eexists _, _. split_and!.
  - exact Hcall.
  - reflexivity.
  - exact Hbefore.
  - exact Hstart.
  - reflexivity.
  - exists after. split; [exact Hread|exact Hlock].
  - exact Hfinish.
Defined.

(** C8, as stated, fails on the powered-on server of the seeded engine: with
    an operation value that is none of on, reset, soft and off the call is
    accepted, and once its goroutine has run the read of the power status
    finds the empty status instead of on. *)
Lemma ServerPowerControl_other_operation_changes_status :
  let read := let* p := ReadServerPowerStatus "srv-1" in deref p in
  value (read seed).1 = Some (ServerPowerStatus.mk ServerPowerStatusStatusOn) ∧
  value ((ServerPowerControl "srv-1" (PowerControlParameter.mk "cycle") >>
          schedule 5 0 >> read) seed).1
    = Some (ServerPowerStatus.mk "") ∧
  ServerPowerStatus.mk "" ≠ ServerPowerStatus.mk ServerPowerStatusStatusOn.
Proof. split_and!; [by vm_compute|by vm_compute|done]. Qed.

Lemma ServerPowerControl_settles_witness :
  findServer "srv-1" (servers seed) = Some (0%nat, seedServer1) ∧
  openapi.Server.LockStatus (Server.Server seedServer1) = None ∧
  ∃ m1 m2 status server cached,
    ServerPowerControl "srv-1" (PowerControlParameter.mk "reset") seed = (Return tt, m1) ∧
    Machine.goroutines m1 = [PowerControlUpdate 0 "on" "on"] ∧
    schedule 5 0 m1 = (Return tt, m2) ∧
    (let* p := ReadServerPowerStatus "srv-1" in deref p) m2 = (Return status, m2) ∧
    ServerPowerStatus.Status status = "on" ∧
    ReadServer "srv-1" m2 = (Return server, m2) ∧
    openapi.Server.CachedPowerStatus server = Some cached ∧
    CachedPowerStatus.Status cached = "on" ∧
    CachedPowerStatus.Stored cached = 5.
Proof.
  assert (H1 : findServer "srv-1" (servers seed) = Some (0%nat, seedServer1))
    by (vm_compute; reflexivity).
  assert (H2 : openapi.Server.LockStatus (Server.Server seedServer1) = None) by reflexivity.
  split_and!; [exact H1|exact H2|].
  destruct (ServerPowerControl_settles seed "srv-1" (PowerControlParameter.mk "reset")
              0 seedServer1 5 H1 H2)
    as (powerStates & cachedPowerStatus & Hon & _ & _ & Hcall & Hrun
        & (status & Hstatus & Hps) & (server & cached & Hread & _ & Hcached & Hcs & Hstored)).
  destruct Hon as [-> ->]; [by right|].
  eexists _, _, status, server, cached.
  split_and!;
    [exact Hcall|reflexivity|exact Hrun|exact Hstatus|exact Hps|exact Hread|exact Hcached
    |exact Hcs|exact Hstored].
Defined.

Lemma ServerConfigureBonding_ports_witness :
  findServer "srv-1" (servers seed) = Some (0%nat, seedServer1) ∧
  findPortChannel 7 (openapi.Server.PortChannels (Server.Server seedServer1))
    = Some (0%nat, seedPortChannel) ∧
  creates "srv-1" 7 (ConfigureBondingParameter.mk BondingTypeLacp (Some [""])) seed 0 0
    ["10gbe"] ∧
  creates "srv-1" 7 (ConfigureBondingParameter.mk BondingTypeSingle None) seed 0 0
    ["10gbe 1"; "10gbe 2"] ∧
  ServerConfigureBonding "srv-1" 7
    (ConfigureBondingParameter.mk BondingTypeStatic (Some ["a"; "b"])) seed
    = (Failure (NewError ErrorTypeInvalidRequest "port-channel" (ArgInt 7)
                  [ArgString "invalid PortNicknames"]), seed).
Proof.
  assert (H1 : findServer "srv-1" (servers seed) = Some (0%nat, seedServer1))
    by (vm_compute; reflexivity).
  assert (H2 : findPortChannel 7 (openapi.Server.PortChannels (Server.Server seedServer1))
               = Some (0%nat, seedPortChannel)) by (vm_compute; reflexivity).
  split_and!; [exact H1|exact H2|..].
  - destruct (ServerConfigureBonding_ports seed "srv-1" 7
                (ConfigureBondingParameter.mk BondingTypeLacp (Some [""]))
                0 seedServer1 0 seedPortChannel H1 H2) as [Hlacp _].
    destruct Hlacp as (_ & _ & Hempty & _); [left; reflexivity|].
    apply Hempty. reflexivity.
  - destruct (ServerConfigureBonding_ports seed "srv-1" 7
                (ConfigureBondingParameter.mk BondingTypeSingle None)
                0 seedServer1 0 seedPortChannel H1 H2) as [_ Hsingle].
    destruct Hsingle as (_ & Hdefault & _); [reflexivity|].
    apply Hdefault. reflexivity.
  - destruct (ServerConfigureBonding_ports seed "srv-1" 7
                (ConfigureBondingParameter.mk BondingTypeStatic (Some ["a"; "b"]))
                0 seedServer1 0 seedPortChannel H1 H2) as [Hstatic _].
    destruct Hstatic as (Hinvalid & _); [right; reflexivity|].
    apply (Hinvalid ["a"; "b"]); [reflexivity|cbn; lia].
Defined.

Lemma ServerConfigureBonding_other_type_witness :
  findServer "srv-1" (servers seed) = Some (0%nat, seedServer1) ∧
  findPortChannel 7 (openapi.Server.PortChannels (Server.Server seedServer1))
    = Some (0%nat, seedPortChannel) ∧
  ("bridge" ∉ [BondingTypeLacp; BondingTypeStatic; BondingTypeSingle]) ∧
  ∃ c' m',
    ServerConfigureBonding "srv-1" 7 (ConfigureBondingParameter.mk "bridge" (Some ["a"])) seed
      = (Return c', m') ∧
    serverPorts m' 0 = [] ∧
    PortChannel.Ports c' = [] ∧
    portChannelAt m' 0 0 = Some c'.
Proof.
  assert (H1 : findServer "srv-1" (servers seed) = Some (0%nat, seedServer1))
    by (vm_compute; reflexivity).
  assert (H2 : findPortChannel 7 (openapi.Server.PortChannels (Server.Server seedServer1))
               = Some (0%nat, seedPortChannel)) by (vm_compute; reflexivity).
  assert (H3 : "bridge" ∉ [BondingTypeLacp; BondingTypeStatic; BondingTypeSingle]).
  { rewrite !elem_of_cons, elem_of_nil. intros [H|[H|[H|[]]]]; discriminate H. }
  split_and!; [exact H1|exact H2|exact H3|].
  apply (ServerConfigureBonding_other_type seed "srv-1" 7
           (ConfigureBondingParameter.mk "bridge" (Some ["a"]))
           0 seedServer1 0 seedPortChannel H1 H2 H3).
Defined.

Lemma ServerAssignNetwork_bandwidth_witness :
  ∃ port' m',
    ServerAssignNetwork "srv-1" 41
      (AssignNetworkParameter.mk (Some AssignNetworkParameterInternetTypeCommonSubnet) None
         AssignNetworkParameterModeAccess (Some ["pn-1"; "pn-2"; "pn-1"])) seed
      = (Return port', m') ∧
    InterfacePort.GlobalBandwidthMbps port' = Some 100 ∧
    InterfacePort.LocalBandwidthMbps port' = Some 1000 ∧
    length (InterfacePort.PrivateNetworks port') = 3%nat.
Proof.
  assert (Hrun : ∃ port' m',
    ServerAssignNetwork "srv-1" 41
      (AssignNetworkParameter.mk (Some AssignNetworkParameterInternetTypeCommonSubnet) None
         AssignNetworkParameterModeAccess (Some ["pn-1"; "pn-2"; "pn-1"])) seed
      = (Return port', m')) by (eexists _, _; vm_compute; reflexivity).
  destruct Hrun as (port' & m' & Hrun). exists port', m'. split; [exact Hrun|].
  destruct (ServerAssignNetwork_bandwidth _ _ _ _ _ _ Hrun)
    as (s & sv & j & p & _ & _ & _ & _ & _ & _ & _ & Hinternet & _ & Hprivate).
  cbn in Hinternet, Hprivate. destruct Hprivate as [Hids Hlocal].
  split_and!; [|exact Hlocal|].
  - destruct Hinternet as [(_ & _ & H)|(H & _)]; [exact H|discriminate H].
  - rewrite <- (length_fmap AttachedPrivateNetwork.PrivateNetworkId), Hids. reflexivity.
Defined.

Lemma ServerAssignNetwork_unknown_subnet_witness :
  findServer "srv-1" (servers seed) = Some (0%nat, seedServer1) ∧
  findPort 41 (openapi.Server.Ports (Server.Server seedServer1)) = Some (0%nat, seedPort) ∧
  findDedicatedSubnet "ds-9" seed = None ∧
  ∃ e,
    (ServerAssignNetwork "srv-1" 41
       (AssignNetworkParameter.mk (Some AssignNetworkParameterInternetTypeDedicatedSubnet)
          (Some "ds-9") AssignNetworkParameterModeAccess None) seed).1 = Failure e ∧
    Error.Type_ e = ErrorTypeInvalidRequest ∧
    Error.MsgAndArgs e
      = [ArgString "invalid dedicated subnet id: %s"; ArgStringPtr (Some "ds-9")] ∧
    Error.MsgAndArgs e ≠ [ArgString "invalid dedicated subnet id: %s"; ArgString "ds-9"].
Proof.
  assert (H1 : findServer "srv-1" (servers seed) = Some (0%nat, seedServer1))
    by (vm_compute; reflexivity).
  assert (H2 : findPort 41 (openapi.Server.Ports (Server.Server seedServer1))
               = Some (0%nat, seedPort)) by (vm_compute; reflexivity).
  assert (H3 : findDedicatedSubnet "ds-9" seed = None) by (vm_compute; reflexivity).
  split_and!; [exact H1|exact H2|exact H3|].
  destruct (ServerAssignNetwork_unknown_subnet seed "srv-1" 41
              (AssignNetworkParameter.mk (Some AssignNetworkParameterInternetTypeDedicatedSubnet)
                 (Some "ds-9") AssignNetworkParameterModeAccess None)
              0 seedServer1 0 seedPort "ds-9" H1 H2 eq_refl eq_refl H3)
    as (e & Hrun & Htype & _ & _ & Hargs & Hnot).
  exists e. split_and!; [exact Hrun|exact Htype|exact Hargs|exact Hnot].
Defined.

Lemma ServerAssignNetwork_absent_subnet_id_witness :
  findServer "srv-1" (servers seed) = Some (0%nat, seedServer1) ∧
  findPort 41 (openapi.Server.Ports (Server.Server seedServer1)) = Some (0%nat, seedPort) ∧
  (ServerAssignNetwork "srv-1" 41
     (AssignNetworkParameter.mk (Some AssignNetworkParameterInternetTypeDedicatedSubnet)
        None AssignNetworkParameterModeAccess None) seed).1
    = Panicked nil_dereference.
Proof.
  assert (H1 : findServer "srv-1" (servers seed) = Some (0%nat, seedServer1))
    by (vm_compute; reflexivity).
  assert (H2 : findPort 41 (openapi.Server.Ports (Server.Server seedServer1))
               = Some (0%nat, seedPort)) by (vm_compute; reflexivity).
  split_and!; [exact H1|exact H2|].
  apply (ServerAssignNetwork_absent_subnet_id seed "srv-1" 41
           (AssignNetworkParameter.mk (Some AssignNetworkParameterInternetTypeDedicatedSubnet)
              None AssignNetworkParameterModeAccess None)
           0 seedServer1 0 seedPort H1 H2 eq_refl eq_refl).
Defined.

Lemma ReadServerPowerStatus_aliases_store_witness :
  findServer "srv-1" (servers seed) = Some (0%nat, seedServer1) ∧
  Server.PowerStatus seedServer1 = Some 0%nat ∧
  Machine.heap seed !! 0%nat = Some (ServerPowerStatus.mk ServerPowerStatusStatusOn) ∧
  ∃ m',
    (let* p := ReadServerPowerStatus "srv-1" in
     assign p (ServerPowerStatus.mk ServerPowerStatusStatusOff)) seed = (Return tt, m') ∧
    (let* p := ReadServerPowerStatus "srv-1" in deref p) m'
      = (Return (ServerPowerStatus.mk ServerPowerStatusStatusOff), m').
Proof.
  assert (H1 : findServer "srv-1" (servers seed) = Some (0%nat, seedServer1))
    by (vm_compute; reflexivity).
  split_and!; [exact H1|reflexivity|reflexivity|].
  apply (ReadServerPowerStatus_aliases_store seed "srv-1" 0 seedServer1 0%nat
           (ServerPowerStatus.mk ServerPowerStatusStatusOn)
           (ServerPowerStatus.mk ServerPowerStatusStatusOff) H1 eq_refl eq_refl).
Defined.

(** * Further properties of the engine *)

(** ** What a computation keeps *)

Lemma keeps_ret {A B} (observe : Machine.t → B) (a : A) : keeps observe (ret a).
Proof. by intros m. Qed.

Lemma keeps_fail {A B} (observe : Machine.t → B) e : keeps observe (@fail A e).
Proof. by intros m. Qed.

Lemma keeps_panic {A B} (observe : Machine.t → B) r : keeps observe (@panic A r).
Proof. by intros m. Qed.

Lemma keeps_get {B} (observe : Machine.t → B) : keeps observe get.
Proof. by intros m. Qed.

Lemma keeps_bind {A A' B} (observe : Machine.t → B) (c : Go A) (k : A → Go A') :
  keeps observe c → (∀ a, keeps observe (k a)) → keeps observe (bind c k).
Proof.
  intros Hc Hk m. unfold bind. specialize (Hc m).
  destruct (c m) as [[a|e|r] m1]; cbn in *; [by rewrite Hk|done..].
Qed.

Lemma keeps_modify {B} (observe : Machine.t → B) f :
  (∀ m, observe (f m) = observe m) → keeps observe (modify f).
Proof. intros H m. apply H. Qed.

Lemma keeps_load {B} (observe : Machine.t → B) s : keeps observe (load s).
Proof. intros m. unfold load. by destruct (servers m !! s). Qed.

Lemma keeps_store {B} (observe : Machine.t → B) s f :
  (∀ m sv, servers m !! s = Some sv → observe (putServer s (f sv) m) = observe m) →
  keeps observe (store s f).
Proof.
  intros H m. unfold store, bind, load.
  destruct (servers m !! s) as [sv|] eqn:Hs; [|done]. by apply H.
Qed.

(** The structure of a computation, down to its loads and loops; [leaf]
    settles the stores. *)
Ltac keeps_structure leaf :=
  repeat first
    [ match goal with
      | |- keeps _ (match ?x with _ => _ end) => destruct x
      | |- keeps _ (let '(_, _) := ?x in _) => destruct x
      end
    | lazymatch goal with
      | |- keeps _ (ret _) => apply keeps_ret
      | |- keeps _ (fail _) => apply keeps_fail
      | |- keeps _ (panic _) => apply keeps_panic
      | |- keeps _ get => apply keeps_get
      | |- keeps _ (load _) => apply keeps_load
      | |- keeps _ (bind _ _) => apply keeps_bind; [|intro]
      end
    | leaf ].

Lemma shape_putServer s sv sv' m :
  servers m !! s = Some sv → Server.Id sv' = Server.Id sv →
  shape (putServer s sv' m) = shape m.
Proof.
  intros Hs Hid. destruct m as [[svs ds pn g] h gs]. unfold shape, putServer, set_servers, servers in *.
  cbn in *. by rewrite list_fmap_insert, Hid, list_insert_id by by rewrite list_lookup_fmap, Hs.
Qed.

Lemma keeps_shape_storeServer s f :
  (∀ x, openapi.Server.ServerId (f x) = openapi.Server.ServerId x) →
  keeps shape (storeServer s f).
Proof.
  intros Hf. apply keeps_store. intros m sv Hs.
  apply (shape_putServer _ sv); [done|]. unfold Server.Id. cbn. apply Hf.
Qed.

Lemma keeps_shape_store_PowerStatus s v : keeps shape (store s (Server.set_PowerStatus v)).
Proof. apply keeps_store. intros m sv Hs. by apply (shape_putServer _ sv). Qed.

Lemma keeps_shape_nextId : keeps shape nextId.
Proof. by intros [[]]. Qed.

Lemma keeps_shape_go f : keeps shape (go f).
Proof. by intros [[]]. Qed.

Lemma keeps_shape_new v : keeps shape (new v).
Proof. by intros [[]]. Qed.

Ltac shape_leaf :=
  idtac;
  lazymatch goal with
  | |- keeps _ (storeServer _ _) => apply keeps_shape_storeServer; intros; reflexivity
  | |- keeps _ (store _ (Server.set_PowerStatus _)) => apply keeps_shape_store_PowerStatus
  | |- keeps _ nextId => apply keeps_shape_nextId
  | |- keeps _ (go _) => apply keeps_shape_go
  | |- keeps _ (new _) => apply keeps_shape_new
  end.

Lemma keeps_shape_storePort s port f : keeps shape (storePort s port f).
Proof. unfold storePort, loadPort. keeps_structure shape_leaf. Qed.

Lemma keeps_shape_updatePort s port : keeps shape (updatePort s port).
Proof. unfold updatePort, loadPort. keeps_structure shape_leaf. Qed.

Lemma keeps_shape_storePortChannel s portChannel f :
  keeps shape (storePortChannel s portChannel f).
Proof. unfold storePortChannel, loadPortChannel. keeps_structure shape_leaf. Qed.

Lemma keeps_shape_updatePortChannel s portChannel : keeps shape (updatePortChannel s portChannel).
Proof. unfold updatePortChannel, loadPortChannel. keeps_structure shape_leaf. Qed.

Ltac shape_ports_leaf :=
  idtac;
  lazymatch goal with
  | |- keeps _ (storePort _ _ _) => apply keeps_shape_storePort
  | |- keeps _ (updatePort _ _) => apply keeps_shape_updatePort
  | |- keeps _ (storePortChannel _ _ _) => apply keeps_shape_storePortChannel
  | |- keeps _ (updatePortChannel _ _) => apply keeps_shape_updatePortChannel
  | |- _ => shape_leaf
  end.

Lemma keeps_shape_rangeOSImages serverId s params images :
  keeps shape (rangeOSImages serverId s params images).
Proof.
  induction images as [|image images IH]; cbn [rangeOSImages]; [apply keeps_fail|].
  case_decide; [|done]. unfold startOSInstall. keeps_structure shape_leaf.
Qed.

Lemma keeps_shape_rangeNames channel names : keeps shape (rangeNames channel names).
Proof.
  induction names as [|name names IH]; cbn [rangeNames]; [apply keeps_ret|].
  keeps_structure ltac:(first [exact IH | shape_leaf]).
Qed.

Lemma keeps_shape_rangePrivateNetworkIds s port portId ids :
  keeps shape (rangePrivateNetworkIds s port portId ids).
Proof.
  induction ids as [|id ids IH]; cbn [rangePrivateNetworkIds]; [apply keeps_ret|].
  unfold getPrivateNetworkById.
  keeps_structure ltac:(first [exact IH | shape_ports_leaf]).
Qed.

Lemma keeps_shape_closure now f : keeps shape (closure now f).
Proof. destruct f; cbn [closure]; keeps_structure shape_leaf. Qed.

Ltac shape_operations_leaf :=
  idtac;
  lazymatch goal with
  | |- keeps _ (rangeOSImages _ _ _ _) => apply keeps_shape_rangeOSImages
  | |- keeps _ (rangeNames _ _) => apply keeps_shape_rangeNames
  | |- keeps _ (rangePrivateNetworkIds _ _ _ _) => apply keeps_shape_rangePrivateNetworkIds
  | |- keeps _ (closure _ _) => apply keeps_shape_closure
  | |- keeps _ (modify _) => apply keeps_modify; intros [[]]; reflexivity
  | |- _ => shape_ports_leaf
  end.

(** ** The servers and the catalogs stay *)

(** X1. No operation of the engine (the fourteen from [ListServers] to
    [ReadRAIDStatus]) and no background action adds, removes, reorders or
    renames a server, and none changes the catalogs of dedicated subnets and
    private networks: whatever the outcome (success, error or panic), the
    machine afterwards has the same server identifiers in the same order and
    the same catalogs. *)
Theorem servers_and_catalogs_stay :
  (∀ params, keeps shape (ListServers params)) ∧
  (∀ serverId, keeps shape (ReadServer serverId)) ∧
  (∀ serverId, keeps shape (ListOSImages serverId)) ∧
  (∀ serverId params, keeps shape (OSInstall serverId params)) ∧
  (∀ serverId portChannelId, keeps shape (ReadServerPortChannel serverId portChannelId)) ∧
  (∀ serverId portChannelId params,
     keeps shape (ServerConfigureBonding serverId portChannelId params)) ∧
  (∀ serverId portId, keeps shape (ReadServerPort serverId portId)) ∧
  (∀ serverId portId params, keeps shape (UpdateServerPort serverId portId params)) ∧
  (∀ serverId portId params, keeps shape (ServerAssignNetwork serverId portId params)) ∧
  (∀ serverId portId params, keeps shape (EnableServerPort serverId portId params)) ∧
  (∀ serverId portId params now,
     keeps shape (ReadServerTrafficByPort serverId portId params now)) ∧
  (∀ serverId params, keeps shape (ServerPowerControl serverId params)) ∧
  (∀ serverId, keeps shape (ReadServerPowerStatus serverId)) ∧
  (∀ serverId params, keeps shape (ReadRAIDStatus serverId params)) ∧
  (∀ now i, keeps shape (schedule now i)).
Proof.
  split_and!; intros.
  - unfold ListServers, engine_servers. keeps_structure ltac:(fail).
  - unfold ReadServer, getServerById. keeps_structure ltac:(fail).
  - unfold ListOSImages, getServerById. keeps_structure ltac:(fail).
  - unfold OSInstall, getServerById.
    keeps_structure shape_operations_leaf.
  - unfold ReadServerPortChannel, getServerById, getPortChannelById. keeps_structure ltac:(fail).
  - unfold ServerConfigureBonding, getServerById, getPortChannelById, loadPortChannel,
      switchBondingType.
    keeps_structure shape_operations_leaf.
  - unfold ReadServerPort, getServerById, getPortById. keeps_structure ltac:(fail).
  - unfold UpdateServerPort, getServerById, getPortById, loadPort.
    keeps_structure shape_ports_leaf.
  - unfold ServerAssignNetwork, getServerById, getPortById, loadPort, switchInternetType,
      switchMode, ifPrivateNetworkIds, getDedicatedSubnetById.
    keeps_structure shape_operations_leaf.
  - unfold EnableServerPort, getServerById, getPortById, loadPort.
    keeps_structure shape_ports_leaf.
  - unfold ReadServerTrafficByPort, getServerById. keeps_structure ltac:(fail).
  - unfold ServerPowerControl, getServerById, startServerPowerControl.
    keeps_structure shape_leaf.
  - unfold ReadServerPowerStatus, getServerById. keeps_structure ltac:(fail).
  - unfold ReadRAIDStatus, getServerById. keeps_structure ltac:(fail).
  - unfold schedule, startUpdateAction.
    keeps_structure shape_operations_leaf.
Qed.

(** ** Reads change nothing *)

(** X2. The read operations ([ListServers], [ReadServer], [ListOSImages],
    [ReadServerPortChannel], [ReadServerPort], [ReadServerTrafficByPort],
    [ReadServerPowerStatus]) leave the machine exactly as it was, whether they
    return a value or an error: no record, heap object or goroutine is
    changed or created. *)
Theorem reads_change_nothing :
  (∀ params, keeps (λ m, m) (ListServers params)) ∧
  (∀ serverId, keeps (λ m, m) (ReadServer serverId)) ∧
  (∀ serverId, keeps (λ m, m) (ListOSImages serverId)) ∧
  (∀ serverId portChannelId, keeps (λ m, m) (ReadServerPortChannel serverId portChannelId)) ∧
  (∀ serverId portId, keeps (λ m, m) (ReadServerPort serverId portId)) ∧
  (∀ serverId portId params now,
     keeps (λ m, m) (ReadServerTrafficByPort serverId portId params now)) ∧
  (∀ serverId, keeps (λ m, m) (ReadServerPowerStatus serverId)).
Proof.
  split_and!; intros.
  - unfold ListServers, engine_servers. keeps_structure ltac:(fail).
  - unfold ReadServer, getServerById. keeps_structure ltac:(fail).
  - unfold ListOSImages, getServerById. keeps_structure ltac:(fail).
  - unfold ReadServerPortChannel, getServerById, getPortChannelById. keeps_structure ltac:(fail).
  - unfold ReadServerPort, getServerById, getPortById. keeps_structure ltac:(fail).
  - unfold ReadServerTrafficByPort, getServerById. keeps_structure ltac:(fail).
  - unfold ReadServerPowerStatus, getServerById. keeps_structure ltac:(fail).
Qed.

(** ** The reach of the port operations *)

Lemma around_putServer s sv m : around s (putServer s sv m) = around s m.
Proof.
  destruct m as [[svs ds pn g] h gs]. unfold around, putServer, set_servers, servers. cbn.
  by rewrite take_insert_ge, drop_insert_lt by lia.
Qed.

Lemma keeps_around_storeServer s f : keeps (around s) (storeServer s f).
Proof. apply keeps_store. intros m sv _. apply around_putServer. Qed.

Lemma keeps_around_nextId s : keeps (around s) nextId.
Proof. by intros [[]]. Qed.

Ltac around_leaf :=
  idtac;
  lazymatch goal with
  | |- keeps _ (storeServer _ _) => apply keeps_around_storeServer
  | |- keeps _ nextId => apply keeps_around_nextId
  end.

Lemma keeps_around_storePort s port f : keeps (around s) (storePort s port f).
Proof. unfold storePort, loadPort. keeps_structure around_leaf. Qed.

Lemma keeps_around_updatePort s port : keeps (around s) (updatePort s port).
Proof. unfold updatePort, loadPort. keeps_structure around_leaf. Qed.

Lemma keeps_around_storePortChannel s portChannel f :
  keeps (around s) (storePortChannel s portChannel f).
Proof. unfold storePortChannel, loadPortChannel. keeps_structure around_leaf. Qed.

Lemma keeps_around_updatePortChannel s portChannel :
  keeps (around s) (updatePortChannel s portChannel).
Proof. unfold updatePortChannel, loadPortChannel. keeps_structure around_leaf. Qed.

Ltac around_ports_leaf :=
  idtac;
  lazymatch goal with
  | |- keeps _ (storePort _ _ _) => apply keeps_around_storePort
  | |- keeps _ (updatePort _ _) => apply keeps_around_updatePort
  | |- keeps _ (storePortChannel _ _ _) => apply keeps_around_storePortChannel
  | |- keeps _ (updatePortChannel _ _) => apply keeps_around_updatePortChannel
  | |- _ => around_leaf
  end.

Lemma keeps_around_rangeNames s channel names : keeps (around s) (rangeNames channel names).
Proof.
  induction names as [|name names IH]; cbn [rangeNames]; [apply keeps_ret|].
  keeps_structure ltac:(first [exact IH | around_leaf]).
Qed.

Lemma keeps_around_rangePrivateNetworkIds s port portId ids :
  keeps (around s) (rangePrivateNetworkIds s port portId ids).
Proof.
  induction ids as [|id ids IH]; cbn [rangePrivateNetworkIds]; [apply keeps_ret|].
  unfold getPrivateNetworkById.
  keeps_structure ltac:(first [exact IH | around_ports_leaf]).
Qed.

Ltac around_operations_leaf :=
  idtac;
  lazymatch goal with
  | |- keeps _ (rangeNames _ _) => apply keeps_around_rangeNames
  | |- keeps _ (rangePrivateNetworkIds _ _ _ _) => apply keeps_around_rangePrivateNetworkIds
  | |- _ => around_ports_leaf
  end.

Lemma getPortChannelById_missing m s sv portChannelId :
  servers m !! s = Some sv →
  findPortChannel portChannelId (openapi.Server.PortChannels (Server.Server sv)) = None →
  getPortChannelById s portChannelId m
  = (Failure (NewError ErrorTypeNotFound "port-channel" (ArgInt portChannelId) []), m).
Proof.
  intros Hs Hchan. unfold getPortChannelById.
  by rewrite (bind_Return _ _ _ _ _ (load_run _ _ _ Hs)), Hchan.
Qed.

(** *** The counter of the identifier allocator *)

Lemma keeps_counter_storeServer s f : keeps counter (storeServer s f).
Proof. apply keeps_store. intros [[]] sv _. reflexivity. Qed.

Ltac counter_leaf :=
  idtac;
  lazymatch goal with
  | |- keeps _ (storeServer _ _) => apply keeps_counter_storeServer
  end.

Lemma keeps_counter_storePort s port f : keeps counter (storePort s port f).
Proof. unfold storePort, loadPort. keeps_structure counter_leaf. Qed.

Lemma keeps_counter_updatePort s port : keeps counter (updatePort s port).
Proof. unfold updatePort, loadPort. keeps_structure counter_leaf. Qed.

Lemma keeps_counter_storePortChannel s portChannel f :
  keeps counter (storePortChannel s portChannel f).
Proof. unfold storePortChannel, loadPortChannel. keeps_structure counter_leaf. Qed.

Lemma keeps_counter_updatePortChannel s portChannel :
  keeps counter (updatePortChannel s portChannel).
Proof. unfold updatePortChannel, loadPortChannel. keeps_structure counter_leaf. Qed.

Ltac counter_ports_leaf :=
  idtac;
  lazymatch goal with
  | |- keeps _ (storePort _ _ _) => apply keeps_counter_storePort
  | |- keeps _ (updatePort _ _) => apply keeps_counter_updatePort
  | |- keeps _ (storePortChannel _ _ _) => apply keeps_counter_storePortChannel
  | |- keeps _ (updatePortChannel _ _) => apply keeps_counter_updatePortChannel
  | |- _ => counter_leaf
  end.

Lemma keeps_counter_rangePrivateNetworkIds s port portId ids :
  keeps counter (rangePrivateNetworkIds s port portId ids).
Proof.
  induction ids as [|id ids IH]; cbn [rangePrivateNetworkIds]; [apply keeps_ret|].
  unfold getPrivateNetworkById.
  keeps_structure ltac:(first [exact IH | counter_ports_leaf]).
Qed.

Ltac counter_operations_leaf :=
  idtac;
  lazymatch goal with
  | |- keeps _ (rangePrivateNetworkIds _ _ _ _) => apply keeps_counter_rangePrivateNetworkIds
  | |- _ => counter_ports_leaf
  end.

Lemma nextId_run m :
  nextId m
  = (Return (counter m + 1),
     Machine.set_engine (Engine.set_GeneratedID (counter m + 1) (Machine.engine m)) m).
Proof. reflexivity. Qed.

Lemma rangeNames_counter channel names : ∀ m,
  ∃ ports m1,
    rangeNames channel names m = (Return ports, m1) ∧
    length ports = length names ∧
    servers m1 = servers m ∧
    counter m1 = counter m + Z.of_nat (length names).
Proof.
  induction names as [|name names IH]; intros m; cbn [rangeNames].
  - exists [], m. split_and!; [done..|]. cbn. lia.
  - rewrite (bind_Return _ _ _ _ _ (nextId_run m)).
    set (m0 := Machine.set_engine _ m).
    destruct (IH m0) as (ports & m1 & Hrun & Hlen & Hservers & Hcounter).
    rewrite (bind_Return _ _ _ _ _ Hrun).
    eexists _, m1. split_and!; [done|by cbn; rewrite Hlen|..].
    + rewrite Hservers. by destruct m as [[]].
    + rewrite Hcounter. replace (counter m0) with (counter m + 1) by by destruct m as [[]].
      cbn [length]. lia.
Qed.

(** The [switch] of [ServerConfigureBonding] touches the counter of the
    allocator alone, and advances it by one for each port it returns. *)
Lemma switchBondingType_counter c portChannelId params m :
  let run := switchBondingType c portChannelId params m in
  servers run.2 = servers m ∧
  counter run.2 = counter m + Z.of_nat (length (default [] (value run.1))).
Proof.
  assert (Hzero : counter m = counter m + Z.of_nat 0) by lia.
  unfold switchBondingType. cbn zeta. repeat case_decide; try done.
  - assert (Hone : ∀ name,
      let run := (let* id := nextId in
                  ret [InterfacePort.literal true name (PortChannel.PortChannelId c) id]) m in
      servers run.2 = servers m ∧
      counter run.2 = counter m + Z.of_nat (length (default [] (value run.1)))).
    { intros name. destruct m as [[]]. cbn. unfold counter. cbn. split; [done|lia]. }
    destruct (ConfigureBondingParameter.PortNicknames params) as [[|name0 names]|];
      [done| |apply Hone].
    case_decide; apply Hone.
  - destruct (rangeNames_counter (PortChannel.PortChannelId c)
                (default [PortChannel.LinkSpeedType c ++ " 1"; PortChannel.LinkSpeedType c ++ " 2"]
                   (ConfigureBondingParameter.PortNicknames params)) m)
      as (ports & m1 & Hrun & Hlen & Hservers & Hcounter).
    rewrite Hrun. cbn. by rewrite Hlen.
Qed.

Lemma ServerConfigureBonding_counter m serverId portChannelId params s sv :
  findServer serverId (servers m) = Some (s, sv) →
  let run := ServerConfigureBonding serverId portChannelId params m in
  counter run.2
  = counter m + Z.of_nat (length (default [] (PortChannel.Ports <$> value run.1))).
Proof.
  intros Hfind.
  pose proof (findServer_Some _ _ _ _ Hfind) as [Hs _].
  assert (Hzero : counter m = counter m + Z.of_nat 0) by lia.
  destruct (findPortChannel portChannelId (openapi.Server.PortChannels (Server.Server sv)))
    as [[j c]|] eqn:Hchan; cbn zeta.
  - pose proof (findPortChannel_Some _ _ _ _ Hchan) as [Hj _].
    destruct (switchBondingType_counter c portChannelId params m) as [Hservers Hcounter].
    destruct (switchBondingType c portChannelId params m) as [[ports|e|r] m1] eqn:Hswitch;
      cbn in Hservers, Hcounter.
    + destruct (ServerConfigureBonding_commits _ _ _ _ _ _ _ _ _ _ Hfind Hchan Hswitch Hservers)
        as (m' & Hrun & _ & _).
      rewrite Hrun. cbn. rewrite length_fmap, <- Hcounter.
      assert (Hrest : counter (ServerConfigureBonding serverId portChannelId params m).2
                      = counter m1).
      { unfold ServerConfigureBonding. enter_server Hfind.
        rewrite (bind_Return _ _ _ _ _ (getPortChannelById_run _ _ _ _ _ _ Hs Hchan)).
        rewrite (bind_Return _ _ _ _ _ (loadPortChannel_run _ _ _ _ _ Hs Hj)).
        rewrite (bind_Return _ _ _ _ _ Hswitch).
        refine ((_ : keeps counter _) m1).
        unfold loadPortChannel. keeps_structure counter_ports_leaf. }
      by rewrite Hrun in Hrest.
    + rewrite (ServerConfigureBonding_fails _ _ _ _ _ _ _ _ _ _ Hfind Hchan Hswitch).
      exact Hcounter.
    + unfold ServerConfigureBonding. enter_server Hfind.
      rewrite (bind_Return _ _ _ _ _ (getPortChannelById_run _ _ _ _ _ _ Hs Hchan)).
      rewrite (bind_Return _ _ _ _ _ (loadPortChannel_run _ _ _ _ _ Hs Hj)).
      rewrite (bind_Panicked _ _ _ _ _ Hswitch). exact Hcounter.
  - unfold ServerConfigureBonding. enter_server Hfind.
    rewrite (bind_Failure _ _ _ _ _ (getPortChannelById_missing _ _ _ _ Hs Hchan)).
    exact Hzero.
Qed.

(** X3. On an existing server, the operations that configure ports
    ([ServerConfigureBonding], [UpdateServerPort], [ServerAssignNetwork],
    [EnableServerPort]) start no background action and, whatever the outcome,
    leave every server but the addressed one, both catalogs, the heap of
    power-status objects and the list of goroutines as they were.
    [UpdateServerPort], [ServerAssignNetwork] and [EnableServerPort] reach
    nothing but the addressed server: the counter of the identifier allocator
    is as before too. [ServerConfigureBonding] is the exception: it advances
    that counter, which all servers share, by one for each port of the port
    channel it returns, and leaves it as it was when it returns no port
    channel. *)
Theorem port_operations_reach_one_server m serverId s sv :
  findServer serverId (servers m) = Some (s, sv) →
  (∀ portChannelId params,
     let run := ServerConfigureBonding serverId portChannelId params m in
     around s run.2 = around s m ∧
     Engine.GeneratedID (Machine.engine run.2)
     = Engine.GeneratedID (Machine.engine m)
       + Z.of_nat (length (default [] (PortChannel.Ports <$> value run.1)))) ∧
  (∀ portId params, outside s (UpdateServerPort serverId portId params m).2 = outside s m) ∧
  (∀ portId params, outside s (ServerAssignNetwork serverId portId params m).2 = outside s m) ∧
  (∀ portId params, outside s (EnableServerPort serverId portId params m).2 = outside s m).
Proof.
  intros Hfind. split_and!; intros; [subst run; split|unfold outside; f_equal..].
  - unfold ServerConfigureBonding. enter_server Hfind.
    refine ((_ : keeps (around s) _) m).
    unfold getPortChannelById, loadPortChannel, switchBondingType.
    keeps_structure around_operations_leaf.
  - by apply (ServerConfigureBonding_counter m serverId portChannelId params s sv).
  - unfold UpdateServerPort. enter_server Hfind.
    refine ((_ : keeps (around s) _) m).
    unfold getPortById, loadPort. keeps_structure around_operations_leaf.
  - unfold UpdateServerPort. enter_server Hfind.
    refine ((_ : keeps counter _) m).
    unfold getPortById, loadPort. keeps_structure counter_operations_leaf.
  - unfold ServerAssignNetwork. enter_server Hfind.
    refine ((_ : keeps (around s) _) m).
    unfold getPortById, loadPort, switchInternetType, switchMode, ifPrivateNetworkIds,
      getDedicatedSubnetById.
    keeps_structure around_operations_leaf.
  - unfold ServerAssignNetwork. enter_server Hfind.
    refine ((_ : keeps counter _) m).
    unfold getPortById, loadPort, switchInternetType, switchMode, ifPrivateNetworkIds,
      getDedicatedSubnetById.
    keeps_structure counter_operations_leaf.
  - unfold EnableServerPort. enter_server Hfind.
    refine ((_ : keeps (around s) _) m).
    unfold getPortById, loadPort. keeps_structure around_operations_leaf.
  - unfold EnableServerPort. enter_server Hfind.
    refine ((_ : keeps counter _) m).
    unfold getPortById, loadPort. keeps_structure counter_operations_leaf.
Qed.

(** ** Unknown identifiers *)

(** X4. Every operation that takes a server identifier (all operations of
    the engine but [ListServers], [ReadRAIDStatus] included) returns the
    not-found error for the resource kind server, carrying that identifier,
    when no server of the engine has it, and leaves the machine as it was. *)
Theorem unknown_server_not_found m serverId :
  findServer serverId (servers m) = None →
  let notFound := NewError ErrorTypeNotFound "server" (ArgString serverId) [] in
  ReadServer serverId m = (Failure notFound, m) ∧
  ListOSImages serverId m = (Failure notFound, m) ∧
  (∀ params, OSInstall serverId params m = (Failure notFound, m)) ∧
  (∀ portChannelId, ReadServerPortChannel serverId portChannelId m = (Failure notFound, m)) ∧
  (∀ portChannelId params,
     ServerConfigureBonding serverId portChannelId params m = (Failure notFound, m)) ∧
  (∀ portId, ReadServerPort serverId portId m = (Failure notFound, m)) ∧
  (∀ portId params, UpdateServerPort serverId portId params m = (Failure notFound, m)) ∧
  (∀ portId params, ServerAssignNetwork serverId portId params m = (Failure notFound, m)) ∧
  (∀ portId params, EnableServerPort serverId portId params m = (Failure notFound, m)) ∧
  (∀ portId params now,
     ReadServerTrafficByPort serverId portId params now m = (Failure notFound, m)) ∧
  (∀ params, ServerPowerControl serverId params m = (Failure notFound, m)) ∧
  ReadServerPowerStatus serverId m = (Failure notFound, m) ∧
  (∀ params, ReadRAIDStatus serverId params m = (Failure notFound, m)).
Proof.
  intros Hfind notFound.
  split_and!; intros;
    match goal with |- ?op = _ => let h := get_head op in unfold h end;
    by rewrite (bind_Return _ _ _ _ _ (getServerById_run _ _)), Hfind.
Qed.

Lemma unknown_server_not_found_witness :
  findServer "srv-9" (servers seed) = None ∧
  ReadServer "srv-9" seed
    = (Failure (NewError ErrorTypeNotFound "server" (ArgString "srv-9") []), seed) ∧
  EnableServerPort "srv-9" 41 (EnableServerPortParameter.mk false) seed
    = (Failure (NewError ErrorTypeNotFound "server" (ArgString "srv-9") []), seed) ∧
  ReadRAIDStatus "srv-9" ReadRAIDStatusParams.mk seed
    = (Failure (NewError ErrorTypeNotFound "server" (ArgString "srv-9") []), seed).
Proof.
  assert (H : findServer "srv-9" (servers seed) = None) by (vm_compute; reflexivity).
  destruct (unknown_server_not_found seed "srv-9" H)
    as (Hread & _ & _ & _ & _ & _ & _ & _ & Henable & _ & _ & _ & Hraid).
  split_and!;
    [exact H|exact Hread|exact (Henable 41 (EnableServerPortParameter.mk false))
    |exact (Hraid ReadRAIDStatusParams.mk)].
Defined.

Lemma port_operations_reach_one_server_witness :
  findServer "srv-1" (servers seed) = Some (0%nat, seedServer1) ∧
  outside 0 (ServerAssignNetwork "srv-1" 41
               (AssignNetworkParameter.mk None None AssignNetworkParameterModeTrunk None) seed).2
    = outside 0 seed ∧
  Engine.GeneratedID (Machine.engine seed) = 100 ∧
  Engine.GeneratedID
    (Machine.engine
       (ServerConfigureBonding "srv-1" 7
          (ConfigureBondingParameter.mk BondingTypeSingle None) seed).2) = 102.
Proof.
  assert (H : findServer "srv-1" (servers seed) = Some (0%nat, seedServer1))
    by (vm_compute; reflexivity).
  destruct (port_operations_reach_one_server seed "srv-1" 0 seedServer1 H)
    as (Hbonding & _ & Hassign & _).
  split_and!; [exact H| |reflexivity|].
  - exact (Hassign 41 (AssignNetworkParameter.mk None None AssignNetworkParameterModeTrunk None)).
  - destruct (Hbonding 7 (ConfigureBondingParameter.mk BondingTypeSingle None)) as [_ Hcounter].
    rewrite Hcounter. vm_compute. reflexivity.
Defined.

(** X5. On an existing server that has no port with the given identifier,
    [ReadServerPort], [UpdateServerPort], [ServerAssignNetwork] and
    [EnableServerPort] return the error of the port lookup (not-found for the
    resource kind port, carrying the identifier) before any assignment: the
    machine is as it was. *)
Theorem unknown_port_not_found m serverId s sv portId :
  findServer serverId (servers m) = Some (s, sv) →
  findPort portId (openapi.Server.Ports (Server.Server sv)) = None →
  let notFound := NewError ErrorTypeNotFound "port" (ArgInt portId) [] in
  ReadServerPort serverId portId m = (Failure notFound, m) ∧
  (∀ params, UpdateServerPort serverId portId params m = (Failure notFound, m)) ∧
  (∀ params, ServerAssignNetwork serverId portId params m = (Failure notFound, m)) ∧
  (∀ params, EnableServerPort serverId portId params m = (Failure notFound, m)).
Proof.
  intros Hfind Hport notFound.
  pose proof (findServer_Some _ _ _ _ Hfind) as [Hs _].
  pose proof (getPortById_missing _ _ _ _ Hs Hport) as Hmissing.
  split_and!; intros.
  - unfold ReadServerPort. by enter_server Hfind.
  - unfold UpdateServerPort. enter_server Hfind.
    by rewrite (bind_Failure _ _ _ _ _ Hmissing).
  - unfold ServerAssignNetwork. enter_server Hfind.
    by rewrite (bind_Failure _ _ _ _ _ Hmissing).
  - unfold EnableServerPort. enter_server Hfind.
    by rewrite (bind_Failure _ _ _ _ _ Hmissing).
Qed.

Lemma unknown_port_not_found_witness :
  findServer "srv-1" (servers seed) = Some (0%nat, seedServer1) ∧
  findPort 42 (openapi.Server.Ports (Server.Server seedServer1)) = None ∧
  UpdateServerPort "srv-1" 42 (UpdateServerPortParameter.mk "wan") seed
    = (Failure (NewError ErrorTypeNotFound "port" (ArgInt 42) []), seed).
Proof.
  assert (H1 : findServer "srv-1" (servers seed) = Some (0%nat, seedServer1))
    by (vm_compute; reflexivity).
  assert (H2 : findPort 42 (openapi.Server.Ports (Server.Server seedServer1)) = None)
    by (vm_compute; reflexivity).
  destruct (unknown_port_not_found seed "srv-1" 0 seedServer1 42 H1 H2)
    as (_ & Hupdate & _).
  split_and!; [exact H1|exact H2|exact (Hupdate (UpdateServerPortParameter.mk "wan"))].
Defined.

(** X6. On an existing server that has no port channel with the given
    identifier, [ReadServerPortChannel] and [ServerConfigureBonding] return
    the error of the port-channel lookup (not-found for the resource kind
    port-channel, carrying the identifier); no port is created, no identifier
    is issued, the machine is as it was. *)
Theorem unknown_port_channel_not_found m serverId s sv portChannelId :
  findServer serverId (servers m) = Some (s, sv) →
  findPortChannel portChannelId (openapi.Server.PortChannels (Server.Server sv)) = None →
  let notFound := NewError ErrorTypeNotFound "port-channel" (ArgInt portChannelId) [] in
  ReadServerPortChannel serverId portChannelId m = (Failure notFound, m) ∧
  (∀ params, ServerConfigureBonding serverId portChannelId params m = (Failure notFound, m)).
Proof.
  intros Hfind Hchan notFound.
  pose proof (findServer_Some _ _ _ _ Hfind) as [Hs _].
  split_and!; intros.
  - unfold ReadServerPortChannel. enter_server Hfind.
    by apply (getPortChannelById_missing _ _ sv).
  - unfold ServerConfigureBonding. enter_server Hfind.
    by rewrite (bind_Failure _ _ _ _ _ (getPortChannelById_missing _ _ _ _ Hs Hchan)).
Qed.

Lemma unknown_port_channel_not_found_witness :
  findServer "srv-1" (servers seed) = Some (0%nat, seedServer1) ∧
  findPortChannel 8 (openapi.Server.PortChannels (Server.Server seedServer1)) = None ∧
  ServerConfigureBonding "srv-1" 8 (ConfigureBondingParameter.mk BondingTypeLacp None) seed
    = (Failure (NewError ErrorTypeNotFound "port-channel" (ArgInt 8) []), seed).
Proof.
  assert (H1 : findServer "srv-1" (servers seed) = Some (0%nat, seedServer1))
    by (vm_compute; reflexivity).
  assert (H2 : findPortChannel 8 (openapi.Server.PortChannels (Server.Server seedServer1))
               = None) by (vm_compute; reflexivity).
  destruct (unknown_port_channel_not_found seed "srv-1" 0 seedServer1 8 H1 H2)
    as (_ & Hconfigure).
  split_and!; [exact H1|exact H2|].
  exact (Hconfigure (ConfigureBondingParameter.mk BondingTypeLacp None)).
Defined.

(** ** Renaming, enabling and disabling a port *)

Lemma findPort_propagated portId ports j p p' :
  findPort portId ports = Some (j, p) →
  InterfacePort.PortId p' = portId →
  findPort portId (propagated p' (<[j := p']> ports)) = Some (j, p').
Proof.
  unfold findPort, propagated. intros Hfind Hid.
  apply list_find_Some in Hfind as (Hj & _ & Hbefore).
  apply list_find_Some. split_and!; [|done|].
  - rewrite list_lookup_fmap, list_lookup_insert_eq by by eapply lookup_lt_Some.
    cbn. by rewrite decide_True.
  - intros i y Hi Hlt. rewrite list_lookup_fmap, list_lookup_insert_ne in Hi by lia.
    destruct (ports !! i) as [x|] eqn:Hx; [|done]. cbn in Hi.
    pose proof (Hbefore _ _ Hx Hlt) as Hne.
    rewrite decide_False in Hi by congruence. by simplify_eq.
Qed.

Lemma propagated_other p' ports i q :
  ports !! i = Some q → InterfacePort.PortId q ≠ InterfacePort.PortId p' →
  propagated p' ports !! i = Some q.
Proof.
  intros Hi Hne. unfold propagated. rewrite list_lookup_fmap, Hi. cbn.
  by rewrite decide_False.
Qed.

Lemma updatePort_run m s sv j p :
  servers m !! s = Some sv →
  openapi.Server.Ports (Server.Server sv) !! j = Some p →
  updatePort s j m
  = (Return tt,
     putServer s
       (Server.set_Server
          (openapi.Server.set_Ports (propagated p (openapi.Server.Ports (Server.Server sv)))
             (Server.Server sv)) sv) m).
Proof.
  intros Hs Hj.
  assert (Hat : portAt m s j = Some p) by (unfold portAt; by rewrite Hs).
  unfold updatePort. rewrite (bind_Return _ _ _ _ _ (loadPort_run _ _ _ _ Hat)).
  by rewrite (storeServer_run _ _ _ _ Hs).
Qed.

(** What [UpdateServerPort] and [EnableServerPort] do after the lookups:
    one assignment to a field of the port, the propagation, the return. *)
Lemma assign_port_field_run m s sv j p f :
  servers m !! s = Some sv →
  openapi.Server.Ports (Server.Server sv) !! j = Some p →
  (storePort s j f >> updatePort s j >> loadPort s j) m
  = (Return (f p),
     putServer s
       (Server.set_Server
          (openapi.Server.set_Ports
             (propagated (f p) (<[j := f p]> (openapi.Server.Ports (Server.Server sv))))
             (Server.Server sv)) sv) m).
Proof.
  intros Hs Hj.
  assert (Hat : portAt m s j = Some p) by (unfold portAt; by rewrite Hs).
  rewrite (bind_Return _ _ _ _ _ (storePort_run _ _ _ _ _ Hat)).
  unfold putPort. rewrite Hs.
  set (sv1 := Server.set_Server _ sv).
  assert (Hs1 : servers (putServer s sv1 m) !! s = Some sv1) by by eapply lookup_putServer.
  assert (Hj1 : openapi.Server.Ports (Server.Server sv1) !! j = Some (f p)).
  { subst sv1. cbn. apply list_lookup_insert_eq. by eapply lookup_lt_Some. }
  rewrite (bind_Return _ _ _ _ _ (updatePort_run _ _ _ _ _ Hs1 Hj1)), putServer_putServer.
  erewrite loadPort_run; [by subst sv1|].
  unfold portAt. erewrite lookup_putServer by done. cbn.
  unfold propagated. rewrite list_lookup_fmap, list_lookup_insert_eq by by eapply lookup_lt_Some.
  cbn. by rewrite decide_True.
Qed.

Lemma assign_port_field_stored m serverId portId s sv j p f :
  findServer serverId (servers m) = Some (s, sv) →
  findPort portId (openapi.Server.Ports (Server.Server sv)) = Some (j, p) →
  InterfacePort.PortId (f p) = InterfacePort.PortId p →
  let sv' :=
    Server.set_Server
      (openapi.Server.set_Ports
         (propagated (f p) (<[j := f p]> (openapi.Server.Ports (Server.Server sv))))
         (Server.Server sv)) sv in
  let m' := putServer s sv' m in
  findServer serverId (servers m') = Some (s, sv') ∧
  findPort portId (openapi.Server.Ports (Server.Server sv')) = Some (j, f p) ∧
  ReadServerPort serverId portId m' = (Return j, m') ∧
  portAt m' s j = Some (f p) ∧
  length (serverPorts m' s) = length (openapi.Server.Ports (Server.Server sv)) ∧
  (∀ i q, openapi.Server.Ports (Server.Server sv) !! i = Some q →
          InterfacePort.PortId q ≠ portId → portAt m' s i = Some q).
Proof.
  intros Hfind Hport Hid sv' m'.
  pose proof (findServer_Some _ _ _ _ Hfind) as [Hs Hsid].
  pose proof (findPort_Some _ _ _ _ Hport) as [Hj Hpid].
  assert (Hfind' : findServer serverId (servers m') = Some (s, sv')).
  { apply (findServer_putServer _ _ _ sv); [done|]. by destruct sv as [[]]. }
  assert (Hs' : servers m' !! s = Some sv') by by eapply lookup_putServer.
  assert (Hport' : findPort portId (openapi.Server.Ports (Server.Server sv')) = Some (j, f p)).
  { subst sv'. cbn. apply (findPort_propagated _ _ _ p); [done|congruence]. }
  split_and!; [done|done| | | |].
  - unfold ReadServerPort. enter_server Hfind'. by eapply getPortById_run.
  - unfold portAt. rewrite Hs'. cbn. by apply findPort_Some in Hport' as [? _].
  - unfold serverPorts. rewrite Hs'. subst sv'. cbn.
    unfold propagated. by rewrite length_fmap, length_insert.
  - intros i q Hi Hne. unfold portAt. rewrite Hs'. subst sv'. cbn.
    apply propagated_other; [|congruence].
    rewrite list_lookup_insert_ne; [done|]. intros <-. congruence.
Qed.

(** X7. On an existing server and port, [UpdateServerPort] returns the port
    with the requested nickname and every other field as before, and stores
    it: a lookup of the same port identifier finds the same port again with
    the new nickname; the server has as many ports as before and its ports
    with another identifier are untouched. *)
Theorem UpdateServerPort_renames m serverId portId params s sv j p :
  findServer serverId (servers m) = Some (s, sv) →
  findPort portId (openapi.Server.Ports (Server.Server sv)) = Some (j, p) →
  let p' :=
    InterfacePort.mk (InterfacePort.Enabled p) (UpdateServerPortParameter.Nickname params)
      (InterfacePort.PortChannelId p) (InterfacePort.PortId p) (InterfacePort.Internet p)
      (InterfacePort.Mode p) (InterfacePort.PrivateNetworks p)
      (InterfacePort.GlobalBandwidthMbps p) (InterfacePort.LocalBandwidthMbps p) in
  ∃ m',
    UpdateServerPort serverId portId params m = (Return p', m') ∧
    InterfacePort.Nickname p' = UpdateServerPortParameter.Nickname params ∧
    ReadServerPort serverId portId m' = (Return j, m') ∧
    portAt m' s j = Some p' ∧
    InterfacePort.Nickname <$> portAt m' s j = Some (UpdateServerPortParameter.Nickname params) ∧
    length (serverPorts m' s) = length (openapi.Server.Ports (Server.Server sv)) ∧
    (∀ i q, openapi.Server.Ports (Server.Server sv) !! i = Some q →
            InterfacePort.PortId q ≠ portId → portAt m' s i = Some q).
Proof.
  intros Hfind Hport p'.
  pose proof (findServer_Some _ _ _ _ Hfind) as [Hs _].
  pose proof (findPort_Some _ _ _ _ Hport) as [Hj _].
  destruct (assign_port_field_stored m serverId portId s sv j p
              (InterfacePort.set_Nickname (UpdateServerPortParameter.Nickname params))
              Hfind Hport eq_refl) as (_ & _ & Hread & Hat & Hlen & Hother).
  eexists. split_and!; [|done|exact Hread|exact Hat|by rewrite Hat|exact Hlen|exact Hother].
  unfold UpdateServerPort. enter_server Hfind.
  rewrite (bind_Return _ _ _ _ _ (getPortById_run _ _ _ _ _ _ Hs Hport)).
  by rewrite (assign_port_field_run _ _ _ _ _ _ Hs Hj).
Qed.

Lemma UpdateServerPort_renames_witness :
  findServer "srv-1" (servers seed) = Some (0%nat, seedServer1) ∧
  findPort 41 (openapi.Server.Ports (Server.Server seedServer1)) = Some (0%nat, seedPort) ∧
  InterfacePort.Nickname seedPort ≠ "wan" ∧
  ∃ m' p',
    UpdateServerPort "srv-1" 41 (UpdateServerPortParameter.mk "wan") seed = (Return p', m') ∧
    InterfacePort.Nickname p' = "wan" ∧
    InterfacePort.Nickname <$> portAt m' 0 0 = Some "wan".
Proof.
  assert (H1 : findServer "srv-1" (servers seed) = Some (0%nat, seedServer1))
    by (vm_compute; reflexivity).
  assert (H2 : findPort 41 (openapi.Server.Ports (Server.Server seedServer1))
               = Some (0%nat, seedPort)) by (vm_compute; reflexivity).
  split_and!; [exact H1|exact H2|discriminate|].
  destruct (UpdateServerPort_renames seed "srv-1" 41 (UpdateServerPortParameter.mk "wan")
              0 seedServer1 0 seedPort H1 H2) as (m' & Hrun & Hname & _ & _ & Hat & _).
  eexists m', _. split_and!; [exact Hrun|exact Hname|exact Hat].
Defined.

(** X8. On an existing server and port, [EnableServerPort] returns the port
    with the requested enabled flag and every other field as before, and
    stores it, so that a lookup of the port identifier finds it again. A
    second call on the same port decides alone: the port then carries the
    flag of the second call, whatever the first one asked for. *)
Theorem EnableServerPort_sets_flag m serverId portId params s sv j p :
  findServer serverId (servers m) = Some (s, sv) →
  findPort portId (openapi.Server.Ports (Server.Server sv)) = Some (j, p) →
  let flagged (enable : bool) :=
    InterfacePort.mk enable (InterfacePort.Nickname p)
      (InterfacePort.PortChannelId p) (InterfacePort.PortId p) (InterfacePort.Internet p)
      (InterfacePort.Mode p) (InterfacePort.PrivateNetworks p)
      (InterfacePort.GlobalBandwidthMbps p) (InterfacePort.LocalBandwidthMbps p) in
  ∃ m',
    EnableServerPort serverId portId params m
      = (Return (flagged (EnableServerPortParameter.Enable params)), m') ∧
    ReadServerPort serverId portId m' = (Return j, m') ∧
    portAt m' s j = Some (flagged (EnableServerPortParameter.Enable params)) ∧
    InterfacePort.Enabled <$> portAt m' s j = Some (EnableServerPortParameter.Enable params) ∧
    ∀ params', ∃ m'',
      EnableServerPort serverId portId params' m'
        = (Return (flagged (EnableServerPortParameter.Enable params')), m'') ∧
      portAt m'' s j = Some (flagged (EnableServerPortParameter.Enable params')) ∧
      InterfacePort.Enabled <$> portAt m'' s j
        = Some (EnableServerPortParameter.Enable params').
Proof.
  intros Hfind Hport flagged.
  pose proof (findServer_Some _ _ _ _ Hfind) as [Hs _].
  pose proof (findPort_Some _ _ _ _ Hport) as [Hj _].
  destruct (assign_port_field_stored m serverId portId s sv j p
              (InterfacePort.set_Enabled (EnableServerPortParameter.Enable params))
              Hfind Hport eq_refl) as (Hfind' & Hport' & Hread & Hat & _).
  eexists. split_and!; [|exact Hread|exact Hat|by rewrite Hat|].
  - unfold EnableServerPort. enter_server Hfind.
    rewrite (bind_Return _ _ _ _ _ (getPortById_run _ _ _ _ _ _ Hs Hport)).
    by rewrite (assign_port_field_run _ _ _ _ _ _ Hs Hj).
  - intros params'.
    pose proof (findServer_Some _ _ _ _ Hfind') as [Hs' _].
    pose proof (findPort_Some _ _ _ _ Hport') as [Hj' _].
    destruct (assign_port_field_stored _ serverId portId s _ j _
                (InterfacePort.set_Enabled (EnableServerPortParameter.Enable params'))
                Hfind' Hport' eq_refl) as (_ & _ & _ & Hat' & _).
    eexists. split_and!.
    + unfold EnableServerPort. enter_server Hfind'.
      rewrite (bind_Return _ _ _ _ _ (getPortById_run _ _ _ _ _ _ Hs' Hport')).
      by rewrite (assign_port_field_run _ _ _ _ _ _ Hs' Hj').
    + exact Hat'.
    + by rewrite Hat'.
Qed.

Lemma EnableServerPort_sets_flag_witness :
  findServer "srv-1" (servers seed) = Some (0%nat, seedServer1) ∧
  findPort 41 (openapi.Server.Ports (Server.Server seedServer1)) = Some (0%nat, seedPort) ∧
  InterfacePort.Enabled seedPort = true ∧
  ∃ m' p',
    EnableServerPort "srv-1" 41 (EnableServerPortParameter.mk false) seed = (Return p', m') ∧
    InterfacePort.Enabled p' = false ∧
    InterfacePort.Enabled <$> portAt m' 0 0 = Some false ∧
    ∃ m'',
      (EnableServerPort "srv-1" 41 (EnableServerPortParameter.mk true) m').2 = m'' ∧
      InterfacePort.Enabled <$> portAt m'' 0 0 = Some true.
Proof.
  assert (H1 : findServer "srv-1" (servers seed) = Some (0%nat, seedServer1))
    by (vm_compute; reflexivity).
  assert (H2 : findPort 41 (openapi.Server.Ports (Server.Server seedServer1))
               = Some (0%nat, seedPort)) by (vm_compute; reflexivity).
  split_and!; [exact H1|exact H2|reflexivity|].
  destruct (EnableServerPort_sets_flag seed "srv-1" 41 (EnableServerPortParameter.mk false)
              0 seedServer1 0 seedPort H1 H2) as (m' & Hrun & _ & _ & Hat & Hagain).
  destruct (Hagain (EnableServerPortParameter.mk true)) as (m'' & Hrun' & _ & Hat').
  eexists m', _. split_and!; [exact Hrun|reflexivity|exact Hat|].
  exists m''. split; [by rewrite Hrun'|exact Hat'].
Defined.

(** ** Listing and reading servers *)

Lemma ReadServer_inv serverId m server m' :
  ReadServer serverId m = (Return server, m') →
  ∃ s sv, findServer serverId (servers m) = Some (s, sv) ∧ server = Server.Server sv ∧ m' = m.
Proof.
  intros Hrun. destruct (findServer serverId (servers m)) as [[s sv]|] eqn:Hfind.
  - rewrite (ReadServer_run _ _ _ _ Hfind) in Hrun. exists s, sv. by simplify_eq.
  - unfold ReadServer in Hrun.
    by rewrite (bind_Return _ _ _ _ _ (getServerById_run _ _)), Hfind in Hrun.
Qed.

(** X9. [ListServers] always succeeds; its count is the number of servers it
    returns, one per server of the engine. Every record [ReadServer] returns
    is in the list, and for every listed record [ReadServer] of its
    identifier succeeds with a record of that identifier. *)
Theorem ListServers_lists_every_server m params :
  ∃ result,
    ListServers params m = (Return result, m) ∧
    PaginateMeta.Count (Servers.Meta result) = Z.of_nat (length (Servers.Servers result)) ∧
    length (Servers.Servers result) = length (servers m) ∧
    (∀ serverId server m',
       ReadServer serverId m = (Return server, m') → server ∈ Servers.Servers result) ∧
    (∀ server, server ∈ Servers.Servers result →
       ∃ server', ReadServer (openapi.Server.ServerId server) m = (Return server', m) ∧
                  openapi.Server.ServerId server' = openapi.Server.ServerId server).
Proof.
  exists (Servers.mk (PaginateMeta.mk (Z.of_nat (length (servers m))))
            (Server.Server <$> servers m)).
  split; [by unfold ListServers, engine_servers, bind, get, ret|].
  cbn [Servers.Meta Servers.Servers PaginateMeta.Count]. split_and!.
  - by rewrite length_fmap.
  - by rewrite length_fmap.
  - intros serverId server m' (s & sv & Hfind & -> & _)%ReadServer_inv.
    apply findServer_Some in Hfind as [Hs _].
    apply list_elem_of_fmap. exists sv. split; [done|]. by eapply list_elem_of_lookup_2.
  - intros server (sv & -> & Hin)%list_elem_of_fmap.
    destruct (list_find_elem_of (λ x, Server.Id x = Server.Id sv) (servers m) sv Hin eq_refl)
      as [[s' sv'] Hfind].
    exists (Server.Server sv'). split.
    + by apply (ReadServer_run _ _ s').
    + by apply findServer_Some in Hfind as [_ ?].
Qed.

Lemma ListServers_lists_every_server_witness :
  ∃ result,
    ListServers ListServersParams.mk seed = (Return result, seed) ∧
    PaginateMeta.Count (Servers.Meta result) = 2 ∧
    Server.Server seedServer1 ∈ Servers.Servers result.
Proof.
  destruct (ListServers_lists_every_server seed ListServersParams.mk)
    as (result & Hrun & Hcount & Hlen & Hread & _).
  exists result. split_and!; [exact Hrun| |].
  - rewrite Hcount, Hlen. reflexivity.
  - apply (Hread "srv-1" (Server.Server seedServer1) seed). vm_compute. reflexivity.
Defined.

(** ** Installing a listed image *)

Lemma rangeOSImages_missing serverId s params images m :
  OsInstallParameter.OsImageId params ∉ OsImage.OsImageId <$> images →
  rangeOSImages serverId s params images m
  = (Failure (NewError ErrorTypeNotFound "os-image"
                (ArgString (OsInstallParameter.OsImageId params))
                [ArgString "server[%s]"; ArgString serverId]), m).
Proof.
  induction images as [|image images IH]; intros Hnot; cbn [rangeOSImages]; [done|].
  rewrite fmap_cons, not_elem_of_cons in Hnot. destruct Hnot as [Hne Hnot].
  rewrite decide_False by congruence. by apply IH.
Qed.

Lemma OSInstall_unlocked m serverId params s sv :
  findServer serverId (servers m) = Some (s, sv) →
  openapi.Server.LockStatus (Server.Server sv) = None →
  OSInstall serverId params m = rangeOSImages serverId s params (Server.OSImages sv) m.
Proof.
  intros Hfind Hlock. pose proof (findServer_Some _ _ _ _ Hfind) as [Hs _].
  unfold OSInstall. enter_server Hfind.
  by rewrite (bind_Return _ _ _ _ _ (load_run _ _ _ Hs)), Hlock.
Qed.

(** X10. On a server without lock-status, [OSInstall] accepts exactly the
    images [ListOSImages] lists for it: with the identifier of a listed image
    it returns success and starts the background action; with any other
    identifier it returns the not-found error for the resource kind os-image,
    carrying the identifier, and changes nothing. *)
Theorem OSInstall_accepts_listed_images m serverId params s sv :
  findServer serverId (servers m) = Some (s, sv) →
  openapi.Server.LockStatus (Server.Server sv) = None →
  ∃ images,
    ListOSImages serverId m = (Return images, m) ∧
    (OsInstallParameter.OsImageId params ∈ OsImage.OsImageId <$> images →
       OSInstall serverId params m
       = (Return tt, Machine.set_goroutines (Machine.goroutines m ++ [OSInstallStart s]) m)) ∧
    (OsInstallParameter.OsImageId params ∉ OsImage.OsImageId <$> images →
       OSInstall serverId params m
       = (Failure (NewError ErrorTypeNotFound "os-image"
                     (ArgString (OsInstallParameter.OsImageId params))
                     [ArgString "server[%s]"; ArgString serverId]), m)).
Proof.
  intros Hfind Hlock. pose proof (findServer_Some _ _ _ _ Hfind) as [Hs _].
  exists (Server.OSImages sv). split_and!.
  - unfold ListOSImages. enter_server Hfind.
    by rewrite (bind_Return _ _ _ _ _ (load_run _ _ _ Hs)).
  - intros (image & Hid & Hin)%list_elem_of_fmap.
    rewrite (OSInstall_unlocked _ _ _ _ _ Hfind Hlock).
    apply rangeOSImages_found. by exists image.
  - intros Hnot. rewrite (OSInstall_unlocked _ _ _ _ _ Hfind Hlock).
    by apply rangeOSImages_missing.
Qed.

Lemma OSInstall_accepts_listed_images_witness :
  findServer "srv-1" (servers seed) = Some (0%nat, seedServer1) ∧
  openapi.Server.LockStatus (Server.Server seedServer1) = None ∧
  OSInstall "srv-1" (OsInstallParameter.mk "debian") seed
    = (Failure (NewError ErrorTypeNotFound "os-image" (ArgString "debian")
                  [ArgString "server[%s]"; ArgString "srv-1"]), seed).
Proof.
  assert (H1 : findServer "srv-1" (servers seed) = Some (0%nat, seedServer1))
    by (vm_compute; reflexivity).
  assert (H2 : openapi.Server.LockStatus (Server.Server seedServer1) = None) by reflexivity.
  split_and!; [exact H1|exact H2|].
  destruct (OSInstall_accepts_listed_images seed "srv-1" (OsInstallParameter.mk "debian")
              0 seedServer1 H1 H2) as (images & Hlist & _ & Hmissing).
  apply Hmissing.
  assert (Himages : images = Server.OSImages seedServer1).
  { assert (Hlist' : ListOSImages "srv-1" seed = (Return (Server.OSImages seedServer1), seed))
      by (vm_compute; reflexivity).
    rewrite Hlist' in Hlist. by inversion Hlist. }
  rewrite Himages. cbn. rewrite elem_of_cons, elem_of_nil. intros [H|[]]. discriminate H.
Defined.

(** ** The traffic graph *)

(** X11. On an existing server [ReadServerTrafficByPort] never looks the port
    up: for every port identifier, also one no port of the server has (where
    [ReadServerPort] fails), it succeeds with two points for receive and two
    for transmit, of values 1 and 2, the second point of each series stamped
    one minute before the reading of the clock; the machine is unchanged. *)
Theorem ReadServerTrafficByPort_ignores_port m serverId s sv :
  findServer serverId (servers m) = Some (s, sv) →
  ∀ portId params now,
    ∃ graph,
      ReadServerTrafficByPort serverId portId params now m = (Return graph, m) ∧
      TrafficGraphData.Value <$> TrafficGraph.Receive graph = [1; 2] ∧
      TrafficGraphData.Value <$> TrafficGraph.Transmit graph = [1; 2] ∧
      TrafficGraphData.Timestamp <$> TrafficGraph.Receive graph
        = [now 0%nat; now 1%nat - Minute] ∧
      TrafficGraphData.Timestamp <$> TrafficGraph.Transmit graph
        = [now 2%nat; now 3%nat - Minute] ∧
      (findPort portId (openapi.Server.Ports (Server.Server sv)) = None →
       ∃ e, ReadServerPort serverId portId m = (Failure e, m)).
Proof.
  intros Hfind portId params now.
  pose proof (findServer_Some _ _ _ _ Hfind) as [Hs _].
  eexists. split_and!.
  - unfold ReadServerTrafficByPort. by enter_server Hfind.
  - done.
  - done.
  - reflexivity.
  - reflexivity.
  - intros Hport. eexists. unfold ReadServerPort. enter_server Hfind.
    by apply (getPortById_missing _ _ sv).
Qed.

Lemma ReadServerTrafficByPort_ignores_port_witness :
  findServer "srv-1" (servers seed) = Some (0%nat, seedServer1) ∧
  ∃ graph,
    ReadServerTrafficByPort "srv-1" 42 ReadServerTrafficByPortParams.mk (λ _, 0) seed
      = (Return graph, seed) ∧
    TrafficGraphData.Value <$> TrafficGraph.Receive graph = [1; 2].
Proof.
  assert (H1 : findServer "srv-1" (servers seed) = Some (0%nat, seedServer1))
    by (vm_compute; reflexivity).
  split; [exact H1|].
  destruct (ReadServerTrafficByPort_ignores_port seed "srv-1" 0 seedServer1 H1
              42 ReadServerTrafficByPortParams.mk (λ _, 0))
    as (graph & Hrun & Hvalues & _).
  exists graph. split; [exact Hrun|exact Hvalues].
Defined.

(** ** Two actions on one server *)

Lemma conflict_on_locked m serverId s sv :
  findServer serverId (servers m) = Some (s, sv) →
  is_Some (openapi.Server.LockStatus (Server.Server sv)) →
  (∀ params, OSInstall serverId params m
             = (Failure (NewError ErrorTypeConflict "server" (ArgString serverId) []), m)) ∧
  (∀ params, ServerPowerControl serverId params m
             = (Failure (NewError ErrorTypeConflict "server" (ArgString serverId) []), m)).
Proof.
  intros Hfind [status Hlock]. pose proof (findServer_Some _ _ _ _ Hfind) as [Hs _].
  split; intros params.
  - unfold OSInstall. enter_server Hfind.
    by rewrite (bind_Return _ _ _ _ _ (load_run _ _ _ Hs)), Hlock.
  - unfold ServerPowerControl. enter_server Hfind.
    by rewrite (bind_Return _ _ _ _ _ (load_run _ _ _ Hs)), Hlock.
Qed.

Lemma ServerPowerControl_unlocked m serverId params s sv :
  findServer serverId (servers m) = Some (s, sv) →
  openapi.Server.LockStatus (Server.Server sv) = None →
  (ServerPowerControl serverId params m).1 = Return tt ∧
  servers (ServerPowerControl serverId params m).2 = servers m.
Proof.
  intros Hfind Hlock. pose proof (findServer_Some _ _ _ _ Hfind) as [Hs _].
  unfold ServerPowerControl. enter_server Hfind.
  rewrite (bind_Return _ _ _ _ _ (load_run _ _ _ Hs)), Hlock.
  unfold startServerPowerControl. by repeat case_decide.
Qed.

(** X12. The lock-status guards a server only once the background action
    has set it. Between an accepted [OSInstall] and the run of its goroutine
    the server is still unlocked: a second [OSInstall] is accepted too and
    starts a second action, and [ServerPowerControl] is accepted. After the
    goroutine has run, both operations return the Conflict error and change
    nothing. *)
Theorem OSInstall_guards_after_background m serverId params s sv now :
  findServer serverId (servers m) = Some (s, sv) →
  openapi.Server.LockStatus (Server.Server sv) = None →
  OsInstallParameter.OsImageId params ∈ OsImage.OsImageId <$> Server.OSImages sv →
  let waiting := Machine.goroutines m in
  let m1 := Machine.set_goroutines (waiting ++ [OSInstallStart s]) m in
  let m2 := (schedule now (length waiting) m1).2 in
  OSInstall serverId params m = (Return tt, m1) ∧
  OSInstall serverId params m1
    = (Return tt, Machine.set_goroutines (waiting ++ [OSInstallStart s; OSInstallStart s]) m) ∧
  (∀ operation, (ServerPowerControl serverId operation m1).1 = Return tt) ∧
  (∀ params', OSInstall serverId params' m2
              = (Failure (NewError ErrorTypeConflict "server" (ArgString serverId) []), m2)) ∧
  (∀ operation, ServerPowerControl serverId operation m2
              = (Failure (NewError ErrorTypeConflict "server" (ArgString serverId) []), m2)).
Proof.
  intros Hfind Hlock (image & Hid & Hin)%list_elem_of_fmap waiting m1 m2.
  pose proof (findServer_Some _ _ _ _ Hfind) as [Hs Hsid].
  assert (Himage : ∃ image, image ∈ Server.OSImages sv ∧
                            OsImage.OsImageId image = OsInstallParameter.OsImageId params)
    by by exists image.
  assert (Hfind1 : findServer serverId (servers m1) = Some (s, sv)) by done.
  assert (Hm2 : ∃ sv2, findServer serverId (servers m2) = Some (s, sv2) ∧
                       is_Some (openapi.Server.LockStatus (Server.Server sv2))).
  { subst m2 m1 waiting. rewrite schedule_last. cbn [closure].
    rewrite (bind_Return _ _ _ _ _ (storeServer_run _ _ _ _ Hs)).
    exists (Server.set_Server
              (openapi.Server.set_LockStatus (Some ServerLockStatusOsInstall)
                 (Server.Server sv)) sv).
    split; [|by eexists].
    apply (findServer_putServer _ m _ sv); [done|]. by destruct sv as [[]]. }
  destruct Hm2 as (sv2 & Hfind2 & Hlock2).
  split_and!.
  - rewrite (OSInstall_unlocked _ _ _ _ _ Hfind Hlock). by apply rangeOSImages_found.
  - rewrite (OSInstall_unlocked _ _ _ _ _ Hfind1 Hlock).
    rewrite rangeOSImages_found by done. subst m1. destruct m. cbn.
    by rewrite <- app_assoc.
  - intros operation. by apply (ServerPowerControl_unlocked _ _ _ s sv).
  - apply (conflict_on_locked _ _ _ _ Hfind2 Hlock2).
  - apply (conflict_on_locked _ _ _ _ Hfind2 Hlock2).
Qed.

Lemma OSInstall_guards_after_background_witness :
  findServer "srv-1" (servers seed) = Some (0%nat, seedServer1) ∧
  openapi.Server.LockStatus (Server.Server seedServer1) = None ∧
  "ubuntu" ∈ OsImage.OsImageId <$> Server.OSImages seedServer1 ∧
  OSInstall "srv-1" (OsInstallParameter.mk "ubuntu")
    (Machine.set_goroutines [OSInstallStart 0] seed)
    = (Return tt, Machine.set_goroutines [OSInstallStart 0; OSInstallStart 0] seed).
Proof.
  assert (H1 : findServer "srv-1" (servers seed) = Some (0%nat, seedServer1))
    by (vm_compute; reflexivity).
  assert (H2 : openapi.Server.LockStatus (Server.Server seedServer1) = None) by reflexivity.
  assert (H3 : "ubuntu" ∈ OsImage.OsImageId <$> Server.OSImages seedServer1)
    by apply list_elem_of_here.
  split_and!; [exact H1|exact H2|exact H3|].
  destruct (OSInstall_guards_after_background seed "srv-1" (OsInstallParameter.mk "ubuntu")
              0 seedServer1 5 H1 H2 H3) as (_ & Hsecond & _).
  exact Hsecond.
Defined.

(** ** The power status a caller holds *)

(** X13. The background action of [ServerPowerControl] gives the server a new
    power-status object and never writes to the old one: a pointer handed out
    by an earlier [ReadServerPowerStatus] still shows the status of that
    time, while a new read returns another pointer, with the new status. *)
Theorem power_update_allocates m serverId s sv a v now powerStates cachedPowerStatus :
  findServer serverId (servers m) = Some (s, sv) →
  Server.PowerStatus sv = Some a →
  Machine.heap m !! a = Some v →
  let m' := (closure now (PowerControlUpdate s powerStates cachedPowerStatus) m).2 in
  ReadServerPowerStatus serverId m = (Return (Some a), m) ∧
  deref (Some a) m' = (Return v, m') ∧
  ∃ a',
    ReadServerPowerStatus serverId m' = (Return (Some a'), m') ∧
    a' ≠ a ∧
    deref (Some a') m' = (Return (ServerPowerStatus.mk powerStates), m').
Proof.
  intros Hfind Ha Hv m'.
  pose proof (findServer_Some _ _ _ _ Hfind) as [Hs Hsid].
  pose proof (lookup_lt_Some _ _ _ Hv) as Hlt.
  set (mh := Machine.set_heap (Machine.heap m ++ [ServerPowerStatus.mk powerStates]) m).
  set (sv' := Server.set_Server
                (openapi.Server.set_CachedPowerStatus
                   (Some (CachedPowerStatus.mk cachedPowerStatus now))
                   (Server.Server (Server.set_PowerStatus (Some (length (Machine.heap m))) sv)))
                (Server.set_PowerStatus (Some (length (Machine.heap m))) sv)).
  assert (Hm' : m' = putServer s sv' mh).
  { subst m'. cbn [closure]. unfold new. unfold bind at 1. fold mh.
    assert (Hs' : servers mh !! s = Some sv) by done.
    rewrite (bind_Return _ _ _ _ _ (store_run _ _ _ _ Hs')).
    rewrite (storeServer_run _ (Server.set_PowerStatus (Some (length (Machine.heap m))) sv))
      by by eapply lookup_putServer.
    by rewrite putServer_putServer. }
  assert (Hheap : Machine.heap m' = (Machine.heap m ++ [ServerPowerStatus.mk powerStates])%list).
  { rewrite Hm'. by destruct m as [[]]. }
  assert (Hfind' : findServer serverId (servers m') = Some (s, sv')).
  { rewrite Hm'. apply (findServer_putServer _ mh _ sv); [done|]. by destruct sv as [[]]. }
  split_and!.
  - rewrite (ReadServerPowerStatus_run _ _ _ _ Hfind). by rewrite Ha.
  - unfold deref. cbn [mbind option_bind]. rewrite Hheap, lookup_app_l by done.
    unfold addr in *. by rewrite Hv.
  - exists (length (Machine.heap m)). split_and!.
    + by rewrite (ReadServerPowerStatus_run _ _ _ _ Hfind').
    + lia.
    + by eapply deref_new_heap.
Qed.

Lemma power_update_allocates_witness :
  findServer "srv-1" (servers seed) = Some (0%nat, seedServer1) ∧
  Server.PowerStatus seedServer1 = Some 0%nat ∧
  Machine.heap seed !! 0%nat = Some (ServerPowerStatus.mk ServerPowerStatusStatusOn) ∧
  let m' := (closure 5 (PowerControlUpdate 0 ServerPowerStatusStatusOff
                          CachedPowerStatusStatusOff) seed).2 in
  deref (Some 0%nat) m' = (Return (ServerPowerStatus.mk ServerPowerStatusStatusOn), m').
Proof.
  assert (H1 : findServer "srv-1" (servers seed) = Some (0%nat, seedServer1))
    by (vm_compute; reflexivity).
  split_and!; [exact H1|reflexivity|reflexivity|].
  destruct (power_update_allocates seed "srv-1" 0 seedServer1 0%nat
              (ServerPowerStatus.mk ServerPowerStatusStatusOn) 5
              ServerPowerStatusStatusOff CachedPowerStatusStatusOff H1 eq_refl eq_refl)
    as (_ & Hold & _).
  exact Hold.
Defined.

(** ** Network assignment: requests that resolve and requests that do not *)

Lemma switchInternetType_run m s j p q portId params :
  portAt m s j = Some p →
  internetResolves params m →
  ∃ internet q',
    switchInternetType s j portId params (putPort s j q m)
      = (Return internet, putPort s j q' m) ∧
    InterfacePort.PrivateNetworks q' = InterfacePort.PrivateNetworks q ∧
    InterfacePort.LocalBandwidthMbps q' = InterfacePort.LocalBandwidthMbps q.
Proof.
  intros Hat. unfold internetResolves, switchInternetType.
  destruct (AssignNetworkParameter.InternetType params) as [internetType|].
  - intros [->|[-> (id & Hid & [subnet Hsubnet])]].
    + rewrite decide_True by done.
      rewrite (bind_Return _ _ _ _ _ (storePort_putPort _ _ _ _ _ _ Hat)).
      by eexists _, _.
    + rewrite decide_False by done. rewrite decide_True by done. rewrite Hid.
      rewrite (bind_Return _ _ _ _ _ (getDedicatedSubnetById_putPort _ _ _ _ _)), Hsubnet.
      rewrite (bind_Return _ _ _ _ _ (storePort_putPort _ _ _ _ _ _ Hat)).
      by eexists _, _.
  - intros _. by eexists _, _.
Qed.

Lemma rangePrivateNetworkIds_run m s j p portId ids : ∀ q,
  portAt m s j = Some p →
  Forall (λ id, is_Some (findPrivateNetwork id m)) ids →
  rangePrivateNetworkIds s j portId ids (putPort s j q m)
  = (Return tt,
     putPort s j
       (InterfacePort.set_PrivateNetworks
          (InterfacePort.PrivateNetworks q ++ omap (attachment m) ids) q) m).
Proof.
  induction ids as [|id ids IH]; intros q Hat Hknown; cbn [rangePrivateNetworkIds].
  - cbn. by rewrite set_PrivateNetworks_nil.
  - apply Forall_cons_iff in Hknown as [[pn Hpn] Hknown].
    rewrite (bind_Return _ _ _ _ _ (getPrivateNetworkById_putPort _ _ _ _ _)), Hpn.
    rewrite (bind_Return _ _ _ _ _ (storePort_putPort _ _ _ _ _ _ Hat)).
    rewrite IH by done. rewrite set_PrivateNetworks_app.
    cbn [omap list_omap]. unfold attachment at 2. by rewrite Hpn.
Qed.

Lemma rangePrivateNetworkIds_stops m s j p portId known id rest : ∀ q,
  portAt m s j = Some p →
  Forall (λ id, is_Some (findPrivateNetwork id m)) known →
  findPrivateNetwork id m = None →
  ∃ q',
    rangePrivateNetworkIds s j portId (known ++ id :: rest) (putPort s j q m)
    = (Failure (NewError ErrorTypeInvalidRequest "port" (ArgInt portId)
                  [ArgString "invalid private network id: %s"; ArgString id]),
       putPort s j q' m) ∧
    InterfacePort.LocalBandwidthMbps q' = InterfacePort.LocalBandwidthMbps q.
Proof.
  induction known as [|id0 known IH]; intros q Hat Hknown Hid; cbn [rangePrivateNetworkIds app].
  - rewrite (bind_Return _ _ _ _ _ (getPrivateNetworkById_putPort _ _ _ _ _)), Hid.
    by exists q.
  - apply Forall_cons_iff in Hknown as [[pn Hpn] Hknown].
    rewrite (bind_Return _ _ _ _ _ (getPrivateNetworkById_putPort _ _ _ _ _)), Hpn.
    rewrite (bind_Return _ _ _ _ _ (storePort_putPort _ _ _ _ _ _ Hat)).
    destruct (IH (InterfacePort.set_PrivateNetworks
                    (InterfacePort.PrivateNetworks q ++
                       [AttachedPrivateNetwork.mk
                          (Service.Nickname (PrivateNetwork.Service pn))
                          (PrivateNetwork.PrivateNetworkId pn)]) q) Hat Hknown Hid)
      as (q' & Hrun & Hlocal).
    exists q'. split; [exact Hrun|]. by rewrite Hlocal.
Qed.

Lemma length_omap_attachment m ids :
  Forall (λ id, is_Some (findPrivateNetwork id m)) ids →
  length (omap (attachment m) ids) = length ids.
Proof.
  induction 1 as [|id ids [pn Hpn] _ IH]; [done|].
  cbn. unfold attachment at 1. rewrite Hpn. cbn. by rewrite IH.
Qed.

(** X14. When the internet part of the request resolves and one of the
    private-network identifiers is not in the catalog, [ServerAssignNetwork]
    on an existing server and port returns the invalid-request error for the
    port, carrying the first identifier of the list that the catalog does not
    have. *)
Theorem ServerAssignNetwork_unknown_private_network
    m serverId portId params s sv j p (known : list string) (id : string) (rest : list string) :
  findServer serverId (servers m) = Some (s, sv) →
  findPort portId (openapi.Server.Ports (Server.Server sv)) = Some (j, p) →
  internetResolves params m →
  AssignNetworkParameter.PrivateNetworkIds params = Some (known ++ id :: rest)%list →
  Forall (λ id, is_Some (findPrivateNetwork id m)) known →
  findPrivateNetwork id m = None →
  (ServerAssignNetwork serverId portId params m).1
  = Failure (NewError ErrorTypeInvalidRequest "port" (ArgInt portId)
               [ArgString "invalid private network id: %s"; ArgString id]).
Proof.
  intros Hfind Hport Hinternet Hids Hknown Hid.
  pose proof (findServer_Some _ _ _ _ Hfind) as [Hs _].
  pose proof (findPort_Some _ _ _ _ Hport) as [Hj _].
  assert (Hat : portAt m s j = Some p) by (unfold portAt; by rewrite Hs).
  rewrite (ServerAssignNetwork_resets _ _ _ _ _ _ _ _ Hfind Hport).
  destruct (switchInternetType_run m s j p (cleared p) portId params Hat Hinternet)
    as (internet & q1 & Hswitch & _ & _).
  rewrite (bind_Return _ _ _ _ _ Hswitch).
  rewrite (bind_Return _ _ _ _ _ (storePort_putPort _ _ _ _ _ _ Hat)).
  rewrite (bind_Return _ _ _ _ _ (switchMode_run _ _ _ _ _ _ Hat)).
  match goal with |- context [bind (ifPrivateNetworkIds s j portId params) _ (putPort s j ?q m)] =>
    destruct (rangePrivateNetworkIds_stops m s j p portId known id rest q Hat Hknown Hid)
      as (q' & Hstops & _)
  end.
  erewrite bind_Failure; [done|].
  unfold ifPrivateNetworkIds. rewrite Hids. by apply bind_Failure.
Qed.

Lemma ServerAssignNetwork_unknown_private_network_witness :
  findServer "srv-1" (servers seed) = Some (0%nat, seedServer1) ∧
  findPort 41 (openapi.Server.Ports (Server.Server seedServer1)) = Some (0%nat, seedPort) ∧
  findPrivateNetwork "pn-7" seed = None ∧
  (ServerAssignNetwork "srv-1" 41
     (AssignNetworkParameter.mk None None AssignNetworkParameterModeAccess
        (Some ["pn-2"; "pn-7"; "pn-8"])) seed).1
  = Failure (NewError ErrorTypeInvalidRequest "port" (ArgInt 41)
               [ArgString "invalid private network id: %s"; ArgString "pn-7"]).
Proof.
  assert (H1 : findServer "srv-1" (servers seed) = Some (0%nat, seedServer1))
    by (vm_compute; reflexivity).
  assert (H2 : findPort 41 (openapi.Server.Ports (Server.Server seedServer1))
               = Some (0%nat, seedPort)) by (vm_compute; reflexivity).
  assert (H3 : findPrivateNetwork "pn-7" seed = None) by (vm_compute; reflexivity).
  assert (H4 : Forall (λ id, is_Some (findPrivateNetwork id seed)) ["pn-2"]).
  { apply List.Forall_cons; [|apply List.Forall_nil].
    exists (PrivateNetwork.mk "pn-2" (Service.mk "storage")). vm_compute. reflexivity. }
  split_and!; [exact H1|exact H2|exact H3|].
  exact (ServerAssignNetwork_unknown_private_network seed "srv-1" 41
           (AssignNetworkParameter.mk None None AssignNetworkParameterModeAccess
              (Some ["pn-2"; "pn-7"; "pn-8"]))
           0 seedServer1 0 seedPort ["pn-2"] "pn-7" ["pn-8"] H1 H2 I eq_refl H4 H3).
Defined.

(** X15. With an internet type that is neither common-subnet nor
    dedicated-subnet, [ServerAssignNetwork] on an existing server and port
    panics; it returns neither a port nor an error. *)
Theorem ServerAssignNetwork_unknown_internet_type m serverId portId params s sv j p internetType :
  findServer serverId (servers m) = Some (s, sv) →
  findPort portId (openapi.Server.Ports (Server.Server sv)) = Some (j, p) →
  AssignNetworkParameter.InternetType params = Some internetType →
  internetType ≠ AssignNetworkParameterInternetTypeCommonSubnet →
  internetType ≠ AssignNetworkParameterInternetTypeDedicatedSubnet →
  (ServerAssignNetwork serverId portId params m).1 = Panicked "invalid InternetType".
Proof.
  intros Hfind Hport Htype Hcommon Hdedicated.
  rewrite (ServerAssignNetwork_resets _ _ _ _ _ _ _ _ Hfind Hport).
  erewrite bind_Panicked; [done|].
  unfold switchInternetType. rewrite Htype. by rewrite !decide_False by done.
Qed.

Lemma ServerAssignNetwork_unknown_internet_type_witness :
  findServer "srv-1" (servers seed) = Some (0%nat, seedServer1) ∧
  findPort 41 (openapi.Server.Ports (Server.Server seedServer1)) = Some (0%nat, seedPort) ∧
  (ServerAssignNetwork "srv-1" 41
     (AssignNetworkParameter.mk (Some "satellite") None AssignNetworkParameterModeAccess None)
     seed).1
  = Panicked "invalid InternetType".
Proof.
  assert (H1 : findServer "srv-1" (servers seed) = Some (0%nat, seedServer1))
    by (vm_compute; reflexivity).
  assert (H2 : findPort 41 (openapi.Server.Ports (Server.Server seedServer1))
               = Some (0%nat, seedPort)) by (vm_compute; reflexivity).
  split_and!; [exact H1|exact H2|].
  apply (ServerAssignNetwork_unknown_internet_type seed "srv-1" 41
           (AssignNetworkParameter.mk (Some "satellite") None
              AssignNetworkParameterModeAccess None)
           0 seedServer1 0 seedPort "satellite" H1 H2 eq_refl);
    intros H; discriminate H.
Defined.

(** X16. [ServerAssignNetwork] succeeds on an existing server and port
    whenever the internet part of the request resolves and every requested
    private-network identifier is in the catalog: it returns the port the
    store then holds, with one attachment per requested identifier, each with
    the nickname and identifier of the catalog entry, in the order of the
    request. *)
Theorem ServerAssignNetwork_succeeds m serverId portId params s sv j p :
  findServer serverId (servers m) = Some (s, sv) →
  findPort portId (openapi.Server.Ports (Server.Server sv)) = Some (j, p) →
  internetResolves params m →
  Forall (λ id, is_Some (findPrivateNetwork id m))
    (default [] (AssignNetworkParameter.PrivateNetworkIds params)) →
  ∃ port' m',
    ServerAssignNetwork serverId portId params m = (Return port', m') ∧
    portAt m' s j = Some port' ∧
    InterfacePort.PrivateNetworks port'
      = omap (attachment m) (default [] (AssignNetworkParameter.PrivateNetworkIds params)) ∧
    length (InterfacePort.PrivateNetworks port')
      = length (default [] (AssignNetworkParameter.PrivateNetworkIds params)).
Proof.
  intros Hfind Hport Hinternet Hknown.
  pose proof (findServer_Some _ _ _ _ Hfind) as [Hs _].
  pose proof (findPort_Some _ _ _ _ Hport) as [Hj _].
  assert (Hat : portAt m s j = Some p) by (unfold portAt; by rewrite Hs).
  rewrite (ServerAssignNetwork_resets _ _ _ _ _ _ _ _ Hfind Hport).
  destruct (switchInternetType_run m s j p (cleared p) portId params Hat Hinternet)
    as (internet & q1 & Hswitch & Hq1 & _).
  rewrite (bind_Return _ _ _ _ _ Hswitch).
  rewrite (bind_Return _ _ _ _ _ (storePort_putPort _ _ _ _ _ _ Hat)).
  rewrite (bind_Return _ _ _ _ _ (switchMode_run _ _ _ _ _ _ Hat)).
  match goal with |- context [bind (ifPrivateNetworkIds s j portId params) _ (putPort s j ?q m)] =>
    set (q3 := q)
  end.
  assert (Hq3 : InterfacePort.PrivateNetworks q3 = []).
  { subst q3. repeat case_decide; cbn; by rewrite Hq1. }
  assert (Hif : ∃ q4,
    ifPrivateNetworkIds s j portId params (putPort s j q3 m) = (Return tt, putPort s j q4 m) ∧
    InterfacePort.PrivateNetworks q4
      = omap (attachment m) (default [] (AssignNetworkParameter.PrivateNetworkIds params))).
  { unfold ifPrivateNetworkIds.
    destruct (AssignNetworkParameter.PrivateNetworkIds params) as [ids|]; cbn in Hknown |- *.
    - rewrite (bind_Return _ _ _ _ _ (rangePrivateNetworkIds_run _ _ _ _ _ _ _ Hat Hknown)).
      rewrite (storePort_putPort _ _ _ _ _ _ Hat).
      eexists. split; [done|]. cbn. by rewrite Hq3.
    - by exists q3. }
  destruct Hif as (q4 & Hif & Hq4).
  rewrite (bind_Return _ _ _ _ _ Hif).
  destruct (updatePort_putPort _ _ _ _ q4 Hat) as (m3 & Hupdate & Hstored).
  rewrite (bind_Return _ _ _ _ _ Hupdate), (loadPort_run _ _ _ _ Hstored).
  exists q4, m3. split_and!; [done|done|done|].
  rewrite Hq4. by apply length_omap_attachment.
Qed.

Lemma ServerAssignNetwork_succeeds_witness :
  findServer "srv-1" (servers seed) = Some (0%nat, seedServer1) ∧
  findPort 41 (openapi.Server.Ports (Server.Server seedServer1)) = Some (0%nat, seedPort) ∧
  ∃ port' m',
    ServerAssignNetwork "srv-1" 41
      (AssignNetworkParameter.mk (Some AssignNetworkParameterInternetTypeDedicatedSubnet)
         (Some "ds-1") AssignNetworkParameterModeTrunk (Some ["pn-2"])) seed
      = (Return port', m') ∧
    InterfacePort.PrivateNetworks port' = [AttachedPrivateNetwork.mk "storage" "pn-2"].
Proof.
  assert (H1 : findServer "srv-1" (servers seed) = Some (0%nat, seedServer1))
    by (vm_compute; reflexivity).
  assert (H2 : findPort 41 (openapi.Server.Ports (Server.Server seedServer1))
               = Some (0%nat, seedPort)) by (vm_compute; reflexivity).
  assert (H3 : internetResolves
                 (AssignNetworkParameter.mk
                    (Some AssignNetworkParameterInternetTypeDedicatedSubnet)
                    (Some "ds-1") AssignNetworkParameterModeTrunk (Some ["pn-2"])) seed).
  { right. split; [reflexivity|]. exists "ds-1". split; [reflexivity|].
    exists (DedicatedSubnet.mk "ds-1" (Service.mk "front") (Ipv4.mk "192.0.2.0" 28)).
    vm_compute. reflexivity. }
  assert (H4 : Forall (λ id, is_Some (findPrivateNetwork id seed)) ["pn-2"]).
  { apply List.Forall_cons; [|apply List.Forall_nil].
    exists (PrivateNetwork.mk "pn-2" (Service.mk "storage")). vm_compute. reflexivity. }
  split_and!; [exact H1|exact H2|].
  destruct (ServerAssignNetwork_succeeds seed "srv-1" 41
              (AssignNetworkParameter.mk
                 (Some AssignNetworkParameterInternetTypeDedicatedSubnet)
                 (Some "ds-1") AssignNetworkParameterModeTrunk (Some ["pn-2"]))
              0 seedServer1 0 seedPort H1 H2 H3 H4) as (port' & m' & Hrun & _ & Hattached & _).
  exists port', m'. split; [exact Hrun|]. rewrite Hattached. vm_compute. reflexivity.
Defined.

(** ** The RAID status *)

Lemma raids_putServer s sv sv' m :
  servers m !! s = Some sv →
  Server.Id sv' = Server.Id sv → Server.RaidStatus sv' = Server.RaidStatus sv →
  raids (putServer s sv' m) = raids m.
Proof.
  intros Hs Hid Hraid. destruct m as [[svs ds pn g] h gs].
  unfold raids, putServer, set_servers, servers in *. cbn in *.
  by rewrite list_fmap_insert, Hid, Hraid, list_insert_id by by rewrite list_lookup_fmap, Hs.
Qed.

Lemma keeps_raids_storeServer s f :
  (∀ x, openapi.Server.ServerId (f x) = openapi.Server.ServerId x) →
  keeps raids (storeServer s f).
Proof.
  intros Hf. apply keeps_store. intros m sv Hs.
  apply (raids_putServer _ sv); [done| |done]. unfold Server.Id. cbn. apply Hf.
Qed.

Lemma keeps_raids_store_PowerStatus s v : keeps raids (store s (Server.set_PowerStatus v)).
Proof. apply keeps_store. intros m sv Hs. by apply (raids_putServer _ sv). Qed.

Lemma keeps_raids_nextId : keeps raids nextId.
Proof. by intros [[]]. Qed.

Lemma keeps_raids_go f : keeps raids (go f).
Proof. by intros [[]]. Qed.

Lemma keeps_raids_new v : keeps raids (new v).
Proof. by intros [[]]. Qed.

Ltac raids_leaf :=
  idtac;
  lazymatch goal with
  | |- keeps _ (storeServer _ _) => apply keeps_raids_storeServer; intros; reflexivity
  | |- keeps _ (store _ (Server.set_PowerStatus _)) => apply keeps_raids_store_PowerStatus
  | |- keeps _ nextId => apply keeps_raids_nextId
  | |- keeps _ (go _) => apply keeps_raids_go
  | |- keeps _ (new _) => apply keeps_raids_new
  end.

Lemma keeps_raids_storePort s port f : keeps raids (storePort s port f).
Proof. unfold storePort, loadPort. keeps_structure raids_leaf. Qed.

Lemma keeps_raids_updatePort s port : keeps raids (updatePort s port).
Proof. unfold updatePort, loadPort. keeps_structure raids_leaf. Qed.

Lemma keeps_raids_storePortChannel s portChannel f :
  keeps raids (storePortChannel s portChannel f).
Proof. unfold storePortChannel, loadPortChannel. keeps_structure raids_leaf. Qed.

Lemma keeps_raids_updatePortChannel s portChannel : keeps raids (updatePortChannel s portChannel).
Proof. unfold updatePortChannel, loadPortChannel. keeps_structure raids_leaf. Qed.

Ltac raids_ports_leaf :=
  idtac;
  lazymatch goal with
  | |- keeps _ (storePort _ _ _) => apply keeps_raids_storePort
  | |- keeps _ (updatePort _ _) => apply keeps_raids_updatePort
  | |- keeps _ (storePortChannel _ _ _) => apply keeps_raids_storePortChannel
  | |- keeps _ (updatePortChannel _ _) => apply keeps_raids_updatePortChannel
  | |- _ => raids_leaf
  end.

Lemma keeps_raids_rangeOSImages serverId s params images :
  keeps raids (rangeOSImages serverId s params images).
Proof.
  induction images as [|image images IH]; cbn [rangeOSImages]; [apply keeps_fail|].
  case_decide; [|done]. unfold startOSInstall. keeps_structure raids_leaf.
Qed.

Lemma keeps_raids_rangeNames channel names : keeps raids (rangeNames channel names).
Proof.
  induction names as [|name names IH]; cbn [rangeNames]; [apply keeps_ret|].
  keeps_structure ltac:(first [exact IH | raids_leaf]).
Qed.

Lemma keeps_raids_rangePrivateNetworkIds s port portId ids :
  keeps raids (rangePrivateNetworkIds s port portId ids).
Proof.
  induction ids as [|id ids IH]; cbn [rangePrivateNetworkIds]; [apply keeps_ret|].
  unfold getPrivateNetworkById.
  keeps_structure ltac:(first [exact IH | raids_ports_leaf]).
Qed.

Lemma keeps_raids_closure now f : keeps raids (closure now f).
Proof. destruct f; cbn [closure]; keeps_structure raids_leaf. Qed.

Ltac raids_operations_leaf :=
  idtac;
  lazymatch goal with
  | |- keeps _ (rangeOSImages _ _ _ _) => apply keeps_raids_rangeOSImages
  | |- keeps _ (rangeNames _ _) => apply keeps_raids_rangeNames
  | |- keeps _ (rangePrivateNetworkIds _ _ _ _) => apply keeps_raids_rangePrivateNetworkIds
  | |- keeps _ (closure _ _) => apply keeps_raids_closure
  | |- keeps _ (modify _) => apply keeps_modify; intros [[]]; reflexivity
  | |- _ => raids_ports_leaf
  end.

Lemma ReadRAIDStatus_run serverId params m s sv :
  findServer serverId (servers m) = Some (s, sv) →
  ReadRAIDStatus serverId params m = (Return (Server.RaidStatus sv), m).
Proof.
  intros H. unfold ReadRAIDStatus.
  rewrite (bind_Return _ _ _ _ _ (getServerById_run _ _)), H. cbn.
  apply findServer_Some in H as [H _].
  by rewrite (bind_Return _ _ _ _ _ (load_run _ _ _ H)).
Qed.

(** What [ReadRAIDStatus] returns is read off the pointers of [raids]. *)
Lemma ReadRAIDStatus_raids serverId params m :
  (ReadRAIDStatus serverId params m).1
  = match list_find (λ x : string * option raid, x.1 = serverId) (raids m) with
    | Some (_, (_, r)) => Return r
    | None => Failure (NewError ErrorTypeNotFound "server" (ArgString serverId) [])
    end.
Proof.
  unfold raids. rewrite list_find_fmap.
  change (list_find _ (servers m)) with (findServer serverId (servers m)).
  destruct (findServer serverId (servers m)) as [[s sv]|] eqn:Hfind.
  - by rewrite (ReadRAIDStatus_run serverId params m s sv Hfind).
  - unfold ReadRAIDStatus. by rewrite (bind_Return _ _ _ _ _ (getServerById_run _ _)), Hfind.
Qed.

Lemma keeps_reading_raid {A} serverId params (c : Go A) :
  keeps raids c → keeps (λ m, (ReadRAIDStatus serverId params m).1) c.
Proof. intros Hc m. cbn beta. by rewrite !ReadRAIDStatus_raids, Hc. Qed.

(** X17. [ReadRAIDStatus] on an existing server returns the RAID-status
    pointer its record holds and leaves the machine as it was. No operation
    of the engine (the fourteen from [ListServers] to [ReadRAIDStatus]) and
    no background action assigns that pointer: whatever an operation or a
    background action does and however it ends, a [ReadRAIDStatus] after it
    returns, for every server identifier, what it returned before. *)
Theorem raid_status_is_never_assigned serverId params :
  let reading (m : Machine.t) := (ReadRAIDStatus serverId params m).1 in
  (∀ m s sv, findServer serverId (servers m) = Some (s, sv) →
     ReadRAIDStatus serverId params m = (Return (Server.RaidStatus sv), m)) ∧
  (∀ p, keeps reading (ListServers p)) ∧
  (∀ id, keeps reading (ReadServer id)) ∧
  (∀ id, keeps reading (ListOSImages id)) ∧
  (∀ id p, keeps reading (OSInstall id p)) ∧
  (∀ id portChannelId, keeps reading (ReadServerPortChannel id portChannelId)) ∧
  (∀ id portChannelId p, keeps reading (ServerConfigureBonding id portChannelId p)) ∧
  (∀ id portId, keeps reading (ReadServerPort id portId)) ∧
  (∀ id portId p, keeps reading (UpdateServerPort id portId p)) ∧
  (∀ id portId p, keeps reading (ServerAssignNetwork id portId p)) ∧
  (∀ id portId p, keeps reading (EnableServerPort id portId p)) ∧
  (∀ id portId p now, keeps reading (ReadServerTrafficByPort id portId p now)) ∧
  (∀ id p, keeps reading (ServerPowerControl id p)) ∧
  (∀ id, keeps reading (ReadServerPowerStatus id)) ∧
  (∀ id p, keeps reading (ReadRAIDStatus id p)) ∧
  (∀ now i, keeps reading (schedule now i)).
Proof.
  intros reading.
  split_and!; [intros m s sv; apply ReadRAIDStatus_run|intros; apply keeps_reading_raid..].
  - unfold ListServers, engine_servers. keeps_structure ltac:(fail).
  - unfold ReadServer, getServerById. keeps_structure ltac:(fail).
  - unfold ListOSImages, getServerById. keeps_structure ltac:(fail).
  - unfold OSInstall, getServerById.
    keeps_structure raids_operations_leaf.
  - unfold ReadServerPortChannel, getServerById, getPortChannelById. keeps_structure ltac:(fail).
  - unfold ServerConfigureBonding, getServerById, getPortChannelById, loadPortChannel,
      switchBondingType.
    keeps_structure raids_operations_leaf.
  - unfold ReadServerPort, getServerById, getPortById. keeps_structure ltac:(fail).
  - unfold UpdateServerPort, getServerById, getPortById, loadPort.
    keeps_structure raids_ports_leaf.
  - unfold ServerAssignNetwork, getServerById, getPortById, loadPort, switchInternetType,
      switchMode, ifPrivateNetworkIds, getDedicatedSubnetById.
    keeps_structure raids_operations_leaf.
  - unfold EnableServerPort, getServerById, getPortById, loadPort.
    keeps_structure raids_ports_leaf.
  - unfold ReadServerTrafficByPort, getServerById. keeps_structure ltac:(fail).
  - unfold ServerPowerControl, getServerById, startServerPowerControl.
    keeps_structure raids_leaf.
  - unfold ReadServerPowerStatus, getServerById. keeps_structure ltac:(fail).
  - unfold ReadRAIDStatus, getServerById. keeps_structure ltac:(fail).
  - unfold schedule, startUpdateAction.
    keeps_structure raids_operations_leaf.
Qed.

Lemma raid_status_is_never_assigned_witness :
  findServer "srv-1" (servers seed) = Some (0%nat, seedServer1) ∧
  ReadRAIDStatus "srv-1" ReadRAIDStatusParams.mk seed = (Return (Some 0%nat), seed) ∧
  (ReadRAIDStatus "srv-1" ReadRAIDStatusParams.mk
     (ServerPowerControl "srv-1" (PowerControlParameter.mk "off") seed).2).1
  = Return (Some 0%nat).
Proof.
  assert (H : findServer "srv-1" (servers seed) = Some (0%nat, seedServer1))
    by (vm_compute; reflexivity).
  destruct (raid_status_is_never_assigned "srv-1" ReadRAIDStatusParams.mk)
    as (Hread & _ & _ & _ & _ & _ & _ & _ & _ & _ & _ & _ & Hpower & _).
  split_and!; [exact H|exact (Hread seed 0%nat seedServer1 H)|].
  rewrite (Hpower "srv-1" (PowerControlParameter.mk "off") seed).
  by rewrite (Hread seed 0%nat seedServer1 H).
Defined.
